(** * labellint: schema validation, lint rules and the scan engine

    A shallow embedding of [labellint.formats] (the pydantic schema of a COCO
    dataset and [parse_coco]), of the rules of [labellint.rules], and of
    [labellint.core] ([run_scan] and [format_json]).

    Conventions of the embedding.
    - A Python [int] is a [Z]. A Python [float] is a binary64 number, the
      primitive [float]: its sums, products, quotients and comparisons are
      the ones of IEEE 754, with their rounding, their infinities and NaN.
      One product is computed exactly, as a rational: the one of the number
      of annotations by 0.001, in the rule of the class imbalance.
    - The value tree returned by [json.loads] is the type [value]; a Python
      [dict] with string keys is an insertion-ordered association list.
    - Code that can raise returns a sum: [inl] carries the exception.
    - pydantic's scalar coercions (what besides a JSON integer is accepted
      for an [int] field, and so on) belong to the library and are a
      parameter, the class [Scalars]; so are [str.lower], of Unicode,
      [numpy.percentile], and the text that [json.dumps] writes. *)

From Stdlib Require Import ZArith QArith Qabs Qround Qpower Lia Lqa Floats.
From stdpp Require Import base option list gmap strings pretty sorting.

Open Scope string_scope.
Open Scope list_scope.
Open Scope Z_scope.

#[local] Set Warnings "-inexact-float".

(** ** Python floats *)

(** The number that a float stands for, when it is finite. *)
Definition SF2Q (x : spec_float) : Q :=
  match x with
  | S754_finite s m e => inject_Z (cond_Zopp s (Zpos m)) * 2 ^ e
  | _ => 0
  end.

Definition float_value (f : float) : Q := SF2Q (Prim2SF f).

(** The order between a float and an [int]: Python compares the two
    numbers as they are, without rounding the [int] to a float. NaN is not
    comparable. *)
Definition float_compare_int (f : float) (z : Z) : option comparison :=
  match Prim2SF f with
  | S754_nan => None
  | S754_infinity s => Some (if s then Lt else Gt)
  | x => Some (SF2Q x ?= inject_Z z)%Q
  end.

(** [f < z] and [f > z] *)
Definition float_lt_int (f : float) (z : Z) : bool :=
  match float_compare_int f z with Some Lt => true | _ => false end.
Definition float_gt_int (f : float) (z : Z) : bool :=
  match float_compare_int f z with Some Gt => true | _ => false end.

(** [float(z)] for a positive [int]: the nearest float, ties to even; it
    is positive. [OverflowError], here [None], when it is not finite. *)
Definition float_of_pos (p : positive) : option float :=
  let f := SF2Prim (binary_normalize prec emax (Zpos p) 0 false) in
  if (0 <? f)%float && (f <? infinity)%float then Some f else None.

(** [float(z)] *)
Definition float_of_int (z : Z) : option float :=
  match z with
  | Z0 => Some 0%float
  | Zpos p => float_of_pos p
  | Zneg p => PrimFloat.opp <$> float_of_pos p
  end.

(** ** Python values *)

#[local] Set Warnings "-register-all".

Inductive value :=
| VNone
| VBool (b : bool)
| VInt (z : Z)
| VFloat (f : float)
| VStr (s : string)
| VList (l : list value)
| VDict (d : list (string * value)).

(** [Dict[str, A]]: insertion-ordered, [d[k] = v] keeps the position of an
    existing key. *)
Abbreviation pydict A := (list (string * A)).

Fixpoint dict_get {A} (k : string) (d : pydict A) : option A :=
  match d with
  | [] => None
  | (k', v) :: d' => if String.eqb k k' then Some v else dict_get k d'
  end.

Fixpoint dict_set {A} (k : string) (v : A) (d : pydict A) : pydict A :=
  match d with
  | [] => [(k, v)]
  | (k', v') :: d' =>
      if String.eqb k k' then (k', v) :: d' else (k', v') :: dict_set k v d'
  end.

Definition dict_keys {A} (d : pydict A) : list string := d.*1.
Definition dict_values {A} (d : pydict A) : list A := d.*2.

(** ** Comparisons of rationals *)

Definition Qltb (a b : Q) : bool := negb (Qle_bool b a).

(** ** Validation errors

    One entry of pydantic's [ValidationError.errors()]: where, and what. *)

Inductive loc_item :=
| LKey (k : string)
| LIdx (i : nat).

Inductive error_type :=
| missing
| extra_forbidden
| int_type
| float_type
| string_type
| list_type
| dict_type
| model_type (class_name : string)
| greater_than (gt : Z)
| greater_than_equal (ge : Z)
| less_than_equal (le : Z)
| too_short (min_length actual_length : nat)
| too_long (max_length actual_length : nat)
| value_error (message : string).

Record ErrorDetails := { loc : list loc_item; type : error_type }.

(** The error monad of validation: the first error, in the order in which
    pydantic collects them (fields in declaration order, then extra keys). *)
Abbreviation validation := (sum ErrorDetails).

#[global] Instance validation_ret : MRet validation := λ A x, inr x.
#[global] Instance validation_bind : MBind validation :=
  λ A B f m, match m with inl e => inl e | inr x => f x end.
#[global] Instance validation_fmap : FMap validation :=
  λ A B f m, match m with inl e => inl e | inr x => inr (f x) end.

Definition fail {A} (t : error_type) : validation A :=
  inl {| loc := []; type := t |}.

Definition at_loc {A} (i : loc_item) (r : validation A) : validation A :=
  match r with
  | inl e => inl {| loc := i :: loc e; type := type e |}
  | inr x => inr x
  end.

(** ** String formatting *)

Definition round_half_even (q : Q) : Z :=
  let f := Qfloor q in
  match (q - inject_Z f ?= 1 # 2)%Q with
  | Lt => f
  | Gt => f + 1
  | Eq => if Z.even f then f else f + 1
  end.

Fixpoint digits (n : nat) (z : Z) : string :=
  match n with
  | O => ""
  | S n' => digits n' (z / 10) +:+ pretty (z mod 10)
  end.

(** The decimal expansion with [n] digits after the point, [n] at least
    one, of a rational that is not negative: the nearest one, ties to
    even. *)
Definition format_fixed (n : nat) (q : Q) : string :=
  let scale := 10 ^ Z.of_nat n in
  let r := round_half_even (q * inject_Z scale) in
  pretty (r / scale) +:+ "." +:+ digits n (r mod scale).

(** [f"{x:.nf}"] for a float: the expansion of the number that the float
    stands for, after its sign. *)
Definition format_float (n : nat) (x : float) : string :=
  match Prim2SF x with
  | S754_nan => "nan"
  | S754_infinity s => if s then "-inf" else "inf"
  | S754_zero s => (if s then "-" else "") +:+ format_fixed n 0
  | S754_finite s m e =>
      (if s then "-" else "") +:+ format_fixed n (SF2Q (S754_finite false m e))
  end.

(** What the libraries decide: pydantic's validators of the scalar types
    and its table of messages, and Python's [str] of a [float]. Only what
    every mode of pydantic guarantees is assumed: a value that already has
    the type of the field is accepted unchanged, NaN and the infinities
    included; an [int] that is accepted for a [float] keeps its sign. *)
Class Scalars := {
  as_int : value → validation Z;
  as_float : value → validation float;
  as_str : value → validation string;
  error_msg : error_type → string;
  float_str : float → string;
  as_int_int z : as_int (VInt z) = inr z;
  as_float_float f : as_float (VFloat f) = inr f;
  as_float_int z f :
    as_float (VInt z) = inr f → z < 0 → (f <? 0)%float = true;
  as_str_str s : as_str (VStr s) = inr s
}.

(** Strict mode: nothing is coerced except [int] to [float], by [float(z)].
    A float is written with one decimal, which is [str] for the floats with
    an integral value below 1e16. *)
#[global, refine] Instance strict_scalars : Scalars := {|
  as_int v := match v with VInt z => inr z | _ => fail int_type end;
  as_float v :=
    match v with
    | VFloat f => inr f
    | VInt z =>
        match float_of_int z with
        | Some f => inr f
        | None => fail float_type
        end
    | _ => fail float_type
    end;
  as_str v := match v with VStr s => inr s | _ => fail string_type end;
  error_msg t :=
    match t with
    | missing => "Field required"
    | extra_forbidden => "Extra inputs are not permitted"
    | int_type => "Input should be a valid integer"
    | float_type => "Input should be a valid number"
    | string_type => "Input should be a valid string"
    | list_type => "Input should be a valid list"
    | dict_type => "Input should be a valid dictionary"
    | model_type c => "Input should be a valid dictionary or instance of " +:+ c
    | greater_than b => "Input should be greater than " +:+ pretty b
    | greater_than_equal b =>
        "Input should be greater than or equal to " +:+ pretty b
    | less_than_equal b =>
        "Input should be less than or equal to " +:+ pretty b
    | too_short n k =>
        "List should have at least " +:+ pretty n
        +:+ " items after validation, not " +:+ pretty k
    | too_long n k =>
        "List should have at most " +:+ pretty n
        +:+ " items after validation, not " +:+ pretty k
    | value_error m => "Value error, " +:+ m
    end;
  float_str f := format_float 1 f
|}.
Proof.
  all: try reflexivity.
  intros [|p|p] f Hf; [lia|lia|]. intros _. simpl in Hf.
  unfold float_of_pos in Hf.
  destruct (0 <? _)%float eqn:Epos; [|done].
  destruct (_ <? infinity)%float; [|done]. simpl in Hf. injection Hf as <-.
  revert Epos. rewrite !ltb_spec, opp_spec.
  change (Prim2SF 0) with (S754_zero false).
  by destruct (Prim2SF _) as [[]|[]| |[] m e].
Defined.

(** ** Field combinators *)

Section Fields.
Context {A : Type}.

(** A field without default. *)
Definition required (name : string) (val : value → validation A)
    (d : pydict value) : validation A :=
  match dict_get name d with
  | Some v => at_loc (LKey name) (val v)
  | None => at_loc (LKey name) (fail missing)
  end.

(** A field with a default, which is not validated. *)
Definition with_default (name : string) (val : value → validation A)
    (default : A) (d : pydict value) : validation A :=
  match dict_get name d with
  | Some v => at_loc (LKey name) (val v)
  | None => inr default
  end.

(** [Optional[T]] *)
Definition optional (val : value → validation A) (v : value)
    : validation (option A) :=
  match v with
  | VNone => inr None
  | _ => Some <$> val v
  end.

Fixpoint validate_items (val : value → validation A) (i : nat)
    (l : list value) : validation (list A) :=
  match l with
  | [] => inr []
  | v :: l' =>
      x ← at_loc (LIdx i) (val v);
      xs ← validate_items val (S i) l';
      mret (x :: xs)
  end.

(** [List[T]] *)
Definition list_of (val : value → validation A) (v : value)
    : validation (list A) :=
  match v with
  | VList l => validate_items val 0 l
  | _ => fail list_type
  end.

(** [List[T]] with [Field(min_length=..., max_length=...)]: a list with
    more items than [max_length] is rejected for that, whatever its items;
    then come the errors of the items, and then [min_length]. *)
Definition list_between (lo hi : nat) (val : value → validation A)
    (v : value) : validation (list A) :=
  match v with
  | VList l =>
      if (hi <? length l)%nat then fail (too_long hi (length l))
      else
        xs ← validate_items val 0 l;
        if (length xs <? lo)%nat then fail (too_short lo (length xs))
        else inr xs
  | _ => fail list_type
  end.
End Fields.

Definition known_field (fields : list string) (k : string) : bool :=
  existsb (String.eqb k) fields.

(** [extra="forbid"]: the first key that is not a field is an error. *)
Definition forbid_extra (fields : list string) (d : pydict value)
    : validation unit :=
  match List.find (λ kv, negb (known_field fields kv.1)) d with
  | Some (k, _) => inl {| loc := [LKey k]; type := extra_forbidden |}
  | None => inr ()
  end.

(** [extra="allow"]: the keys that are not fields are kept. *)
Definition allow_extra (fields : list string) (d : pydict value)
    : pydict value :=
  List.filter (λ kv, negb (known_field fields kv.1)) d.

(** [Field(gt=...)], [Field(ge=...)], [Field(le=...)] on an [int]. *)
Definition int_gt (bound : Z) (z : Z) : validation Z :=
  if bound <? z then inr z else fail (greater_than bound).
Definition int_ge (bound : Z) (z : Z) : validation Z :=
  if bound <=? z then inr z else fail (greater_than_equal bound).
Definition int_le (bound : Z) (z : Z) : validation Z :=
  if z <=? bound then inr z else fail (less_than_equal bound).

(** [Field(ge=...)] on a [float], for a bound that is a whole number: the
    float is rejected when it is below the bound, which NaN is not. *)
Definition float_ge (bound : Z) (x : float) : validation float :=
  if float_lt_int x bound then fail (greater_than_equal bound)
  else inr x.

(** ** The schema: pydantic models of [labellint.formats]

    Each model has [model_validate], from a value tree, and [model_dump],
    back to one. [model_validate] follows the fields, constraints and
    [model_config] that the class declares. [model_dump] is pydantic's, as
    the fixtures of the tests call it: one key for each field in the order of
    declaration, [None] for an optional field that is absent, and then, for
    the info block, its extra keys. *)

Definition dump_optional {A} (dump : A → value) (o : option A) : value :=
  match o with
  | Some x => dump x
  | None => VNone
  end.

Module COCOInfo.
(** [extra="allow"]: [extra] holds the keys that are not fields. *)
Record t := {
  year : option Z;
  version : option string;
  description : option string;
  contributor : option string;
  url : option string;
  date_created : option string;
  extra : pydict value
}.

Definition fields : list string :=
  ["year"; "version"; "description"; "contributor"; "url"; "date_created"].

Section Validate.
Context `{Scalars}.

Definition model_validate (v : value) : validation t :=
  match v with
  | VDict d =>
      year ← with_default "year" (optional as_int) None d;
      version ← with_default "version" (optional as_str) None d;
      description ← with_default "description" (optional as_str) None d;
      contributor ← with_default "contributor" (optional as_str) None d;
      url ← with_default "url" (optional as_str) None d;
      date_created ← with_default "date_created" (optional as_str) None d;
      mret {| year := year; version := version;
              description := description; contributor := contributor;
              url := url; date_created := date_created;
              extra := allow_extra fields d |}
  | _ => fail (model_type "COCOInfo")
  end.
End Validate.

Definition model_dump (x : t) : value :=
  VDict ([("year", dump_optional VInt (year x));
          ("version", dump_optional VStr (version x));
          ("description", dump_optional VStr (description x));
          ("contributor", dump_optional VStr (contributor x));
          ("url", dump_optional VStr (url x));
          ("date_created", dump_optional VStr (date_created x))]
         ++ extra x).
End COCOInfo.

Module COCOLicense.
Record t := {
  id : Z;
  name : string;
  url : option string
}.

Definition fields : list string := ["id"; "name"; "url"].

Section Validate.
Context `{Scalars}.

Definition model_validate (v : value) : validation t :=
  match v with
  | VDict d =>
      id ← required "id" as_int d;
      name ← required "name" as_str d;
      url ← with_default "url" (optional as_str) None d;
      _ ← forbid_extra fields d;
      mret {| id := id; name := name; url := url |}
  | _ => fail (model_type "COCOLicense")
  end.
End Validate.

Definition model_dump (x : t) : value :=
  VDict [("id", VInt (id x));
         ("name", VStr (name x));
         ("url", dump_optional VStr (url x))].
End COCOLicense.

Module COCOImage.
Record t := {
  id : Z;
  width : Z;
  height : Z;
  file_name : string;
  license : option Z;
  flickr_url : option string;
  coco_url : option string;
  date_captured : option string
}.

Definition fields : list string :=
  ["id"; "width"; "height"; "file_name"; "license"; "flickr_url";
   "coco_url"; "date_captured"].

Section Validate.
Context `{Scalars}.

Definition model_validate (v : value) : validation t :=
  match v with
  | VDict d =>
      id ← required "id" as_int d;
      width ← required "width" (λ v, as_int v ≫= int_gt 0) d;
      height ← required "height" (λ v, as_int v ≫= int_gt 0) d;
      file_name ← required "file_name" as_str d;
      license ← with_default "license" (optional as_int) None d;
      flickr_url ← with_default "flickr_url" (optional as_str) None d;
      coco_url ← with_default "coco_url" (optional as_str) None d;
      date_captured ← with_default "date_captured" (optional as_str) None d;
      _ ← forbid_extra fields d;
      mret {| id := id; width := width; height := height;
              file_name := file_name; license := license;
              flickr_url := flickr_url; coco_url := coco_url;
              date_captured := date_captured |}
  | _ => fail (model_type "COCOImage")
  end.
End Validate.

Definition model_dump (x : t) : value :=
  VDict [("id", VInt (id x));
         ("width", VInt (width x));
         ("height", VInt (height x));
         ("file_name", VStr (file_name x));
         ("license", dump_optional VInt (license x));
         ("flickr_url", dump_optional VStr (flickr_url x));
         ("coco_url", dump_optional VStr (coco_url x));
         ("date_captured", dump_optional VStr (date_captured x))].
End COCOImage.

(** [Union[List[Any], Dict[str, Any]]] *)
Inductive Segmentation :=
| SegList (l : list value)
| SegDict (d : pydict value).

Module COCOAnnotation.
Record t := {
  id : Z;
  image_id : Z;
  category_id : Z;
  segmentation : Segmentation;
  area : float;
  bbox : list float;
  iscrowd : Z
}.

Definition fields : list string :=
  ["id"; "image_id"; "category_id"; "segmentation"; "area"; "bbox";
   "iscrowd"].

Section Validate.
Context `{Scalars}.

(** The field validator of [bbox]; [inl] is the message of the
    [ValueError] that it raises, or that unpacking raises. *)
Definition bbox_must_have_positive_dimensions (v : list float)
    : string + list float :=
  match v with
  | [_x; _y; w; h] =>
      if (w <? 0)%float || (h <? 0)%float
      then inl ("Bounding box dimensions [width, height] must be non-negative. "
                +:+ "Got [w=" +:+ float_str w +:+ ", h=" +:+ float_str h +:+ "]")
      else inr v
  | _ :: _ :: _ :: _ :: _ :: _ => inl "too many values to unpack (expected 4)"
  | _ =>
      inl ("not enough values to unpack (expected 4, got "
           +:+ pretty (length v) +:+ ")")
  end.

Definition validate_segmentation (v : value) : validation Segmentation :=
  match v with
  | VList l => inr (SegList l)
  | VDict d => inr (SegDict d)
  | _ => at_loc (LKey "list[any]") (fail list_type)
  end.

Definition validate_bbox (v : value) : validation (list float) :=
  l ← list_between 4 4 as_float v;
  match bbox_must_have_positive_dimensions l with
  | inl msg => fail (value_error msg)
  | inr l => inr l
  end.

Definition model_validate (v : value) : validation t :=
  match v with
  | VDict d =>
      id ← required "id" as_int d;
      image_id ← required "image_id" as_int d;
      category_id ← required "category_id" as_int d;
      segmentation ←
        with_default "segmentation" validate_segmentation (SegList []) d;
      area ← required "area" (λ v, as_float v ≫= float_ge 0) d;
      bbox ← required "bbox" validate_bbox d;
      iscrowd ←
        required "iscrowd" (λ v, z ← as_int v; z ← int_ge 0 z; int_le 1 z) d;
      _ ← forbid_extra fields d;
      mret {| id := id; image_id := image_id; category_id := category_id;
              segmentation := segmentation; area := area; bbox := bbox;
              iscrowd := iscrowd |}
  | _ => fail (model_type "COCOAnnotation")
  end.
End Validate.

Definition dump_segmentation (s : Segmentation) : value :=
  match s with
  | SegList l => VList l
  | SegDict d => VDict d
  end.

Definition model_dump (x : t) : value :=
  VDict [("id", VInt (id x));
         ("image_id", VInt (image_id x));
         ("category_id", VInt (category_id x));
         ("segmentation", dump_segmentation (segmentation x));
         ("area", VFloat (area x));
         ("bbox", VList (VFloat <$> bbox x));
         ("iscrowd", VInt (iscrowd x))].
End COCOAnnotation.

Module COCOCategory.
Record t := {
  id : Z;
  name : string;
  supercategory : option string
}.

Definition fields : list string := ["id"; "name"; "supercategory"].

Section Validate.
Context `{Scalars}.

Definition model_validate (v : value) : validation t :=
  match v with
  | VDict d =>
      id ← required "id" as_int d;
      name ← required "name" as_str d;
      supercategory ←
        with_default "supercategory" (optional as_str) None d;
      _ ← forbid_extra fields d;
      mret {| id := id; name := name; supercategory := supercategory |}
  | _ => fail (model_type "COCOCategory")
  end.
End Validate.

Definition model_dump (x : t) : value :=
  VDict [("id", VInt (id x));
         ("name", VStr (name x));
         ("supercategory", dump_optional VStr (supercategory x))].
End COCOCategory.

Module COCOData.
Record t := {
  info : COCOInfo.t;
  licenses : list COCOLicense.t;
  images : list COCOImage.t;
  annotations : list COCOAnnotation.t;
  categories : list COCOCategory.t
}.

Definition fields : list string :=
  ["info"; "licenses"; "images"; "annotations"; "categories"].

Section Validate.
Context `{Scalars}.

Definition model_validate (v : value) : validation t :=
  match v with
  | VDict d =>
      info ← required "info" COCOInfo.model_validate d;
      licenses ←
        required "licenses" (list_of COCOLicense.model_validate) d;
      images ← required "images" (list_of COCOImage.model_validate) d;
      annotations ←
        required "annotations" (list_of COCOAnnotation.model_validate) d;
      categories ←
        required "categories" (list_of COCOCategory.model_validate) d;
      _ ← forbid_extra fields d;
      mret {| info := info; licenses := licenses; images := images;
              annotations := annotations; categories := categories |}
  | _ => fail (model_type "COCOData")
  end.
End Validate.

Definition model_dump (x : t) : value :=
  VDict [("info", COCOInfo.model_dump (info x));
         ("licenses", VList (COCOLicense.model_dump <$> licenses x));
         ("images", VList (COCOImage.model_dump <$> images x));
         ("annotations", VList (COCOAnnotation.model_dump <$> annotations x));
         ("categories", VList (COCOCategory.model_dump <$> categories x))].
End COCOData.

(** ** [parse_coco] *)

(** An instance of Python's [Exception], of some class: what
    [except Exception] catches. *)
Inductive Exception := Raise (class_name : string).

(** What [parse_coco] raises: [FileAccessError] and [InvalidFormatError],
    the two subclasses of [ParseError], or an exception that none of its
    [except] clauses catches. *)
Inductive Raised :=
| FileAccessError (msg : string)
| InvalidFormatError (msg : string)
| Uncaught (e : Exception).

(** [isinstance(e, ParseError)] *)
Definition is_ParseError (e : Raised) : bool :=
  match e with
  | FileAccessError _ | InvalidFormatError _ => true
  | Uncaught _ => false
  end.

(** What [Path.read_text] can raise, as the [except] clauses tell them
    apart; the string is [str(e)]. *)
Inductive ReadError :=
| FileNotFoundError
| OSError (e : string)
| OtherException (e : string).

Record JSONDecodeError := { lineno : nat; colno : nat; msg : string }.

(** What [json.loads] can raise: [JSONDecodeError] on a text that is not
    JSON, and on some texts that are JSON an exception of another class:
    [RecursionError] when arrays or objects are nested too deeply,
    [ValueError] when an integer has more digits than [int] converts. *)
Inductive LoadsError :=
| DecodeError (e : JSONDecodeError)
| OtherError (e : Exception).

Definition loc_str (l : list loc_item) : string :=
  String.concat " -> "
    ((λ i, match i with LKey k => k | LIdx n => pretty n end) <$> l).

Section ParseCoco.
Context `{Scalars}.
(** The file system and the JSON parser. *)
Variable read_text : string → ReadError + string.
Variable json_loads : string → LoadsError + value.

Definition parse_coco (filepath : string) : Raised + COCOData.t :=
  (* Stage 1: file reading *)
  match read_text filepath with
  | inl FileNotFoundError =>
      inl (FileAccessError "The specified file does not exist.")
  | inl (OSError e) =>
      inl (FileAccessError
             ("Could not read the file due to an OS-level error: " +:+ e))
  | inl (OtherException e) =>
      inl (FileAccessError
             ("An unexpected error occurred while reading the file: " +:+ e))
  | inr raw_content =>
      (* Stage 2: JSON parsing *)
      match json_loads raw_content with
      | inl (DecodeError e) =>
          inl (InvalidFormatError
                 ("File is not a valid JSON document. Error at line "
                  +:+ pretty (lineno e) +:+ ", column "
                  +:+ pretty (colno e) +:+ ": " +:+ msg e))
      | inl (OtherError e) =>
          (* not a [json.JSONDecodeError]: no clause catches it *)
          inl (Uncaught e)
      | inr data =>
          (* Stage 3: schema validation *)
          match COCOData.model_validate data with
          | inr coco_data => inr coco_data
          | inl first_error =>
              inl (InvalidFormatError
                     ("Data validation failed at '"
                      +:+ loc_str (loc first_error) +:+ "': "
                      +:+ error_msg (type first_error)))
          end
      end
  end.
End ParseCoco.

(** ** The rules of [labellint.rules] *)

(** A rule returns its findings or raises. *)

Abbreviation outcome := (sum Exception (list string)).

#[global] Instance outcome_ret : MRet (sum Exception) := λ A x, inr x.
#[global] Instance outcome_bind : MBind (sum Exception) :=
  λ A B f m, match m with inl e => inl e | inr x => f x end.

(** [for x in l: body], where the body updates the loop state or raises. *)
Fixpoint for_each {A S} (l : list A) (body : S → A → Exception + S) (s : S)
    : Exception + S :=
  match l with
  | [] => inr s
  | x :: l' => s' ← body s x; for_each l' body s'
  end.

(** [a, b, c, d = v] *)
Definition unpack4 {A} (v : list A) : Exception + (A * A * A * A) :=
  match v with
  | [a; b; c; d] => inr (a, b, c, d)
  | _ => inl (Raise "ValueError")
  end.

(** [{x.id: x for x in l}]: a later item replaces an earlier one. *)
Definition dict_by {A} (key : A → Z) (l : list A) : gmap Z A :=
  foldl (λ m x, <[key x := x]> m) ∅ l.

(** [collections.Counter]: counts in the order of first occurrence. *)
Fixpoint counter_add (k : Z) (c : list (Z * nat)) : list (Z * nat) :=
  match c with
  | [] => [(k, 1%nat)]
  | (k', n) :: c' =>
      if k =? k' then (k', S n) :: c' else (k', n) :: counter_add k c'
  end.

Definition Counter (l : list Z) : list (Z * nat) :=
  foldl (λ c k, counter_add k c) [] l.

(** [numpy.isclose(a, b, rtol=..., atol=...)] of two floats:
    [|a - b| <= atol + rtol * |b|] in the arithmetic of floats for a finite
    [b], and two equal numbers are close. *)
Definition isclose (a b rtol atol : float) : bool :=
  ((PrimFloat.abs (a - b) <=? atol + rtol * PrimFloat.abs b)
   && PrimFloat.is_finite b
   || (a =? b))%float.

(** The default [atol] of [numpy.isclose]. *)
Definition default_atol : float := 1e-8.

(** [max(a, b)] *)
Definition py_max (a b : Q) : Q := if Qltb a b then b else a.

Section Rules.
Import COCOData.

Definition check_relation_images_without_annotations (data : COCOData.t)
    : outcome :=
  match annotations data with
  | [] => inr []
  | _ =>
      let annotated_image_ids : gset Z :=
        list_to_set (COCOAnnotation.image_id <$> annotations data) in
      inr (foldl
             (λ findings image,
                if bool_decide (COCOImage.id image ∉ annotated_image_ids)
                then findings ++
                       ["Image '" +:+ COCOImage.file_name image
                        +:+ "' (ID " +:+ pretty (COCOImage.id image)
                        +:+ ") has no annotations."]
                else findings)
             [] (images data))
  end.

Definition check_geometry_bbox_out_of_bounds (data : COCOData.t)
    : outcome :=
  let images_by_id := dict_by COCOImage.id (images data) in
  for_each (annotations data)
    (λ findings ann,
       match images_by_id !! COCOAnnotation.image_id ann with
       | None => inr findings
       | Some image =>
           '(x1, y1, w, h) ← unpack4 (COCOAnnotation.bbox ann);
           let x2 := (x1 + w)%float in
           let y2 := (y1 + h)%float in
           if (x1 <? 0)%float || (y1 <? 0)%float
              || float_gt_int x2 (COCOImage.width image)
              || float_gt_int y2 (COCOImage.height image)
           then inr (findings ++
                       ["Annotation (ID " +:+ pretty (COCOAnnotation.id ann)
                        +:+ ") on image '" +:+ COCOImage.file_name image
                        +:+ "' (ID " +:+ pretty (COCOAnnotation.image_id ann)
                        +:+ ") is out of bounds. "
                        +:+ "Bbox [x2=" +:+ format_float 1 x2
                        +:+ ", y2=" +:+ format_float 1 y2
                        +:+ "] vs. Image [w=" +:+ pretty (COCOImage.width image)
                        +:+ ", h=" +:+ pretty (COCOImage.height image)
                        +:+ "]."])
           else inr findings
       end)
    [].

(** [bool(s)], [isinstance(s, list)] and [len(s)] of a segmentation. *)
Definition segmentation_truthy (s : Segmentation) : bool :=
  match s with
  | SegList l => negb (bool_decide (length l = 0%nat))
  | SegDict d => negb (bool_decide (length d = 0%nat))
  end.
Definition segmentation_is_list (s : Segmentation) : bool :=
  match s with SegList _ => true | SegDict _ => false end.
Definition segmentation_len (s : Segmentation) : nat :=
  match s with SegList l => length l | SegDict d => length d end.

Definition check_attribute_area_bbox_mismatch (data : COCOData.t)
    : outcome :=
  for_each (annotations data)
    (λ findings ann,
       if segmentation_truthy (COCOAnnotation.segmentation ann)
          && segmentation_is_list (COCOAnnotation.segmentation ann)
          && (0 <? segmentation_len (COCOAnnotation.segmentation ann))%nat
       then inr findings
       else
         '(_x, _y, w, h) ← unpack4 (COCOAnnotation.bbox ann);
         let bbox_area := (w * h)%float in
         if negb (isclose bbox_area (COCOAnnotation.area ann) 1e-3
                    default_atol)
         then inr (findings ++
                     ["Annotation (ID " +:+ pretty (COCOAnnotation.id ann)
                      +:+ ") has a mismatched area. "
                      +:+ "Bbox area is " +:+ format_float 2 bbox_area
                      +:+ ", but 'area' attribute is "
                      +:+ format_float 2 (COCOAnnotation.area ann) +:+ "."])
         else inr findings)
    [].

Definition check_statistical_class_distribution_imbalance
    (data : COCOData.t) : outcome :=
  let total_annotations := length (annotations data) in
  if bool_decide (total_annotations = 0%nat) || (total_annotations <? 50)%nat
  then inr []
  else
    let category_counts :=
      Counter (COCOAnnotation.category_id <$> annotations data) in
    let categories_by_id := dict_by COCOCategory.id (categories data) in
    let threshold :=
      py_max 10 (inject_Z (Z.of_nat total_annotations) * (1 # 1000)) in
    inr (foldl
           (λ findings '(cat_id, count),
              if Qltb (inject_Z (Z.of_nat count)) threshold
              then
                match categories_by_id !! cat_id with
                | Some category =>
                    let category_name := COCOCategory.name category in
                    findings ++
                      ["Severe class imbalance: Category '" +:+ category_name
                       +:+ "' has only " +:+ pretty count +:+ " annotations."]
                | None => findings
                end
              else findings)
           [] category_counts).
End Rules.

(** *** The other rules *)

(** [collections.Counter] over keys of any type with a decidable equality;
    [Counter] above is this one at the type of the ids. *)
Module collections.
Section Counter.
Context {K : Type} `{EqDecision K}.

Fixpoint update (k : K) (c : list (K * nat)) : list (K * nat) :=
  match c with
  | [] => [(k, 1%nat)]
  | (k', n) :: c' =>
      if decide (k = k') then (k', S n) :: c' else (k', n) :: update k c'
  end.

Definition Counter (l : list K) : list (K * nat) :=
  foldl (λ c k, update k c) [] l.
End Counter.
End collections.

(** [sorted(l)] of a list of [str]: by code points, which is the order of
    the bytes of UTF-8. *)
Definition str_le (a b : string) : Prop := String.leb a b = true.

#[global] Instance str_le_dec a b : Decision (str_le a b).
Proof. unfold str_le. apply _. Defined.

Definition sorted (l : list string) : list string := merge_sort str_le l.

Section OtherRules.
Import COCOData.
(** [str.lower] *)
Variable lower : string → string.
(** [numpy.percentile(a, q)] of a list of floats that is not empty *)
Variable percentile : list float → Z → float.

Definition check_category_case_consistency (data : COCOData.t) : outcome :=
  let names_by_lower : pydict (gset string) :=
    foldl
      (λ names_by_lower category,
         let key := lower (COCOCategory.name category) in
         dict_set key
           (default ∅ (dict_get key names_by_lower)
              ∪ {[COCOCategory.name category]})
           names_by_lower)
      [] (categories data) in
  inr (foldl
         (λ findings '(lower_name, original_names),
            if (1 <? size original_names)%nat
            then
              let sorted_names := sorted (elements original_names) in
              findings ++
                ["Inconsistent capitalization for '" +:+ lower_name
                 +:+ "'. Found: " +:+ String.concat ", " sorted_names]
            else findings)
         [] names_by_lower).

Definition check_category_duplicate_names (data : COCOData.t) : outcome :=
  let name_counts :=
    collections.Counter (COCOCategory.name <$> categories data) in
  inr (foldl
         (λ findings '(name, count),
            if (1 <? count)%nat
            then findings ++
                   ["Duplicate category name '" +:+ name +:+ "' appears "
                    +:+ pretty count +:+ " times."]
            else findings)
         [] name_counts).

Definition check_category_duplicate_ids (data : COCOData.t) : outcome :=
  let id_counts := Counter (COCOCategory.id <$> categories data) in
  inr (foldl
         (λ findings '(cat_id, count),
            if (1 <? count)%nat
            then findings ++
                   ["Duplicate category ID #" +:+ pretty cat_id
                    +:+ " appears " +:+ pretty count +:+ " times."]
            else findings)
         [] id_counts).

Definition check_relation_unmatched_annotations (data : COCOData.t)
    : outcome :=
  let valid_image_ids : gset Z :=
    list_to_set (COCOImage.id <$> images data) in
  inr (foldl
         (λ findings ann,
            if bool_decide (COCOAnnotation.image_id ann ∉ valid_image_ids)
            then findings ++
                   ["Orphaned annotation (ID " +:+ pretty (COCOAnnotation.id ann)
                    +:+ ") points to a missing image (ID "
                    +:+ pretty (COCOAnnotation.image_id ann) +:+ ")."]
            else findings)
         [] (annotations data)).

Definition check_relation_unmatched_category (data : COCOData.t)
    : outcome :=
  let valid_category_ids : gset Z :=
    list_to_set (COCOCategory.id <$> categories data) in
  inr (foldl
         (λ findings ann,
            if bool_decide
                 (COCOAnnotation.category_id ann ∉ valid_category_ids)
            then findings ++
                   ["Annotation (ID " +:+ pretty (COCOAnnotation.id ann)
                    +:+ ") points to a missing category (ID "
                    +:+ pretty (COCOAnnotation.category_id ann) +:+ ")."]
            else findings)
         [] (annotations data)).

Definition check_geometry_zero_area_bboxes (data : COCOData.t) : outcome :=
  for_each (annotations data)
    (λ findings ann,
       '(_x, _y, w, h) ← unpack4 (COCOAnnotation.bbox ann);
       if (w =? 0)%float || (h =? 0)%float
       then inr (findings ++
                   ["Annotation (ID " +:+ pretty (COCOAnnotation.id ann)
                    +:+ ") on image (ID "
                    +:+ pretty (COCOAnnotation.image_id ann)
                    +:+ ") has a zero-area bounding box [w="
                    +:+ format_float 1 w +:+ ", h=" +:+ format_float 1 h
                    +:+ "]."])
       else inr findings)
    [].

Definition check_statistical_bbox_aspect_ratio_outliers (data : COCOData.t)
    : outcome :=
  match annotations data with
  | [] => inr []
  | _ =>
      aspect_ratios ←
        for_each (annotations data)
          (λ aspect_ratios ann,
             '(_x, _y, w, h) ← unpack4 (COCOAnnotation.bbox ann);
             if (0 <? w)%float && (0 <? h)%float
             then inr (aspect_ratios ++ [(w / h)%float])
             else inr aspect_ratios)
          [];
      match aspect_ratios with
      | [] => inr []
      | _ =>
          let q1 := percentile aspect_ratios 25 in
          let q3 := percentile aspect_ratios 75 in
          let iqr := (q3 - q1)%float in
          let lower_bound := (q1 - 1.5 * iqr)%float in
          let upper_bound := (q3 + 1.5 * iqr)%float in
          for_each (annotations data)
            (λ findings ann,
               '(_x, _y, w, h) ← unpack4 (COCOAnnotation.bbox ann);
               if (0 <? w)%float && (0 <? h)%float
               then
                 let ar := (w / h)%float in
                 if negb ((lower_bound <=? ar)%float
                          && (ar <=? upper_bound)%float)
                 then inr (findings ++
                             ["Annotation (ID "
                              +:+ pretty (COCOAnnotation.id ann)
                              +:+ ") on image (ID "
                              +:+ pretty (COCOAnnotation.image_id ann)
                              +:+ ") has an outlier aspect ratio of "
                              +:+ format_float 2 ar
                              +:+ ". Typical range: ["
                              +:+ format_float 2 lower_bound +:+ " - "
                              +:+ format_float 2 upper_bound +:+ "]."])
                 else inr findings
               else inr findings)
            []
      end
  end.
End OtherRules.

(** The names of the functions of [labellint.rules] that start with
    [check_], sorted: what [get_all_rules] discovers. *)
Definition rule_names : list string :=
  ["check_attribute_area_bbox_mismatch";
   "check_category_case_consistency";
   "check_category_duplicate_ids";
   "check_category_duplicate_names";
   "check_geometry_bbox_out_of_bounds";
   "check_geometry_zero_area_bboxes";
   "check_relation_images_without_annotations";
   "check_relation_unmatched_annotations";
   "check_relation_unmatched_category";
   "check_statistical_bbox_aspect_ratio_outliers";
   "check_statistical_class_distribution_imbalance"].

(** ** The engine: [labellint.core.run_scan] *)

Record Rule := {
  __name__ : string;
  call : COCOData.t → outcome
}.

(** [rules.get_all_rules()]: the functions of the module whose name starts
    with [check_], sorted by name. Seven of the rules are taken by name
    through the parameter [others]; [labellint_rules] below gives them. *)
Definition get_all_rules (others : string → COCOData.t → outcome) : list Rule :=
  [ {| __name__ := "check_attribute_area_bbox_mismatch";
       call := check_attribute_area_bbox_mismatch |};
    {| __name__ := "check_category_case_consistency";
       call := others "check_category_case_consistency" |};
    {| __name__ := "check_category_duplicate_ids";
       call := others "check_category_duplicate_ids" |};
    {| __name__ := "check_category_duplicate_names";
       call := others "check_category_duplicate_names" |};
    {| __name__ := "check_geometry_bbox_out_of_bounds";
       call := check_geometry_bbox_out_of_bounds |};
    {| __name__ := "check_geometry_zero_area_bboxes";
       call := others "check_geometry_zero_area_bboxes" |};
    {| __name__ := "check_relation_images_without_annotations";
       call := check_relation_images_without_annotations |};
    {| __name__ := "check_relation_unmatched_annotations";
       call := others "check_relation_unmatched_annotations" |};
    {| __name__ := "check_relation_unmatched_category";
       call := others "check_relation_unmatched_category" |};
    {| __name__ := "check_statistical_bbox_aspect_ratio_outliers";
       call := others "check_statistical_bbox_aspect_ratio_outliers" |};
    {| __name__ := "check_statistical_class_distribution_imbalance";
       call := check_statistical_class_distribution_imbalance |} ].

(** The rules that [get_all_rules] takes by name: the attribute of the
    module [labellint.rules] with this name. *)
Definition rules_getattr (lower : string → string)
    (percentile : list float → Z → float) (rule_name : string)
    : COCOData.t → outcome :=
  default (λ _, inl (Raise "AttributeError"))
    (dict_get rule_name
       [("check_category_case_consistency",
         check_category_case_consistency lower);
        ("check_category_duplicate_ids", check_category_duplicate_ids);
        ("check_category_duplicate_names", check_category_duplicate_names);
        ("check_geometry_zero_area_bboxes", check_geometry_zero_area_bboxes);
        ("check_relation_unmatched_annotations",
         check_relation_unmatched_annotations);
        ("check_relation_unmatched_category",
         check_relation_unmatched_category);
        ("check_statistical_bbox_aspect_ratio_outliers",
         check_statistical_bbox_aspect_ratio_outliers percentile)]).

(** The registry of the eleven rules of the module. *)
Definition labellint_rules (lower : string → string)
    (percentile : list float → Z → float) : list Rule :=
  get_all_rules (rules_getattr lower percentile).

Record ScanResult := {
  data : COCOData.t;
  findings : pydict (list string);
  total_findings : Z
}.

(** Records of the logger of [labellint.core]. *)
Inductive level := DEBUG | INFO | WARNING | ERROR.
Abbreviation log := (list (level * string)).

Section Engine.
Context `{Scalars}.
Variable read_text : string → ReadError + string.
Variable json_loads : string → LoadsError + value.
(** [rules.get_all_rules()] *)
Variable all_rules : list Rule.

(** One iteration of the loop of stage 3, on the state
    [(results, total_findings)] and the log. *)
Definition run_rule (data : COCOData.t)
    (st : pydict (list string) * Z * log) (rule_func : Rule)
    : pydict (list string) * Z * log :=
  let '(results, total_findings, logged) := st in
  let rule_name := __name__ rule_func in
  let logged := logged ++ [(DEBUG, "Executing rule: " +:+ rule_name)] in
  match call rule_func data with
  | inr findings =>
      match findings with
      | _ :: _ =>
          let num_findings := Z.of_nat (length findings) in
          (dict_set rule_name findings results,
           total_findings + num_findings,
           logged ++ [(INFO, "Rule '" +:+ rule_name +:+ "' found "
                             +:+ pretty num_findings +:+ " issues.")])
      | [] => (results, total_findings, logged)
      end
  | inl _ =>
      let logged :=
        logged ++ [(ERROR, "Rule '" +:+ rule_name
                           +:+ "' failed with an unexpected error. Skipping.")] in
      let error_finding := ["Rule execution failed with an internal error."] in
      (dict_set (rule_name +:+ "_execution_error") error_finding results,
       total_findings + 1,
       logged)
  end.

Definition run_scan (filepath : string) : log * (Raised + ScanResult) :=
  let logged := [(INFO, "Core engine starting scan for: " +:+ filepath)] in
  (* Stage 1: parsing and validation *)
  match parse_coco read_text json_loads filepath with
  | inl e =>
      if is_ParseError e
      then
        (logged
           ++ [(ERROR, "Core engine caught a parsing error. Aborting scan.")],
         inl e)
      else (logged, inl e)
  | inr data =>
      let logged :=
        logged ++ [(INFO, "Data parsing and validation successful.")] in
      (* Stage 2: rule discovery *)
      let logged :=
        logged ++ [(INFO, "Discovered " +:+ pretty (length all_rules)
                          +:+ " rules to execute.")] in
      let logged :=
        match all_rules with
        | [] => logged ++ [(WARNING, "No rules were found. The scan will have no effect.")]
        | _ => logged
        end in
      (* Stage 3: rule execution and aggregation *)
      let '(results, total_findings, logged) :=
        foldl (run_rule data) ([], 0, logged) all_rules in
      (* Stage 4 *)
      (logged ++ [(INFO, "Scan complete. Total findings: "
                         +:+ pretty total_findings)],
       inr {| data := data; findings := results;
              total_findings := total_findings |})
  end.
End Engine.

(** ** The report: [labellint.core.format_json] *)

(** The dictionary that [format_json] serializes: the summary and the
    findings, without the document. *)
Definition output_dict (result : ScanResult) : value :=
  VDict
    [("summary",
      VDict
        [("total_findings", VInt (total_findings result));
         ("images_scanned",
          VInt (Z.of_nat (length (COCOData.images (data result)))));
         ("annotations_scanned",
          VInt (Z.of_nat (length (COCOData.annotations (data result)))));
         ("categories_found",
          VInt (Z.of_nat (length (COCOData.categories (data result)))))]);
     ("findings",
      VDict ((λ kv, (kv.1, VList (VStr <$> kv.2))) <$> findings result))].

Section FormatJson.
(** [json.dumps(obj, indent=n)] *)
Variable json_dumps : value → nat → string.

Definition format_json (result : ScanResult) : string :=
  json_dumps (output_dict result) 2.
End FormatJson.

(** * Specifications

    The notions in which the properties are stated. *)

(** ** Of the engine *)

#[global] Instance level_eq_dec : EqDecision level.
Proof. solve_decision. Defined.

(** The keys under which a rule can store something. *)
Definition result_keys (rule_name : string) : list string :=
  [rule_name; rule_name +:+ "_execution_error"].

(** What a rule stores in the findings mapping, and what it adds to the
    total. *)
Definition stored (d : COCOData.t) (rule : Rule) : option (string * list string) :=
  match call rule d with
  | inl _ =>
      Some (__name__ rule +:+ "_execution_error",
            ["Rule execution failed with an internal error."])
  | inr [] => None
  | inr l => Some (__name__ rule, l)
  end.

Definition counted (d : COCOData.t) (rule : Rule) : nat :=
  match call rule d with
  | inl _ => 1
  | inr l => length l
  end.

(** The records that one iteration logs. *)
Definition rule_log (d : COCOData.t) (rule : Rule) : log :=
  (DEBUG, "Executing rule: " +:+ __name__ rule) ::
  match call rule d with
  | inl _ =>
      [(ERROR, "Rule '" +:+ __name__ rule
               +:+ "' failed with an unexpected error. Skipping.")]
  | inr [] => []
  | inr l =>
      [(INFO, "Rule '" +:+ __name__ rule +:+ "' found "
              +:+ pretty (Z.of_nat (length l)) +:+ " issues.")]
  end.

(** What is logged before the first rule runs. *)
Definition scan_prelude (filepath : string) (all_rules : list Rule) : log :=
  [(INFO, "Core engine starting scan for: " +:+ filepath);
   (INFO, "Data parsing and validation successful.");
   (INFO, "Discovered " +:+ pretty (length all_rules) +:+ " rules to execute.")]
  ++ match all_rules with
     | [] => [(WARNING, "No rules were found. The scan will have no effect.")]
     | _ => []
     end.

Definition is_object (v : value) : Prop :=
  match v with
  | VDict _ => True
  | _ => False
  end.

(** [v[k]] for a value that is an object. *)
Definition value_get (k : string) (v : value) : option value :=
  match v with
  | VDict d => dict_get k d
  | _ => None
  end.

(** The number of strings that an object of lists holds. *)
Definition listed (v : value) : nat :=
  match v with
  | VDict d =>
      sum_list ((λ kv, match kv.2 with VList l => length l | _ => 0%nat end)
                  <$> d)
  | _ => 0%nat
  end.

(** ** Of validation *)

(** Not below zero: zero or more, or NaN. *)
Definition not_negative (x : float) : Prop := (x <? 0)%float = false.

Definition bbox_valid (b : list float) : Prop :=
  ∃ x y w h, b = [x; y; w; h] ∧ not_negative w ∧ not_negative h.

Definition COCOInfo_valid (x : COCOInfo.t) : Prop :=
  Forall (λ kv, known_field COCOInfo.fields kv.1 = false) (COCOInfo.extra x).

Definition COCOImage_valid (x : COCOImage.t) : Prop :=
  0 < COCOImage.width x ∧ 0 < COCOImage.height x.

Definition COCOAnnotation_valid (x : COCOAnnotation.t) : Prop :=
  not_negative (COCOAnnotation.area x) ∧
  bbox_valid (COCOAnnotation.bbox x) ∧
  0 ≤ COCOAnnotation.iscrowd x ≤ 1.

Definition COCOData_valid (x : COCOData.t) : Prop :=
  COCOInfo_valid (COCOData.info x) ∧
  Forall COCOImage_valid (COCOData.images x) ∧
  Forall COCOAnnotation_valid (COCOData.annotations x).

(** A JSON number below zero. *)
Definition negative_number (v : value) : Prop :=
  match v with
  | VInt z => z < 0
  | VFloat x => (x <? 0)%float = true
  | _ => False
  end.

(** The fields without default of each model. *)
Definition COCOLicense_required : list string := ["id"; "name"].
Definition COCOImage_required : list string :=
  ["id"; "width"; "height"; "file_name"].
Definition COCOAnnotation_required : list string :=
  ["id"; "image_id"; "category_id"; "area"; "bbox"; "iscrowd"].
Definition COCOCategory_required : list string := ["id"; "name"].

(** ** Of the rules *)

(** [collections.Counter], declaratively: the distinct items in the order
    of their first occurrence, each with the number of its occurrences. *)
Fixpoint nub (l : list Z) : list Z :=
  match l with
  | [] => []
  | x :: l' => x :: filter (λ y, y ≠ x) (nub l')
  end.

Definition count (k : Z) (l : list Z) : nat := length (filter (λ x, x = k) l).

#[global] Instance Qlt_decision (a b : Q) : Decision (a < b)%Q.
Proof.
  refine (cast_if (Qlt_le_dec a b)); [done|by apply Qle_not_lt].
Defined.

(** [x + w > width], the sum being the one of floats and the comparison
    the one of a float with an [int]. *)
Definition beyond (x w : float) (width : Z) : Prop :=
  float_gt_int (x + w) width = true.

#[global] Instance beyond_dec x w width : Decision (beyond x w width).
Proof. unfold beyond. apply _. Defined.

Section specification.
Import COCOData.

(** No annotation of the document is on the image. *)
Definition unannotated (d : COCOData.t) (image : COCOImage.t) : Prop :=
  Forall (λ ann, COCOAnnotation.image_id ann ≠ COCOImage.id image)
    (annotations d).

#[global] Instance unannotated_dec d image : Decision (unannotated d image).
Proof. unfold unannotated. apply _. Defined.

Definition no_annotations_finding (image : COCOImage.t) : string :=
  "Image '" +:+ COCOImage.file_name image +:+ "' (ID "
  +:+ pretty (COCOImage.id image) +:+ ") has no annotations.".

(** The image that an image id stands for: as in a dictionary built from
    the images in order, the last one with this id. *)
Definition resolve_image (d : COCOData.t) (image_id : Z)
    : option COCOImage.t :=
  last (filter (λ image, COCOImage.id image = image_id) (images d)).

Definition out_of_bounds (d : COCOData.t) (ann : COCOAnnotation.t) : Prop :=
  ∃ image x y w h,
    resolve_image d (COCOAnnotation.image_id ann) = Some image ∧
    COCOAnnotation.bbox ann = [x; y; w; h] ∧
    ((x <? 0)%float = true ∨ (y <? 0)%float = true
     ∨ beyond x w (COCOImage.width image)
     ∨ beyond y h (COCOImage.height image)).

#[global] Instance out_of_bounds_dec d ann : Decision (out_of_bounds d ann).
Proof.
  unfold out_of_bounds.
  destruct (resolve_image d (COCOAnnotation.image_id ann)) as [image|];
    [|right; by intros (? & ? & ? & ? & ? & [=] & _)].
  destruct (COCOAnnotation.bbox ann) as [|x [|y [|w [|h [|??]]]]];
    try (right; by intros (? & ? & ? & ? & ? & _ & [=] & _)).
  destruct (decide ((x <? 0)%float = true ∨ (y <? 0)%float = true
                    ∨ beyond x w (COCOImage.width image)
                    ∨ beyond y h (COCOImage.height image))) as [Hc|Hc].
  - left. by exists image, x, y, w, h.
  - right. by intros (? & ? & ? & ? & ? & [= <-] & [= <- <- <- <-] & ?).
Defined.

Definition out_of_bounds_finding (d : COCOData.t) (ann : COCOAnnotation.t)
    : string :=
  match resolve_image d (COCOAnnotation.image_id ann),
        COCOAnnotation.bbox ann with
  | Some image, [x1; y1; w; h] =>
      "Annotation (ID " +:+ pretty (COCOAnnotation.id ann)
      +:+ ") on image '" +:+ COCOImage.file_name image
      +:+ "' (ID " +:+ pretty (COCOAnnotation.image_id ann)
      +:+ ") is out of bounds. "
      +:+ "Bbox [x2=" +:+ format_float 1 (x1 + w)
      +:+ ", y2=" +:+ format_float 1 (y1 + h)
      +:+ "] vs. Image [w=" +:+ pretty (COCOImage.width image)
      +:+ ", h=" +:+ pretty (COCOImage.height image) +:+ "]."
  | _, _ => ""
  end.

(** The segmentation is a list of polygons with at least one polygon. *)
Definition polygon_backed (ann : COCOAnnotation.t) : Prop :=
  ∃ p l, COCOAnnotation.segmentation ann = SegList (p :: l).

(** The product of the width by the height, a float, is not close to the
    declared area: not [|w * h - area| <= atol + 1e-3 * |area|]. *)
Definition area_mismatch (ann : COCOAnnotation.t) : Prop :=
  ∃ x y w h,
    COCOAnnotation.bbox ann = [x; y; w; h] ∧
    isclose (w * h) (COCOAnnotation.area ann) 1e-3 default_atol = false.

Definition mismatch_flagged (ann : COCOAnnotation.t) : Prop :=
  ¬ polygon_backed ann ∧ area_mismatch ann.

#[global] Instance polygon_backed_dec ann : Decision (polygon_backed ann).
Proof.
  unfold polygon_backed.
  destruct (COCOAnnotation.segmentation ann) as [[|p l]|rle].
  - right. by intros (? & ? & [=]).
  - left. by exists p, l.
  - right. by intros (? & ? & [=]).
Defined.

#[global] Instance area_mismatch_dec ann : Decision (area_mismatch ann).
Proof.
  unfold area_mismatch.
  destruct (COCOAnnotation.bbox ann) as [|x [|y [|w [|h [|??]]]]];
    try (right; by intros (? & ? & ? & ? & [=] & _)).
  destruct (decide (isclose (w * h) (COCOAnnotation.area ann) 1e-3
                      default_atol = false)) as [Hc|Hc].
  - left. by exists x, y, w, h.
  - right. by intros (? & ? & ? & ? & [= <- <- <- <-] & ?).
Defined.

#[global] Instance mismatch_flagged_dec ann : Decision (mismatch_flagged ann).
Proof. unfold mismatch_flagged. apply _. Defined.

Definition mismatch_finding (ann : COCOAnnotation.t) : string :=
  match COCOAnnotation.bbox ann with
  | [_; _; w; h] =>
      "Annotation (ID " +:+ pretty (COCOAnnotation.id ann)
      +:+ ") has a mismatched area. "
      +:+ "Bbox area is " +:+ format_float 2 (w * h)
      +:+ ", but 'area' attribute is "
      +:+ format_float 2 (COCOAnnotation.area ann) +:+ "."
  | _ => ""
  end.

(** The number of annotations of a category. *)
Definition annotation_count (d : COCOData.t) (cat_id : Z) : nat :=
  length (filter (λ ann, COCOAnnotation.category_id ann = cat_id)
            (annotations d)).

(** [n < max(10, 0.001 * total)] *)
Definition below_threshold (d : COCOData.t) (n : nat) : Prop :=
  (inject_Z (Z.of_nat n) < 10
   ∨ inject_Z (Z.of_nat n)
     < inject_Z (Z.of_nat (length (annotations d))) * (1 # 1000))%Q.

#[global] Instance below_threshold_dec d n : Decision (below_threshold d n).
Proof. unfold below_threshold. apply _. Defined.

(** The category record that a category id stands for: the last one with
    this id. *)
Definition resolve_category (d : COCOData.t) (cat_id : Z)
    : option COCOCategory.t :=
  last (filter (λ c, COCOCategory.id c = cat_id) (categories d)).

(** The category ids that annotations use, in the order of their first
    use. *)
Definition used_category_ids (d : COCOData.t) : list Z :=
  nub (COCOAnnotation.category_id <$> annotations d).

Definition imbalance_finding (c : COCOCategory.t) (n : nat) : string :=
  "Severe class imbalance: Category '" +:+ COCOCategory.name c
  +:+ "' has only " +:+ pretty n +:+ " annotations.".

Definition imbalance_flag (d : COCOData.t) (cat_id : Z) : option string :=
  if decide (below_threshold d (annotation_count d cat_id))
  then (λ c, imbalance_finding c (annotation_count d cat_id))
         <$> resolve_category d cat_id
  else None.

End specification.

(** ** Of the other rules *)

Section occurrences.
Context {K : Type} `{EqDecision K}.

(** The distinct items of a list in the order in which they first occur,
    and the number of times that an item occurs: what a counter holds. *)
Fixpoint first_occurrences (l : list K) : list K :=
  match l with
  | [] => []
  | x :: l' => x :: filter (λ y, y ≠ x) (first_occurrences l')
  end.

Definition occurrences (k : K) (l : list K) : nat :=
  length (filter (λ x, x = k) l).

(** The finding of a key that occurs more than once. *)
Definition duplicate_flag (finding : K → nat → string) (l : list K) (k : K)
    : option string :=
  if decide (1 < occurrences k l)%nat
  then Some (finding k (occurrences k l))
  else None.
End occurrences.

Definition duplicate_name_finding (name : string) (n : nat) : string :=
  "Duplicate category name '" +:+ name +:+ "' appears " +:+ pretty n
  +:+ " times.".

Definition duplicate_id_finding (cat_id : Z) (n : nat) : string :=
  "Duplicate category ID #" +:+ pretty cat_id +:+ " appears " +:+ pretty n
  +:+ " times.".

Section case_specification.
Variable lower : string → string.

(** The category names that have a given lower-case form. *)
Definition spellings (d : COCOData.t) (lower_name : string) : gset string :=
  list_to_set
    (filter (λ name, lower name = lower_name)
       (COCOCategory.name <$> COCOData.categories d)).

(** The finding of a lower-case form that has more than one spelling. *)
Definition case_flag (d : COCOData.t) (lower_name : string) : option string :=
  if decide (1 < size (spellings d lower_name))%nat
  then Some ("Inconsistent capitalization for '" +:+ lower_name
             +:+ "'. Found: "
             +:+ String.concat ", " (sorted (elements (spellings d lower_name))))
  else None.
End case_specification.

Section relation_specification.
Import COCOData.

(** No image of the document has the image_id of the annotation. *)
Definition orphaned (d : COCOData.t) (ann : COCOAnnotation.t) : Prop :=
  Forall (λ image, COCOImage.id image ≠ COCOAnnotation.image_id ann)
    (images d).

#[global] Instance orphaned_dec d ann : Decision (orphaned d ann).
Proof. unfold orphaned. apply _. Defined.

Definition orphan_finding (ann : COCOAnnotation.t) : string :=
  "Orphaned annotation (ID " +:+ pretty (COCOAnnotation.id ann)
  +:+ ") points to a missing image (ID "
  +:+ pretty (COCOAnnotation.image_id ann) +:+ ").".

(** No category of the document has the category_id of the annotation. *)
Definition uncategorized (d : COCOData.t) (ann : COCOAnnotation.t) : Prop :=
  Forall (λ c, COCOCategory.id c ≠ COCOAnnotation.category_id ann)
    (categories d).

#[global] Instance uncategorized_dec d ann : Decision (uncategorized d ann).
Proof. unfold uncategorized. apply _. Defined.

Definition missing_category_finding (ann : COCOAnnotation.t) : string :=
  "Annotation (ID " +:+ pretty (COCOAnnotation.id ann)
  +:+ ") points to a missing category (ID "
  +:+ pretty (COCOAnnotation.category_id ann) +:+ ").".
End relation_specification.

Section geometry_specification.
Import COCOData.
Variable percentile : list float → Z → float.

(** The width or the height of the box is zero. *)
Definition zero_area (ann : COCOAnnotation.t) : Prop :=
  ∃ x y w h,
    COCOAnnotation.bbox ann = [x; y; w; h]
    ∧ ((w =? 0)%float = true ∨ (h =? 0)%float = true).

#[global] Instance zero_area_dec ann : Decision (zero_area ann).
Proof.
  unfold zero_area.
  destruct (COCOAnnotation.bbox ann) as [|x [|y [|w [|h [|??]]]]];
    try (right; by intros (? & ? & ? & ? & [=] & _)).
  destruct (decide ((w =? 0)%float = true ∨ (h =? 0)%float = true))
    as [Hc|Hc].
  - left. by exists x, y, w, h.
  - right. by intros (? & ? & ? & ? & [= <- <- <- <-] & ?).
Defined.

Definition zero_area_finding (ann : COCOAnnotation.t) : string :=
  match COCOAnnotation.bbox ann with
  | [_; _; w; h] =>
      "Annotation (ID " +:+ pretty (COCOAnnotation.id ann)
      +:+ ") on image (ID " +:+ pretty (COCOAnnotation.image_id ann)
      +:+ ") has a zero-area bounding box [w=" +:+ format_float 1 w
      +:+ ", h=" +:+ format_float 1 h +:+ "]."
  | _ => ""
  end.

(** The aspect ratio of a box of positive width and height: the quotient
    of the two floats. *)
Definition aspect_ratio (ann : COCOAnnotation.t) : option float :=
  match COCOAnnotation.bbox ann with
  | [_; _; w; h] =>
      if (0 <? w)%float && (0 <? h)%float then Some (w / h)%float else None
  | _ => None
  end.

Definition aspect_ratios (d : COCOData.t) : list float :=
  omap aspect_ratio (annotations d).

Definition first_quartile (d : COCOData.t) : float :=
  percentile (aspect_ratios d) 25.
Definition third_quartile (d : COCOData.t) : float :=
  percentile (aspect_ratios d) 75.

(** The bounds of the typical range: the quartiles, widened by one and a
    half times their distance, in the arithmetic of floats. *)
Definition lower_bound (d : COCOData.t) : float :=
  (first_quartile d - 1.5 * (third_quartile d - first_quartile d))%float.
Definition upper_bound (d : COCOData.t) : float :=
  (third_quartile d + 1.5 * (third_quartile d - first_quartile d))%float.

(** The box has an aspect ratio, for which [lower <= ar <= upper] does
    not hold. *)
Definition outlier (d : COCOData.t) (ann : COCOAnnotation.t) : Prop :=
  ∃ ar, aspect_ratio ann = Some ar
        ∧ ¬ ((lower_bound d <=? ar)%float = true
             ∧ (ar <=? upper_bound d)%float = true).

#[global] Instance outlier_dec d ann : Decision (outlier d ann).
Proof.
  unfold outlier.
  destruct (aspect_ratio ann) as [ar|]; [|right; by intros (? & [=] & _)].
  destruct (decide ((lower_bound d <=? ar)%float = true
                    ∧ (ar <=? upper_bound d)%float = true)) as [Hc|Hc].
  - right. by intros (? & [= <-] & ?).
  - left. by exists ar.
Defined.

Definition outlier_finding (d : COCOData.t) (ann : COCOAnnotation.t)
    : string :=
  match aspect_ratio ann with
  | Some ar =>
      "Annotation (ID " +:+ pretty (COCOAnnotation.id ann)
      +:+ ") on image (ID " +:+ pretty (COCOAnnotation.image_id ann)
      +:+ ") has an outlier aspect ratio of " +:+ format_float 2 ar
      +:+ ". Typical range: [" +:+ format_float 2 (lower_bound d) +:+ " - "
      +:+ format_float 2 (upper_bound d) +:+ "]."
  | None => ""
  end.
End geometry_specification.

(** The declared area is close to the product of the width by the height:
    the test of [numpy.isclose] holds. *)
Definition within_tolerance (ann : COCOAnnotation.t) : Prop :=
  ∃ x y w h,
    COCOAnnotation.bbox ann = [x; y; w; h] ∧
    isclose (w * h) (COCOAnnotation.area ann) 1e-3 default_atol = true.

(** An annotation whose bbox cannot be unpacked. *)
Definition malformed (ann : COCOAnnotation.t) : Prop :=
  length (COCOAnnotation.bbox ann) ≠ 4%nat.

#[global] Instance malformed_dec ann : Decision (malformed ann).
Proof. unfold malformed. apply _. Defined.

(** * Sample data

    The fixture of the test suite of the repository, and the variations on
    it that the examples below use. *)

Definition sample_image (id width height : Z) (file_name : string)
    : COCOImage.t :=
  {| COCOImage.id := id; COCOImage.width := width;
     COCOImage.height := height; COCOImage.file_name := file_name;
     COCOImage.license := Some 1; COCOImage.flickr_url := None;
     COCOImage.coco_url := None; COCOImage.date_captured := None |}.

(** [float(n)] for a count. *)
Definition float_of_nat (n : nat) : float :=
  default nan (float_of_int (Z.of_nat n)).

(** An annotation with the default segmentation and [iscrowd=0]. *)
Definition sample_box (id image_id category_id : Z) (bbox : list float) (area : float)
    : COCOAnnotation.t :=
  {| COCOAnnotation.id := id; COCOAnnotation.image_id := image_id;
     COCOAnnotation.category_id := category_id;
     COCOAnnotation.segmentation := SegList [];
     COCOAnnotation.area := area; COCOAnnotation.bbox := bbox;
     COCOAnnotation.iscrowd := 0 |}.

Definition sample_category (id : Z) (name supercategory : string)
    : COCOCategory.t :=
  {| COCOCategory.id := id; COCOCategory.name := name;
     COCOCategory.supercategory := Some supercategory |}.

Definition sample_annotations : list COCOAnnotation.t :=
  [ sample_box 1 101 1 [10; 10; 50; 50]%float 2500%float;
    sample_box 2 101 2 [100; 100; 30; 80]%float 2400%float;
    sample_box 3 102 1 [200; 200; 150; 100]%float 15000%float;
    sample_box 4 102 3 [500; 10; 20; 40]%float 800%float ].

(** The document with no anomaly, but for its annotations. *)
Definition sample_with (annotations : list COCOAnnotation.t) : COCOData.t :=
  {| COCOData.info :=
       {| COCOInfo.year := Some 2024; COCOInfo.version := Some "1.0";
          COCOInfo.description := Some "Pristine COCO data for testing.";
          COCOInfo.contributor := Some "labellint.tests";
          COCOInfo.url := Some "http://labellint.dev";
          COCOInfo.date_created := Some "2024-01-01T00:00:00Z";
          COCOInfo.extra := [] |};
     COCOData.licenses :=
       [ {| COCOLicense.id := 1; COCOLicense.name := "Test License";
            COCOLicense.url := Some "http://labellint.dev/license" |} ];
     COCOData.images :=
       [ sample_image 101 800 600 "test_img_01.jpg";
         sample_image 102 1920 1080 "test_img_02.jpg" ];
     COCOData.annotations := annotations;
     COCOData.categories :=
       [ sample_category 1 "car" "vehicle";
         sample_category 2 "person" "human";
         sample_category 3 "traffic light" "object" ] |}.

Definition sample_data : COCOData.t := sample_with sample_annotations.

(** The same document with one more image. *)
Definition sample_with_image (image : COCOImage.t) : COCOData.t :=
  {| COCOData.info := COCOData.info sample_data;
     COCOData.licenses := COCOData.licenses sample_data;
     COCOData.images := COCOData.images sample_data ++ [image];
     COCOData.annotations := COCOData.annotations sample_data;
     COCOData.categories := COCOData.categories sample_data |}.

(** The fields of the top-level object of the sample file. *)
Definition sample_fields : pydict value :=
  match COCOData.model_dump sample_data with
  | VDict d => d
  | _ => []
  end.

(** The sample file as a program that writes no optional key and no
    fractional part would write it. *)
Definition sample_raw : value :=
  VDict
    [("info",
      VDict [("year", VInt 2024); ("version", VStr "1.0");
             ("description", VStr "Pristine COCO data for testing.");
             ("contributor", VStr "labellint.tests");
             ("url", VStr "http://labellint.dev");
             ("date_created", VStr "2024-01-01T00:00:00Z")]);
     ("licenses",
      VList [VDict [("id", VInt 1); ("name", VStr "Test License");
                    ("url", VStr "http://labellint.dev/license")]]);
     ("images",
      VList [VDict [("id", VInt 101); ("width", VInt 800);
                    ("height", VInt 600);
                    ("file_name", VStr "test_img_01.jpg");
                    ("license", VInt 1)];
             VDict [("id", VInt 102); ("width", VInt 1920);
                    ("height", VInt 1080);
                    ("file_name", VStr "test_img_02.jpg");
                    ("license", VInt 1)]]);
     ("annotations",
      VList [VDict [("id", VInt 1); ("image_id", VInt 101);
                    ("category_id", VInt 1);
                    ("bbox", VList [VInt 10; VInt 10; VInt 50; VInt 50]);
                    ("area", VInt 2500); ("iscrowd", VInt 0)];
             VDict [("id", VInt 2); ("image_id", VInt 101);
                    ("category_id", VInt 2);
                    ("bbox", VList [VInt 100; VInt 100; VInt 30; VInt 80]);
                    ("area", VInt 2400); ("iscrowd", VInt 0)];
             VDict [("id", VInt 3); ("image_id", VInt 102);
                    ("category_id", VInt 1);
                    ("bbox", VList [VInt 200; VInt 200; VInt 150; VInt 100]);
                    ("area", VInt 15000); ("iscrowd", VInt 0)];
             VDict [("id", VInt 4); ("image_id", VInt 102);
                    ("category_id", VInt 3);
                    ("bbox", VList [VInt 500; VInt 10; VInt 20; VInt 40]);
                    ("area", VInt 800); ("iscrowd", VInt 0)]]);
     ("categories",
      VList [VDict [("id", VInt 1); ("name", VStr "car");
                    ("supercategory", VStr "vehicle")];
             VDict [("id", VInt 2); ("name", VStr "person");
                    ("supercategory", VStr "human")];
             VDict [("id", VInt 3); ("name", VStr "traffic light");
                    ("supercategory", VStr "object")]])].

(** A file system in which every path holds a file, and a parser that
    returns the given value tree for it. *)
Definition any_file : string → ReadError + string := λ _, inr "{}".
Definition parses_to (v : value) : string → LoadsError + value :=
  λ _, inr v.

(** A text of [n] arrays, each inside the one before, and a parser that
    raises on every text, as [json.loads] does on such a text when [n] is
    beyond the recursion limit. *)
Definition nested_arrays (n : nat) : string :=
  String.concat "" (replicate n "[") +:+ String.concat "" (replicate n "]").
Definition raises (e : Exception) : string → LoadsError + value :=
  λ _, inl (OtherError e).

(** The three rules of the scenario of the specification: R returns two
    findings, S raises, T returns none. *)
Definition rule_R : Rule :=
  {| __name__ := "R"; call := λ _, inr ["a"; "b"] |}.
Definition rule_S : Rule :=
  {| __name__ := "S";
     call := λ _, inl (Raise "ValueError") |}.
Definition rule_T : Rule :=
  {| __name__ := "T"; call := λ _, inr [] |}.

(** A behaviour for the rules that the registry takes by name: one raises,
    the others find nothing. *)
Definition sample_others (rule_name : string) (_ : COCOData.t) : outcome :=
  if String.eqb rule_name "check_category_duplicate_ids"
  then inl (Raise "KeyError")
  else inr [].

(** An annotation whose segmentation is a run-length encoding, with a bbox
    of area 100 and a declared area of 50. *)
Definition rle_annotation : COCOAnnotation.t :=
  {| COCOAnnotation.id := 7; COCOAnnotation.image_id := 101;
     COCOAnnotation.category_id := 1;
     COCOAnnotation.segmentation :=
       SegDict [("counts", VList [VInt 0; VInt 50; VInt 50]);
                ("size", VList [VInt 10; VInt 10])];
     COCOAnnotation.area := 50%float;
     COCOAnnotation.bbox := [0; 0; 10; 10]%float;
     COCOAnnotation.iscrowd := 1 |}.

(** An annotation whose bbox has the width NaN, which [json.loads] reads
    from the text [NaN]. *)
Definition nan_annotation : COCOAnnotation.t :=
  sample_box 1 101 1 [0; 0; nan; 10]%float 0%float.

(** An annotation with one polygon, a bbox of area 10000 and a declared
    area of 5000. *)
Definition polygon_annotation : COCOAnnotation.t :=
  {| COCOAnnotation.id := 999; COCOAnnotation.image_id := 101;
     COCOAnnotation.category_id := 1;
     COCOAnnotation.segmentation :=
       SegList [VList [VInt 10; VInt 10; VInt 110; VInt 10; VInt 110;
                       VInt 110; VInt 10; VInt 110]];
     COCOAnnotation.area := 5000%float;
     COCOAnnotation.bbox := [10; 10; 100; 100]%float;
     COCOAnnotation.iscrowd := 0 |}.

(** The sample with a hundred more annotations of the category "car", and
    three of a category that has no record. *)
Definition many_cars : COCOData.t :=
  sample_with
    (sample_annotations
     ++ ((λ i, sample_box (100 + Z.of_nat i) 101 1
                 [float_of_nat i; float_of_nat i; 1%float; 1%float]
                 1%float) <$> seq 0 100)
     ++ ((λ i, sample_box (200 + Z.of_nat i) 101 999
                 [float_of_nat i; float_of_nat i; 1%float; 1%float]
                 1%float) <$> seq 0 3)).

(** The rules of the aggregation test of the repository. *)
Definition check_rule_a : Rule :=
  {| __name__ := "check_rule_a";
     call := λ _, inr ["Finding A1"; "Finding A2"] |}.
Definition check_rule_b : Rule :=
  {| __name__ := "check_rule_b"; call := λ _, inr [] |}.
Definition check_rule_c : Rule :=
  {| __name__ := "check_rule_c"; call := λ _, inr ["Finding C1"] |}.

(** Fifty annotations of the category "car"; no annotation of "person" or
    "traffic light". *)
Definition fifty_cars : COCOData.t :=
  sample_with
    ((λ i, sample_box (Z.of_nat i) 101 1 [1; 1; 1; 1]%float 1%float)
       <$> seq 0 50).

(** The order of floats. *)
Definition float_le (a b : float) : Prop := (a <=? b)%float = true.

#[global] Instance float_le_dec a b : Decision (float_le a b).
Proof. unfold float_le. apply _. Defined.

(** [numpy.percentile(a, q)] with the default method, on a list of floats
    that is not empty and holds no NaN: the linear interpolation between
    the two closest ranks, as numpy computes it. *)
Definition linear_percentile (a : list float) (q : Z) : float :=
  let arr := merge_sort float_le a in
  let n := length arr in
  let quantile := (float_of_nat (Z.to_nat q) / 100)%float in
  let virtual_index := (float_of_nat (n - 1) * quantile)%float in
  let previous_index := Z.to_nat (Qfloor (float_value virtual_index)) in
  let next_index := Nat.min (previous_index + 1) (n - 1) in
  let gamma := (virtual_index - float_of_nat previous_index)%float in
  let previous := nth previous_index arr nan in
  let next := nth next_index arr nan in
  let diff_b_a := (next - previous)%float in
  if (gamma <? 0.5)%float then (previous + diff_b_a * gamma)%float
  else (next - diff_b_a * (1 - gamma))%float.

(** [str.lower] on the strings of ASCII characters. *)
Fixpoint ascii_lower (s : string) : string :=
  match s with
  | EmptyString => EmptyString
  | String c s' =>
      let n := Ascii.nat_of_ascii c in
      String (if (65 <=? n)%nat && (n <=? 90)%nat
              then Ascii.ascii_of_nat (n + 32) else c)
        (ascii_lower s')
  end.

(** The sample with more categories. *)
Definition sample_with_categories (categories : list COCOCategory.t)
    : COCOData.t :=
  {| COCOData.info := COCOData.info sample_data;
     COCOData.licenses := COCOData.licenses sample_data;
     COCOData.images := COCOData.images sample_data;
     COCOData.annotations := COCOData.annotations sample_data;
     COCOData.categories := COCOData.categories sample_data ++ categories |}.

Definition category (id : Z) (name : string) : COCOCategory.t :=
  {| COCOCategory.id := id; COCOCategory.name := name;
     COCOCategory.supercategory := None |}.

(** The first annotation of the sample file, which has no key
    "segmentation". *)
Definition sample_annotation_fields : pydict value :=
  [("id", VInt 1); ("image_id", VInt 101); ("category_id", VInt 1);
   ("bbox", VList [VInt 10; VInt 10; VInt 50; VInt 50]);
   ("area", VInt 2500); ("iscrowd", VInt 0)].

(** An image object without file_name. *)
Definition image_without_file_name : value :=
  VDict [("id", VInt 101); ("width", VInt 800); ("height", VInt 600)].

(** Twenty boxes of 100 by 100, and the same with a box of 10 by 500. *)
Definition twenty_squares : list COCOAnnotation.t :=
  (λ i, sample_box (Z.of_nat i) 101 1 [10; 10; 100; 100]%float
          10000%float) <$> seq 0 20.

(** * Properties *)

(** ** Floats *)

(** The sign of the number that a finite float stands for. *)
Lemma SF2Q_sign s m e :
  (SF2Q (S754_finite s m e) ?= 0)%Q = if s then Lt else Gt.
Proof.
  assert (0 < 2 ^ e)%Q as Hpow by (by apply Qpower_0_lt).
  unfold SF2Q. generalize dependent (2 ^ e)%Q. intros p Hp.
  destruct s.
  - change (cond_Zopp true (Z.pos m)) with (Z.neg m).
    apply (proj1 (Qlt_alt _ _)).
    assert (inject_Z (Z.neg m) < 0)%Q as Hm by done.
    generalize dependent (inject_Z (Z.neg m)). intros. nra.
  - change (cond_Zopp false (Z.pos m)) with (Z.pos m).
    apply (proj1 (Qgt_alt _ _)).
    assert (0 < inject_Z (Z.pos m))%Q as Hm by done.
    generalize dependent (inject_Z (Z.pos m)). intros. nra.
Qed.

(** Against the [int] zero, the comparison is the one of floats. *)
Lemma float_lt_int_0 x : float_lt_int x 0 = (x <? 0)%float.
Proof.
  unfold float_lt_int, float_compare_int. rewrite ltb_spec.
  change (Prim2SF 0) with (S754_zero false).
  destruct (Prim2SF x) as [s|[]| |s m e]; try done.
  change (inject_Z 0) with 0%Q. rewrite SF2Q_sign. by destruct s.
Qed.

(** A float above zero is not zero. *)
Lemma float_positive_not_0 x :
  (0 <? x)%float = true → (x =? 0)%float = false.
Proof.
  rewrite ltb_spec, FloatAxioms.eqb_spec.
  change (Prim2SF 0) with (S754_zero false).
  by destruct (Prim2SF x) as [[]|[]| |[] m e].
Qed.

(** A float that is zero or more is zero or above zero, and not both. *)
Lemma float_eqb_0_cases x :
  (0 <=? x)%float = true → (x =? 0)%float = negb (0 <? x)%float.
Proof.
  rewrite ltb_spec, leb_spec, FloatAxioms.eqb_spec.
  change (Prim2SF 0) with (S754_zero false).
  by destruct (Prim2SF x) as [[]|[]| |[] m e].
Qed.

(** A finite float is zero when the number that it stands for is. *)
Lemma float_value_0 x :
  PrimFloat.is_finite x = true →
  (x =? 0)%float = true ↔ (float_value x == 0)%Q.
Proof.
  unfold PrimFloat.is_finite, is_nan, is_infinity, float_value.
  rewrite !FloatAxioms.eqb_spec, abs_spec.
  change (Prim2SF 0) with (S754_zero false).
  change (Prim2SF infinity) with (S754_infinity false).
  destruct (Prim2SF x) as [s|s| |s m e] eqn:E.
  - intros _. by split.
  - by destruct s.
  - done.
  - intros _. split.
    + by destruct s.
    + intros Hz%Qeq_alt. rewrite SF2Q_sign in Hz. by destruct s.
Qed.

(** ** Comparisons of rationals *)

Lemma Qltb_lt a b : Qltb a b = true ↔ (a < b)%Q.
Proof.
  unfold Qltb. rewrite negb_true_iff, <- not_true_iff_false, Qle_bool_iff.
  split; [apply Qnot_le_lt | apply Qlt_not_le].
Qed.

Lemma Qltb_ge a b : Qltb a b = false ↔ (b <= a)%Q.
Proof. unfold Qltb. by rewrite negb_false_iff, Qle_bool_iff. Qed.

(** ** Dictionaries *)

Section dict_lemmas.
Context {A : Type}.
Implicit Types (d : pydict A) (k : string) (v : A).

Lemma dict_get_set_eq k v d : dict_get k (dict_set k v d) = Some v.
Proof.
  induction d as [|[k' v'] d IH]; simpl.
  - by rewrite String.eqb_refl.
  - destruct (String.eqb k k') eqn:E; simpl; rewrite E; [done|exact IH].
Qed.

Lemma dict_get_set_ne k k' v d :
  k ≠ k' → dict_get k' (dict_set k v d) = dict_get k' d.
Proof.
  intros Hne. induction d as [|[k0 v0] d IH]; simpl.
  - destruct (String.eqb_spec k' k); congruence.
  - destruct (String.eqb_spec k k0) as [->|]; simpl.
    + destruct (String.eqb_spec k' k0); congruence.
    + by rewrite IH.
Qed.

Lemma dict_get_None k d : dict_get k d = None ↔ k ∉ dict_keys d.
Proof.
  unfold dict_keys. induction d as [|[k' v'] d IH]; simpl.
  - split; [intros _; apply not_elem_of_nil | done].
  - rewrite not_elem_of_cons, <- IH.
    destruct (String.eqb_spec k k'); intuition congruence.
Qed.

Lemma dict_get_Some_elem k v d : dict_get k d = Some v → (k, v) ∈ d.
Proof.
  induction d as [|[k' v'] d IH]; simpl; [done|].
  destruct (String.eqb_spec k k') as [->|].
  - intros [= ->]. left.
  - intros. right. auto.
Qed.

Lemma dict_get_NoDup k v d :
  NoDup (dict_keys d) → (k, v) ∈ d → dict_get k d = Some v.
Proof.
  unfold dict_keys. induction d as [|[k' v'] d IH]; simpl.
  - intros _ Hin. by apply elem_of_nil in Hin.
  - rewrite NoDup_cons. intros [Hk Hnd] Hin.
    apply elem_of_cons in Hin as [[= <- <-]|Hin].
    + by rewrite String.eqb_refl.
    + destruct (String.eqb_spec k k') as [->|]; [|auto].
      destruct Hk. apply list_elem_of_fmap. by exists (k', v).
Qed.

Lemma dict_set_fresh k v d : k ∉ dict_keys d → dict_set k v d = d ++ [(k, v)].
Proof.
  unfold dict_keys. induction d as [|[k' v'] d IH]; simpl; [done|].
  rewrite not_elem_of_cons. intros [Hne Hk].
  destruct (String.eqb_spec k k'); [done|]. by rewrite IH.
Qed.

(** Setting keys that are new, one after the other, appends them. *)
Lemma foldl_dict_set_fresh (es : pydict A) d :
  NoDup (dict_keys d ++ dict_keys es) →
  foldl (λ d e, dict_set e.1 e.2 d) d es = d ++ es.
Proof.
  unfold dict_keys. revert d.
  induction es as [|[k v] es IH]; intros d Hnd; simpl.
  - by rewrite app_nil_r.
  - rewrite dict_set_fresh.
    + rewrite IH; [by rewrite <- app_assoc|].
      rewrite fmap_app, <- app_assoc. done.
    + apply NoDup_app in Hnd as (_ & Hd & _).
      intros Hin. apply (Hd k Hin). simpl. left.
Qed.
End dict_lemmas.

(** ** The engine *)

Section engine_lemmas.
Implicit Types (d : COCOData.t) (rule : Rule) (rules : list Rule).

Lemma run_rule_unfold d results total logged rule :
  run_rule d (results, total, logged) rule =
    (from_option (λ e, dict_set e.1 e.2 results) results (stored d rule),
     total + Z.of_nat (counted d rule),
     logged ++ rule_log d rule).
Proof.
  unfold run_rule, stored, counted, rule_log.
  destruct (call rule d) as [e|[|x l]]; simpl.
  - by rewrite <- app_assoc.
  - rewrite Z.add_0_r. done.
  - by rewrite <- app_assoc.
Qed.

Lemma foldl_run_rule d rules : ∀ results total logged,
  foldl (run_rule d) (results, total, logged) rules =
    (foldl (λ res e, dict_set e.1 e.2 res) results (omap (stored d) rules),
     total + Z.of_nat (sum_list (counted d <$> rules)),
     logged ++ (rules ≫= rule_log d)).
Proof.
  induction rules as [|rule rules IH]; intros results total logged.
  - simpl. by rewrite Z.add_0_r, app_nil_r.
  - cbn [foldl]. rewrite run_rule_unfold, IH.
    rewrite bind_cons, <- app_assoc. cbn [fmap list_fmap sum_list omap list_omap].
    f_equal. f_equal.
    + by destruct (stored d rule).
    + unfold id. lia.
Qed.

Lemma stored_key_in d rule e :
  stored d rule = Some e → e.1 ∈ result_keys (__name__ rule).
Proof.
  unfold stored, result_keys.
  destruct (call rule d) as [?|[|??]]; intros [= <-]; simpl.
  - right. left.
  - left.
Qed.

Lemma stored_nonempty d rule e : stored d rule = Some e → e.2 ≠ [].
Proof.
  unfold stored. by destruct (call rule d) as [?|[|??]]; intros [= <-].
Qed.

Lemma stored_length d rule :
  from_option (λ e, length e.2) 0%nat (stored d rule) = counted d rule.
Proof. unfold stored, counted. by destruct (call rule d) as [?|[|??]]. Qed.

(** The keys that are stored are among the possible ones, in order. *)
Lemma stored_keys_sublist d rules :
  dict_keys (omap (stored d) rules)
    `sublist_of` ((__name__ <$> rules) ≫= result_keys).
Proof.
  unfold dict_keys. induction rules as [|rule rules IH]; [done|].
  rewrite fmap_cons, bind_cons. cbn [omap list_omap].
  destruct (stored d rule) as [e|] eqn:E.
  - rewrite fmap_cons. apply stored_key_in in E.
    unfold result_keys in *.
    apply elem_of_cons in E as [->|E].
    + simpl. apply sublist_skip, sublist_cons. done.
    + apply list_elem_of_singleton in E as ->.
      simpl. apply sublist_cons, sublist_skip. done.
  - by apply sublist_inserts_l.
Qed.

Lemma stored_keys_NoDup d rules :
  NoDup ((__name__ <$> rules) ≫= result_keys) →
  NoDup (dict_keys (omap (stored d) rules)).
Proof. intros Hnd. eapply sublist_NoDup; [done|apply stored_keys_sublist]. Qed.

(** With keys that cannot collide, the findings mapping is the list of
    what the rules store, in the order of the rules. *)
Lemma foldl_stored d rules :
  NoDup ((__name__ <$> rules) ≫= result_keys) →
  foldl (λ res e, dict_set e.1 e.2 res) [] (omap (stored d) rules)
    = omap (stored d) rules.
Proof.
  intros Hnd. rewrite foldl_dict_set_fresh; [done|].
  by apply stored_keys_NoDup.
Qed.

Lemma sum_stored_lengths d rules :
  sum_list (length <$> dict_values (omap (stored d) rules))
    = sum_list (counted d <$> rules).
Proof.
  unfold dict_values. induction rules as [|rule rules IH]; [done|].
  cbn [omap list_omap fmap list_fmap sum_list]. rewrite <- IH, <- stored_length.
  by destruct (stored d rule).
Qed.

(** Two rules of a registry without collisions that share a possible key
    are the same rule. *)
Lemma result_keys_inj rules rule1 rule2 k :
  NoDup ((__name__ <$> rules) ≫= result_keys) →
  rule1 ∈ rules → rule2 ∈ rules →
  k ∈ result_keys (__name__ rule1) → k ∈ result_keys (__name__ rule2) →
  rule1 = rule2.
Proof.
  induction rules as [|rule rules IH]; intros Hnd H1 H2 Hk1 Hk2.
  - by apply elem_of_nil in H1.
  - rewrite fmap_cons, bind_cons in Hnd.
    apply NoDup_app in Hnd as (Hhd & Hdisj & Htl).
    assert (Hout : ∀ r, r ∈ rules → k ∈ result_keys (__name__ r) →
              k ∈ (__name__ <$> rules) ≫= result_keys).
    { intros r Hr Hkr. apply list_elem_of_bind. exists (__name__ r).
      split; [done|]. by apply list_elem_of_fmap_2. }
    apply elem_of_cons in H1 as [->|H1]; apply elem_of_cons in H2 as [->|H2].
    + done.
    + destruct (Hdisj k Hk1). eauto.
    + destruct (Hdisj k Hk2). eauto.
    + eauto.
Qed.
End engine_lemmas.

Lemma string_length_app (s1 s2 : string) :
  String.length (s1 +:+ s2) = (String.length s1 + String.length s2)%nat.
Proof. induction s1 as [|a s1 IH]; simpl; [done|by rewrite IH]. Qed.

Lemma execution_error_key_ne (rule_name : string) :
  rule_name ≠ rule_name +:+ "_execution_error".
Proof.
  intros E. apply (f_equal String.length) in E.
  rewrite string_length_app in E. simpl in E. lia.
Qed.

Section engine_properties.
Context `{Scalars}.
Variable read_text : string → ReadError + string.
Variable json_loads : string → LoadsError + value.
Implicit Types (d : COCOData.t) (rule : Rule) (all_rules : list Rule).

(** Once the file is parsed the scan returns a result, whatever the rules
    do. *)
Lemma run_scan_parsed all_rules filepath d :
  parse_coco read_text json_loads filepath = inr d →
  run_scan read_text json_loads all_rules filepath =
    (scan_prelude filepath all_rules ++ (all_rules ≫= rule_log d)
       ++ [(INFO, "Scan complete. Total findings: "
                  +:+ pretty (Z.of_nat (sum_list (counted d <$> all_rules))))],
     inr {| data := d;
            findings :=
              foldl (λ res e, dict_set e.1 e.2 res) []
                (omap (stored d) all_rules);
            total_findings :=
              Z.of_nat (sum_list (counted d <$> all_rules)) |}).
Proof.
  intros Hparse. unfold run_scan. rewrite Hparse.
  rewrite foldl_run_rule. rewrite Z.add_0_l.
  unfold scan_prelude. f_equal.
  destruct all_rules; simpl; by rewrite <- ?app_assoc.
Qed.

Lemma run_scan_parse_error all_rules filepath e :
  parse_coco read_text json_loads filepath = inl e →
  is_ParseError e = true →
  run_scan read_text json_loads all_rules filepath =
    ([(INFO, "Core engine starting scan for: " +:+ filepath);
      (ERROR, "Core engine caught a parsing error. Aborting scan.")],
     inl e).
Proof. intros Hparse He. unfold run_scan. by rewrite Hparse, He. Qed.

(** What [parse_coco] raises, [run_scan] raises. *)
Lemma run_scan_raises all_rules filepath e :
  parse_coco read_text json_loads filepath = inl e →
  ∃ logged,
    run_scan read_text json_loads all_rules filepath = (logged, inl e).
Proof.
  intros Hparse. unfold run_scan. rewrite Hparse.
  destruct (is_ParseError e); eauto.
Qed.

Lemma filter_debug_rule_log d all_rules :
  filter (λ r, r.1 = DEBUG) (all_rules ≫= rule_log d)
    = (λ rule, (DEBUG, "Executing rule: " +:+ __name__ rule)) <$> all_rules.
Proof.
  induction all_rules as [|rule all_rules IH]; [done|].
  rewrite bind_cons, filter_app, IH, fmap_cons.
  unfold rule_log. rewrite filter_cons_True by done.
  by destruct (call rule d) as [?|[|??]].
Qed.

(** What the mapping holds under one of the two keys of a rule. *)
Lemma dict_get_stored d all_rules rule k :
  NoDup ((__name__ <$> all_rules) ≫= result_keys) →
  rule ∈ all_rules → k ∈ result_keys (__name__ rule) →
  dict_get k (omap (stored d) all_rules) =
    e ← stored d rule; if String.eqb k e.1 then Some e.2 else None.
Proof.
  intros Hnd Hrule Hk.
  assert (Hcase : ∀ v, stored d rule = Some (k, v) →
            dict_get k (omap (stored d) all_rules) = Some v).
  { intros v Hv. apply dict_get_NoDup; [by apply stored_keys_NoDup|].
    apply list_elem_of_omap. eauto. }
  assert (Hnone : (∀ v, stored d rule ≠ Some (k, v)) →
            dict_get k (omap (stored d) all_rules) = None).
  { intros Hv. apply dict_get_None. unfold dict_keys. intros Hin.
    apply list_elem_of_fmap in Hin as ([k' v] & -> & Hin).
    apply list_elem_of_omap in Hin as (rule' & Hrule' & Hst).
    assert (rule' = rule) as ->; [|by eapply Hv].
    eapply result_keys_inj; [done..| |done].
    by apply (stored_key_in _ _ _ Hst). }
  destruct (stored d rule) as [[k' v]|] eqn:E; simpl.
  - destruct (String.eqb_spec k k') as [->|Hne]; [eauto|].
    apply Hnone. congruence.
  - by apply Hnone.
Qed.

(** C1. When a rule raises, the scan is not aborted: every rule of the
    registry is executed, the total counts one for each rule that raised
    and the number of findings of each rule that returned, and (the keys of
    the registry being such that no two rules can write the same one) the
    mapping holds, for a rule that raised, the single text
    "Rule execution failed with an internal error." under
    "<rule_name>_execution_error", and no key at all for a rule that
    returned the empty list. *)
Theorem run_scan_isolates_rule_failures all_rules filepath d :
  parse_coco read_text json_loads filepath = inr d →
  ∃ logged res,
    run_scan read_text json_loads all_rules filepath = (logged, inr res) ∧
    data res = d ∧
    filter (λ r, r.1 = DEBUG) logged
      = (λ rule, (DEBUG, "Executing rule: " +:+ __name__ rule)) <$> all_rules ∧
    total_findings res = Z.of_nat (sum_list (counted d <$> all_rules)) ∧
    (∀ rule, counted d rule =
               match call rule d with inl _ => 1%nat | inr l => length l end) ∧
    (NoDup ((__name__ <$> all_rules) ≫= result_keys) →
     ∀ rule, rule ∈ all_rules →
       match call rule d with
       | inl _ =>
           dict_get (__name__ rule +:+ "_execution_error") (findings res)
             = Some ["Rule execution failed with an internal error."] ∧
           dict_get (__name__ rule) (findings res) = None
       | inr [] =>
           dict_get (__name__ rule) (findings res) = None ∧
           dict_get (__name__ rule +:+ "_execution_error") (findings res)
             = None
       | inr l =>
           dict_get (__name__ rule) (findings res) = Some l ∧
           dict_get (__name__ rule +:+ "_execution_error") (findings res)
             = None
       end).
Proof.
  intros Hparse. eexists _, _. split; [by apply run_scan_parsed|].
  cbn [data findings total_findings]. split_and!; [done| |done|done|].
  - rewrite !filter_app, filter_debug_rule_log.
    rewrite (filter_cons_False _ _ []) by done.
    unfold scan_prelude. rewrite filter_app.
    replace (filter _ [_; _; _]) with (@nil (level * string)) by done.
    destruct all_rules; by rewrite ?app_nil_r.
  - intros Hnd rule Hrule. rewrite foldl_stored by done.
    assert (Hname : __name__ rule ∈ result_keys (__name__ rule)) by left.
    assert (Herr : __name__ rule +:+ "_execution_error"
                     ∈ result_keys (__name__ rule)) by (right; left).
    rewrite !(dict_get_stored d all_rules rule) by done.
    pose proof (execution_error_key_ne (__name__ rule)) as Hne.
    unfold stored. destruct (call rule d) as [?|[|??]]; simpl;
      rewrite ?String.eqb_refl; split; try done.
    + by destruct (String.eqb_spec (__name__ rule)
                     (__name__ rule +:+ "_execution_error")).
    + by destruct (String.eqb_spec (__name__ rule +:+ "_execution_error")
                     (__name__ rule)).
Qed.

Lemma dict_set_values_Forall {A} (P : A → Prop) k v (m : pydict A) :
  P v → Forall P (dict_values m) → Forall P (dict_values (dict_set k v m)).
Proof.
  unfold dict_values. intros Hv.
  induction m as [|[k' v'] m IH]; simpl.
  - by repeat constructor.
  - intros [? ?]%Forall_cons. destruct (String.eqb k k'); simpl;
      apply Forall_cons; auto.
Qed.

Lemma foldl_dict_set_nonempty d all_rules : ∀ results,
  Forall (λ l, l ≠ []) (dict_values results) →
  Forall (λ l, l ≠ [])
    (dict_values (foldl (λ res e, dict_set e.1 e.2 res) results
                    (omap (stored d) all_rules))).
Proof.
  induction all_rules as [|rule all_rules IH]; intros results Hres; [done|].
  cbn [omap list_omap]. destruct (stored d rule) as [e|] eqn:E; [|auto].
  cbn [foldl]. apply IH, dict_set_values_Forall; [|done].
  by eapply stored_nonempty.
Qed.

(** The invariant of the result for any registry whose rules cannot write
    the same key. *)
Lemma scan_result_invariant_distinct_keys all_rules filepath logged res :
  run_scan read_text json_loads all_rules filepath = (logged, inr res) →
  Forall (λ l, l ≠ []) (dict_values (findings res)) ∧
  (NoDup ((__name__ <$> all_rules) ≫= result_keys) →
   total_findings res
     = Z.of_nat (sum_list (length <$> dict_values (findings res)))).
Proof.
  intros Hrun.
  destruct (parse_coco read_text json_loads filepath) as [e|d] eqn:Hparse.
  { destruct (run_scan_raises all_rules _ _ Hparse) as [? He]. congruence. }
  rewrite (run_scan_parsed _ _ _ Hparse) in Hrun.
  injection Hrun as _ <-. cbn [findings total_findings]. split.
  - by apply foldl_dict_set_nonempty.
  - intros Hnd. rewrite foldl_stored by done.
    by rewrite sum_stored_lengths.
Qed.
End engine_properties.

(** The registry of [labellint.rules]: no two of its rules can write the
    same key. *)
Lemma rule_names_keys_distinct : NoDup (rule_names ≫= result_keys).
Proof. apply (bool_decide_unpack _). by vm_compute. Qed.

Lemma get_all_rules_names others :
  __name__ <$> get_all_rules others = rule_names.
Proof. reflexivity. Qed.

(** C9. Invariant of every result of [run_scan], whose registry is the one
    of [labellint.rules] (whatever its rules return or raise): the total is
    the sum of the lengths of the lists stored in the findings mapping, and
    each stored list is non-empty. *)
Theorem scan_result_invariant `{Scalars}
    (read_text : string → ReadError + string)
    (json_loads : string → LoadsError + value)
    (others : string → COCOData.t → outcome)
    (filepath : string) (logged : log) (res : ScanResult) :
  run_scan read_text json_loads (get_all_rules others) filepath
    = (logged, inr res) →
  total_findings res
    = Z.of_nat (sum_list (length <$> dict_values (findings res))) ∧
  Forall (λ l, l ≠ []) (dict_values (findings res)).
Proof.
  intros Hrun.
  destruct (scan_result_invariant_distinct_keys _ _ _ _ _ _ Hrun)
    as [Hnonempty Htotal].
  split; [|done]. apply Htotal. rewrite get_all_rules_names.
  apply rule_names_keys_distinct.
Qed.

(** ** Validation *)

Section validation_lemmas.
Context {A B : Type}.
Implicit Types (m : validation A) (val : value → validation A).

Lemma validation_bind_inr m (f : A → validation B) y :
  m ≫= f = inr y → ∃ x, m = inr x ∧ f x = inr y.
Proof. destruct m; simpl; [done|eauto]. Qed.

Lemma validation_fmap_inr m (f : A → B) y :
  f <$> m = inr y → ∃ x, m = inr x ∧ y = f x.
Proof. destruct m; simpl; [done|]. intros [= <-]. eauto. Qed.

Lemma at_loc_inr i m x : at_loc i m = inr x ↔ m = inr x.
Proof. by destruct m. Qed.

Lemma at_loc_inl i m : (∃ e, m = inl e) → ∃ e, at_loc i m = inl e.
Proof. intros [e ->]. simpl. eauto. Qed.
End validation_lemmas.

Section field_lemmas.
Context {A : Type}.
Implicit Types (val : value → validation A).

Lemma required_inr name val d x :
  required name val d = inr x ↔
  ∃ v, dict_get name d = Some v ∧ val v = inr x.
Proof.
  unfold required. destruct (dict_get name d) as [v|].
  - rewrite at_loc_inr. split; [eauto|by intros (? & [= <-] & ?)].
  - split; [done|by intros (? & [=] & _)].
Qed.

Lemma with_default_inr name val default d x :
  with_default name val default d = inr x ↔
  match dict_get name d with
  | Some v => val v = inr x
  | None => x = default
  end.
Proof.
  unfold with_default. destruct (dict_get name d) as [v|].
  - by rewrite at_loc_inr.
  - split; [by intros [= <-]|by intros ->].
Qed.

Lemma validate_items_inr val l : ∀ i xs,
  validate_items val i l = inr xs ↔ Forall2 (λ v x, val v = inr x) l xs.
Proof.
  induction l as [|v l IH]; intros i xs; simpl.
  - split; [intros [= <-]; constructor | by inversion 1].
  - split.
    + intros (x & Hx%at_loc_inr & (xs' & Hxs%IH & [= <-])%validation_bind_inr)
        %validation_bind_inr.
      by constructor.
    + inversion 1 as [|? x ? xs' Hx Hxs]; subst.
      apply (at_loc_inr (LIdx i)) in Hx. rewrite Hx. simpl.
      apply (IH (S i)) in Hxs. by rewrite Hxs.
Qed.

Lemma list_of_inr val v xs :
  list_of val v = inr xs ↔
  ∃ l, v = VList l ∧ Forall2 (λ v x, val v = inr x) l xs.
Proof.
  unfold list_of. destruct v; try (split; [done|by intros (? & [=] & _)]).
  rewrite validate_items_inr.
  split; [eauto|by intros (? & [= <-] & ?)].
Qed.
End field_lemmas.

Lemma optional_inr {A} (val : value → validation A) v (o : option A) :
  optional val v = inr o →
  (v = VNone ∧ o = None) ∨ (∃ x, val v = inr x ∧ o = Some x).
Proof.
  unfold optional. destruct v; try (intros (x & ? & ->)%validation_fmap_inr; eauto).
  intros [= <-]. auto.
Qed.

(** Inversion of a chain of binds that succeeded. *)
Ltac inv_validation H :=
  repeat
    match type of H with
    | _ ≫= _ = inr _ =>
        let x := fresh "x" in
        let Hx := fresh "Hx" in
        apply validation_bind_inr in H as (x & Hx & H)
    end.

Lemma find_some_elem {A} (f : A → bool) (l : list A) x :
  x ∈ l → f x = true → is_Some (List.find f l).
Proof.
  induction l as [|y l IH]; intros Hin Hf; [by apply elem_of_nil in Hin|].
  simpl. destruct (f y) eqn:E; [eauto|].
  apply elem_of_cons in Hin as [->|Hin]; [congruence|auto].
Qed.

Lemma find_app_none {A} (f : A → bool) (l1 l2 : list A) :
  List.find f l1 = None → List.find f (l1 ++ l2) = List.find f l2.
Proof.
  induction l1 as [|y l1 IH]; simpl; [done|]. by destruct (f y).
Qed.

Lemma forbid_extra_inr fields d :
  forbid_extra fields d = inr () ↔
  List.find (λ kv, negb (known_field fields kv.1)) d = None.
Proof.
  unfold forbid_extra.
  by destruct (List.find _ d) as [[k v]|].
Qed.

(** A key outside the fields of a model that forbids extra keys makes its
    validation fail. *)
Lemma forbid_extra_unknown fields d k :
  k ∈ dict_keys d → known_field fields k = false →
  ∃ e, forbid_extra fields d = inl e.
Proof.
  unfold dict_keys. intros ([k' v] & -> & Hin)%list_elem_of_fmap Hk.
  unfold forbid_extra.
  destruct (find_some_elem (λ kv, negb (known_field fields kv.1)) d (k', v))
    as [[k0 v0] ->]; [done|simpl in *; by rewrite Hk|]. eauto.
Qed.

Lemma dict_get_insert_unknown {A} (d1 d2 : pydict A) k v name :
  name ≠ k → dict_get name (d1 ++ (k, v) :: d2) = dict_get name (d1 ++ d2).
Proof.
  intros Hne. induction d1 as [|[k' v'] d1 IH]; simpl.
  - by destruct (String.eqb_spec name k).
  - by rewrite IH.
Qed.

Lemma known_field_true fields k : known_field fields k = true ↔ k ∈ fields.
Proof.
  unfold known_field. rewrite existsb_exists. split.
  - intros (k' & Hin%list_elem_of_In & ->%String.eqb_eq). done.
  - intros Hin. exists k. by rewrite String.eqb_refl, <- list_elem_of_In.
Qed.

Lemma known_field_false fields k : known_field fields k = false ↔ k ∉ fields.
Proof. by rewrite <- known_field_true, not_true_iff_false. Qed.

Lemma required_insert_unknown {A} name (val : value → validation A) d1 d2 k v :
  name ≠ k →
  required name val (d1 ++ (k, v) :: d2) = required name val (d1 ++ d2).
Proof. intros. unfold required. by rewrite dict_get_insert_unknown. Qed.

Lemma with_default_insert_unknown {A} name (val : value → validation A)
    default d1 d2 k v :
  name ≠ k →
  with_default name val default (d1 ++ (k, v) :: d2)
    = with_default name val default (d1 ++ d2).
Proof. intros. unfold with_default. by rewrite dict_get_insert_unknown. Qed.

Lemma forbid_extra_insert_unknown fields d1 d2 k v :
  k ∉ fields →
  forbid_extra fields (d1 ++ d2) = inr () →
  forbid_extra fields (d1 ++ (k, v) :: d2)
    = inl {| loc := [LKey k]; type := extra_forbidden |}.
Proof.
  intros Hk%known_field_false Hok%forbid_extra_inr. unfold forbid_extra.
  rewrite find_app_none.
  - simpl. by rewrite Hk.
  - destruct (List.find _ d1) as [x|] eqn:E; [|done].
    induction d1 as [|y d1 IH]; simpl in *; [done|].
    destruct (negb (known_field fields y.1)); [done|auto].
Qed.

Lemma allow_extra_insert_unknown fields d1 d2 k v :
  k ∉ fields →
  allow_extra fields (d1 ++ (k, v) :: d2)
    = allow_extra fields d1 ++ (k, v) :: allow_extra fields d2.
Proof.
  intros Hk%known_field_false. unfold allow_extra.
  rewrite List.filter_app. simpl. by rewrite Hk.
Qed.

(** A field name differs from a key that is not a field. *)
Ltac field_ne Hk :=
  let E := fresh in
  intros E; apply Hk; rewrite <- E; clear;
  repeat first [ by left | right ].

Section unknown_fields.
Context `{Scalars}.

Lemma COCOData_unknown_field d1 d2 k v doc :
  k ∉ COCOData.fields →
  COCOData.model_validate (VDict (d1 ++ d2)) = inr doc →
  COCOData.model_validate (VDict (d1 ++ (k, v) :: d2))
    = inl {| loc := [LKey k]; type := extra_forbidden |}.
Proof.
  intros Hk Hdoc. unfold COCOData.model_validate in *.
  rewrite !required_insert_unknown by field_ne Hk.
  inv_validation Hdoc. destruct x4.
  rewrite Hx, Hx0, Hx1, Hx2, Hx3. simpl.
  by rewrite (forbid_extra_insert_unknown _ _ _ _ _ Hk Hx4).
Qed.

Lemma COCOInfo_unknown_field d1 d2 k v x :
  k ∉ COCOInfo.fields →
  COCOInfo.model_validate (VDict (d1 ++ d2)) = inr x →
  COCOInfo.model_validate (VDict (d1 ++ (k, v) :: d2))
    = inr {| COCOInfo.year := COCOInfo.year x;
             COCOInfo.version := COCOInfo.version x;
             COCOInfo.description := COCOInfo.description x;
             COCOInfo.contributor := COCOInfo.contributor x;
             COCOInfo.url := COCOInfo.url x;
             COCOInfo.date_created := COCOInfo.date_created x;
             COCOInfo.extra :=
               allow_extra COCOInfo.fields (d1 ++ (k, v) :: d2) |}.
Proof.
  intros Hk Hx. unfold COCOInfo.model_validate in *.
  rewrite !with_default_insert_unknown by field_ne Hk.
  inv_validation Hx. injection Hx as <-.
  rewrite Hx0, Hx1, Hx2, Hx3, Hx4, Hx5. done.
Qed.
End unknown_fields.

Lemma required_set_eq {A} name (val : value → validation A) v d :
  required name val (dict_set name v d) = at_loc (LKey name) (val v).
Proof. unfold required. by rewrite dict_get_set_eq. Qed.

Lemma required_set_ne {A} name (val : value → validation A) k v d :
  k ≠ name → required name val (dict_set k v d) = required name val d.
Proof. intros. unfold required. by rewrite dict_get_set_ne. Qed.

Lemma forbid_extra_dict_set fields k (v v' : value) d :
  forbid_extra fields (dict_set k v d) = forbid_extra fields (dict_set k v' d).
Proof.
  unfold forbid_extra. induction d as [|[k0 v0] d IH]; simpl.
  - by destruct (negb (known_field fields k)).
  - destruct (String.eqb k k0); simpl;
      destruct (negb (known_field fields k0)); done.
Qed.

Section parse_coco_properties.
Context `{Scalars}.
Variable read_text : string → ReadError + string.
Variable json_loads : string → LoadsError + value.

(** The third stage decides, once the file is read and parsed. *)
Lemma parse_coco_stage3 filepath raw v :
  read_text filepath = inr raw → json_loads raw = inr v →
  parse_coco read_text json_loads filepath =
    match COCOData.model_validate v with
    | inr coco_data => inr coco_data
    | inl first_error =>
        inl (InvalidFormatError
               ("Data validation failed at '"
                +:+ loc_str (loc first_error) +:+ "': "
                +:+ error_msg (type first_error)))
    end.
Proof. intros Hread Hjson. unfold parse_coco. by rewrite Hread, Hjson. Qed.

Lemma COCOData_replace_info top i i' doc x' :
  COCOData.model_validate (VDict (dict_set "info" i top)) = inr doc →
  COCOInfo.model_validate i' = inr x' →
  COCOData.model_validate (VDict (dict_set "info" i' top))
    = inr {| COCOData.info := x';
             COCOData.licenses := COCOData.licenses doc;
             COCOData.images := COCOData.images doc;
             COCOData.annotations := COCOData.annotations doc;
             COCOData.categories := COCOData.categories doc |}.
Proof.
  intros Hdoc Hx'. unfold COCOData.model_validate in *.
  rewrite required_set_eq in *. rewrite !required_set_ne in * by done.
  rewrite (forbid_extra_dict_set _ _ i' i).
  inv_validation Hdoc. injection Hdoc as <-.
  rewrite Hx', Hx0, Hx1, Hx2, Hx3, Hx4. done.
Qed.

(** C4. A file that is read and parsed, and whose top-level object is valid
    but for one key that is not a field of the document, is rejected with
    [InvalidFormatError]; a key that is not a field inside the info block
    is accepted and kept. *)
Theorem parse_coco_unknown_fields filepath raw :
  read_text filepath = inr raw →
  (∀ d1 d2 k v doc,
     json_loads raw = inr (VDict (d1 ++ (k, v) :: d2)) →
     k ∉ COCOData.fields →
     COCOData.model_validate (VDict (d1 ++ d2)) = inr doc →
     parse_coco read_text json_loads filepath
       = inl (InvalidFormatError
                ("Data validation failed at '" +:+ k +:+ "': "
                 +:+ error_msg extra_forbidden))) ∧
  (∀ top i1 i2 k v doc,
     json_loads raw
       = inr (VDict (dict_set "info" (VDict (i1 ++ (k, v) :: i2)) top)) →
     k ∉ COCOInfo.fields →
     COCOData.model_validate (VDict (dict_set "info" (VDict (i1 ++ i2)) top))
       = inr doc →
     ∃ doc',
       parse_coco read_text json_loads filepath = inr doc' ∧
       COCOInfo.extra (COCOData.info doc')
         = allow_extra COCOInfo.fields i1 ++ (k, v)
             :: allow_extra COCOInfo.fields i2 ∧
       COCOData.licenses doc' = COCOData.licenses doc ∧
       COCOData.images doc' = COCOData.images doc ∧
       COCOData.annotations doc' = COCOData.annotations doc ∧
       COCOData.categories doc' = COCOData.categories doc).
Proof.
  intros Hread. split.
  - intros d1 d2 k v doc Hjson Hk Hdoc.
    rewrite (parse_coco_stage3 _ _ _ Hread Hjson).
    by rewrite (COCOData_unknown_field _ _ _ _ _ Hk Hdoc).
  - intros top i1 i2 k v doc Hjson Hk Hdoc.
    rewrite (parse_coco_stage3 _ _ _ Hread Hjson).
    assert (∃ x, COCOInfo.model_validate (VDict (i1 ++ i2)) = inr x)
      as [x Hx].
    { unfold COCOData.model_validate in Hdoc.
      rewrite required_set_eq in Hdoc. inv_validation Hdoc.
      apply at_loc_inr in Hx. eauto. }
    pose proof (COCOInfo_unknown_field _ _ _ v _ Hk Hx) as Hx'.
    rewrite (COCOData_replace_info _ _ _ _ _ Hdoc Hx').
    eexists. split; [done|]. simpl.
    by rewrite allow_extra_insert_unknown.
Qed.

(** C10. A file that is read, and for which [json.loads] returns a value
    that is not an object, is rejected with [InvalidFormatError]. But
    [json.loads] does not return a value for every text that is JSON: on
    arrays nested too deeply it raises [RecursionError], on an integer of
    too many digits [ValueError]. Such an exception is no
    [JSONDecodeError], no clause of [parse_coco] catches it, and it leaves
    [parse_coco] and [run_scan] as it is: it is no [ParseError]. *)
Theorem parse_coco_rejects_non_object filepath raw :
  read_text filepath = inr raw →
  (∀ v, json_loads raw = inr v → ¬ is_object v →
     parse_coco read_text json_loads filepath
       = inl (InvalidFormatError
                ("Data validation failed at '': "
                 +:+ error_msg (model_type "COCOData")))) ∧
  (∀ e all_rules, json_loads raw = inl (OtherError e) →
     parse_coco read_text json_loads filepath = inl (Uncaught e) ∧
     is_ParseError (Uncaught e) = false ∧
     run_scan read_text json_loads all_rules filepath
       = ([(INFO, "Core engine starting scan for: " +:+ filepath)],
          inl (Uncaught e))).
Proof.
  intros Hread. split.
  - intros v Hjson Hv. rewrite (parse_coco_stage3 _ _ _ Hread Hjson).
    by destruct v.
  - intros e all_rules Hjson.
    assert (parse_coco read_text json_loads filepath = inl (Uncaught e))
      as Hparse by (unfold parse_coco; by rewrite Hread, Hjson).
    split_and!; [done..|]. unfold run_scan. by rewrite Hparse.
Qed.
End parse_coco_properties.

(** ** What validation guarantees *)

Lemma Forall2_Forall_r {A B} (P : A → B → Prop) (Q : B → Prop) l k :
  Forall2 P l k → (∀ x y, P x y → Q y) → Forall Q k.
Proof. induction 1; intros HPQ; constructor; eauto. Qed.

Section validated.
Context `{Scalars}.

Lemma bbox_must_have_positive_dimensions_inr v b :
  COCOAnnotation.bbox_must_have_positive_dimensions v = inr b →
  b = v ∧ bbox_valid b.
Proof.
  unfold COCOAnnotation.bbox_must_have_positive_dimensions.
  destruct v as [|x [|y [|w [|h [|??]]]]]; try done.
  destruct (w <? 0)%float eqn:Ew; [done|].
  destruct (h <? 0)%float eqn:Eh; [done|]. simpl.
  intros [= <-]. split; [done|].
  by exists x, y, w, h.
Qed.

Lemma list_between_inr {A} lo hi (val : value → validation A) v xs :
  list_between lo hi val v = inr xs ↔
  ∃ l, v = VList l ∧ Forall2 (λ v x, val v = inr x) l xs
       ∧ (lo ≤ length xs ≤ hi)%nat.
Proof.
  unfold list_between.
  destruct v as [| | | | |l|]; try (split; [done|by intros (? & [=] & _)]).
  split.
  - destruct (hi <? length l)%nat eqn:Ehi; [done|].
    apply Nat.ltb_ge in Ehi.
    intros (xs' & Hxs & Hlo)%validation_bind_inr.
    destruct (length xs' <? lo)%nat eqn:Elo; [done|].
    apply Nat.ltb_ge in Elo. injection Hlo as <-.
    apply validate_items_inr in Hxs. exists l. split_and!; [done..|].
    apply Forall2_length in Hxs. lia.
  - intros (? & [= <-] & Hxs & Hlen).
    pose proof (Forall2_length _ _ _ Hxs) as Hl.
    rewrite (proj2 (Nat.ltb_ge _ _)) by lia.
    apply (validate_items_inr val l 0%nat) in Hxs. rewrite Hxs. simpl.
    by rewrite (proj2 (Nat.ltb_ge _ _)) by lia.
Qed.

Lemma validate_bbox_inr v b :
  COCOAnnotation.validate_bbox v = inr b →
  (∃ l, v = VList l ∧ Forall2 (λ v x, as_float v = inr x) l b) ∧
  bbox_valid b.
Proof.
  unfold COCOAnnotation.validate_bbox. intros Hb. inv_validation Hb.
  apply list_between_inr in Hx as (l & -> & Hl & _).
  destruct (COCOAnnotation.bbox_must_have_positive_dimensions x) eqn:E;
    [done|].
  injection Hb as ->.
  apply bbox_must_have_positive_dimensions_inr in E as [-> Hv]. eauto.
Qed.

Lemma as_float_negative v x :
  negative_number v → as_float v = inr x → (x <? 0)%float = true.
Proof.
  destruct v; try done; simpl; intros Hneg.
  - intros Hx. by apply (as_float_int z).
  - rewrite as_float_float. by intros [= <-].
Qed.

(** A list of four numbers whose width or height is negative is not a
    bbox. *)
Lemma validate_bbox_negative x y w h :
  negative_number w ∨ negative_number h →
  ∃ e, COCOAnnotation.validate_bbox (VList [x; y; w; h]) = inl e.
Proof.
  intros Hneg.
  destruct (COCOAnnotation.validate_bbox (VList [x; y; w; h])) as [e|b]
    eqn:E; [eauto|exfalso].
  apply validate_bbox_inr in E
    as [(l & [= <-] & Hl) (x' & y' & w' & h' & -> & Hw & Hh)].
  apply Forall2_cons in Hl as [_ Hl]. apply Forall2_cons in Hl as [_ Hl].
  apply Forall2_cons in Hl as [Hw' Hl]. apply Forall2_cons in Hl as [Hh' _].
  unfold not_negative in Hw, Hh.
  destruct Hneg as [Hneg|Hneg].
  - pose proof (as_float_negative _ _ Hneg Hw'). congruence.
  - pose proof (as_float_negative _ _ Hneg Hh'). congruence.
Qed.

Lemma COCOAnnotation_model_validate_inr v x :
  COCOAnnotation.model_validate v = inr x →
  ∃ d, v = VDict d ∧
    required "bbox" COCOAnnotation.validate_bbox d
      = inr (COCOAnnotation.bbox x) ∧
    COCOAnnotation_valid x.
Proof.
  unfold COCOAnnotation.model_validate. destruct v as [| | | | | |d]; try done.
  intros Hx. inv_validation Hx. injection Hx as <-.
  exists d. split_and!; [done..|]. unfold COCOAnnotation_valid. simpl.
  apply required_inr in Hx4 as (v4 & _ & Hx4). inv_validation Hx4.
  apply required_inr in Hx5 as (v5 & _ & (_ & Hbbox)%validate_bbox_inr).
  apply required_inr in Hx6 as (v6 & _ & Hx6). inv_validation Hx6.
  unfold float_ge in Hx4. rewrite float_lt_int_0 in Hx4.
  destruct (x <? 0)%float eqn:Earea; [done|]. injection Hx4 as <-.
  unfold int_ge in Hx8. destruct (0 <=? x8) eqn:E0; [|done].
  injection Hx8 as <-.
  unfold int_le in Hx6. destruct (x8 <=? 1) eqn:E1; [|done].
  injection Hx6 as <-.
  split_and!; [done|done|lia|lia].
Qed.

Lemma COCOImage_model_validate_inr v x :
  COCOImage.model_validate v = inr x → COCOImage_valid x.
Proof.
  unfold COCOImage.model_validate. destruct v as [| | | | | |d]; try done.
  intros Hx. inv_validation Hx. injection Hx as <-.
  unfold COCOImage_valid. simpl.
  apply required_inr in Hx1 as (v1 & _ & Hx1). inv_validation Hx1.
  apply required_inr in Hx2 as (v2 & _ & Hx2). inv_validation Hx2.
  unfold int_gt in *.
  destruct (0 <? x) eqn:Ew; [|done]. injection Hx1 as <-.
  destruct (0 <? x9) eqn:Eh; [|done]. injection Hx2 as <-.
  lia.
Qed.

Lemma allow_extra_unknown fields d :
  Forall (λ kv, known_field fields kv.1 = false) (allow_extra fields d).
Proof.
  unfold allow_extra. apply Forall_forall. intros kv Hin.
  apply list_elem_of_In, List.filter_In in Hin as [_ Hkv].
  by apply negb_true_iff in Hkv.
Qed.

Lemma COCOInfo_model_validate_inr v x :
  COCOInfo.model_validate v = inr x → COCOInfo_valid x.
Proof.
  unfold COCOInfo.model_validate. destruct v as [| | | | | |d]; try done.
  intros Hx. inv_validation Hx. injection Hx as <-.
  apply allow_extra_unknown.
Qed.

Lemma COCOData_model_validate_inr v x :
  COCOData.model_validate v = inr x →
  ∃ d, v = VDict d ∧
    required "annotations" (list_of COCOAnnotation.model_validate) d
      = inr (COCOData.annotations x) ∧
    COCOData_valid x.
Proof.
  unfold COCOData.model_validate. destruct v as [| | | | | |d]; try done.
  intros Hx. inv_validation Hx. injection Hx as <-.
  exists d. split_and!; [done..|]. unfold COCOData_valid. simpl.
  apply required_inr in Hx0 as (v0 & _ & Hx0).
  apply required_inr in Hx2 as (v2 & _ & (l2 & _ & Hx2)%list_of_inr).
  apply required_inr in Hx3 as (v3 & _ & (l3 & _ & Hx3)%list_of_inr).
  split_and!.
  - by eapply COCOInfo_model_validate_inr.
  - eapply Forall2_Forall_r; [done|]. intros ??.
    apply COCOImage_model_validate_inr.
  - eapply Forall2_Forall_r; [done|]. intros ?? Ha.
    by apply COCOAnnotation_model_validate_inr in Ha as (_ & _ & _ & ?).
Qed.

(** An annotation object whose bbox has a negative width or height is
    rejected. *)
Lemma COCOAnnotation_negative_bbox d x y w h :
  dict_get "bbox" d = Some (VList [x; y; w; h]) →
  negative_number w ∨ negative_number h →
  ∃ e, COCOAnnotation.model_validate (VDict d) = inl e.
Proof.
  intros Hbbox Hneg.
  destruct (COCOAnnotation.model_validate (VDict d)) as [e|a] eqn:E;
    [eauto|exfalso].
  apply COCOAnnotation_model_validate_inr in E as (? & [= <-] & Hb & _).
  apply required_inr in Hb as (v & Hv & Hb).
  rewrite Hbbox in Hv. injection Hv as <-.
  destruct (validate_bbox_negative x y w h Hneg) as [e He]. congruence.
Qed.

(** The bboxes of a validated document have four numbers. *)
Lemma COCOData_valid_bbox_length doc :
  COCOData_valid doc →
  Forall (λ ann, length (COCOAnnotation.bbox ann) = 4%nat)
    (COCOData.annotations doc).
Proof.
  intros (_ & _ & Hanns). eapply Forall_impl; [done|].
  by intros ann (_ & (? & ? & ? & ? & -> & _) & _).
Qed.

(** So is a document that holds such an annotation. *)
Lemma COCOData_negative_bbox top anns d x y w h :
  dict_get "annotations" top = Some (VList anns) →
  VDict d ∈ anns →
  dict_get "bbox" d = Some (VList [x; y; w; h]) →
  negative_number w ∨ negative_number h →
  ∃ e, COCOData.model_validate (VDict top) = inl e.
Proof.
  intros Hanns Hin Hbbox Hneg.
  destruct (COCOData.model_validate (VDict top)) as [e|doc] eqn:E;
    [eauto|exfalso].
  apply COCOData_model_validate_inr in E as (? & [= <-] & Ha & _).
  apply required_inr in Ha as (v & Hv & Ha).
  rewrite Hanns in Hv. injection Hv as <-.
  apply list_of_inr in Ha as (? & [= <-] & Ha).
  apply list_elem_of_lookup in Hin as [i Hi].
  destruct (Forall2_lookup_l _ _ _ _ _ Ha Hi) as (a & _ & Hva).
  destruct (COCOAnnotation_negative_bbox d x y w h Hbbox Hneg) as [e He].
  congruence.
Qed.
End validated.

(** ** Round trip *)

Section round_trip.
Context `{Scalars}.

Lemma optional_int_dump (o : option Z) :
  optional as_int (dump_optional VInt o) = inr o.
Proof. destruct o; simpl; [|done]. by rewrite as_int_int. Qed.

Lemma optional_str_dump (o : option string) :
  optional as_str (dump_optional VStr o) = inr o.
Proof. destruct o; simpl; [|done]. by rewrite as_str_str. Qed.

Lemma list_of_dump {A} (val : value → validation A) (dump : A → value) l :
  Forall (λ x, val (dump x) = inr x) l →
  list_of val (VList (dump <$> l)) = inr l.
Proof.
  intros Hl. apply list_of_inr. eexists. split; [done|].
  induction Hl; simpl; by constructor.
Qed.

Lemma COCOLicense_round_trip x :
  COCOLicense.model_validate (COCOLicense.model_dump x) = inr x.
Proof.
  destruct x. unfold COCOLicense.model_validate, COCOLicense.model_dump.
  unfold required, with_default. simpl.
  by rewrite as_int_int, as_str_str, optional_str_dump.
Qed.

Lemma COCOCategory_round_trip x :
  COCOCategory.model_validate (COCOCategory.model_dump x) = inr x.
Proof.
  destruct x. unfold COCOCategory.model_validate, COCOCategory.model_dump.
  unfold required, with_default. simpl.
  by rewrite as_int_int, as_str_str, optional_str_dump.
Qed.

Lemma COCOImage_round_trip x :
  COCOImage_valid x →
  COCOImage.model_validate (COCOImage.model_dump x) = inr x.
Proof.
  destruct x. intros [Hw Hh]. simpl in *.
  unfold COCOImage.model_validate, COCOImage.model_dump.
  unfold required, with_default. simpl.
  rewrite !as_int_int, as_str_str, optional_int_dump, !optional_str_dump.
  simpl. unfold int_gt.
  apply Z.ltb_lt in Hw, Hh. by rewrite Hw, Hh.
Qed.

Lemma COCOAnnotation_round_trip x :
  COCOAnnotation_valid x →
  COCOAnnotation.model_validate (COCOAnnotation.model_dump x) = inr x.
Proof.
  destruct x as [id image_id category_id segmentation area bbox iscrowd].
  intros (Harea & (x & y & w & h & Hbbox & Hw & Hh) & Hcrowd).
  simpl in *. subst bbox.
  unfold COCOAnnotation.model_validate, COCOAnnotation.model_dump.
  unfold required, with_default. simpl.
  rewrite !as_int_int, !as_float_float. simpl.
  unfold float_ge, int_ge, int_le.
  assert (COCOAnnotation.validate_segmentation
            (COCOAnnotation.dump_segmentation segmentation)
          = inr segmentation) as -> by by destruct segmentation.
  assert (COCOAnnotation.validate_bbox
            (VList [VFloat x; VFloat y; VFloat w; VFloat h])
          = inr [x; y; w; h]) as ->.
  { unfold COCOAnnotation.validate_bbox. simpl.
    rewrite !as_float_float. simpl.
    unfold not_negative in Hw, Hh. by rewrite Hw, Hh. }
  rewrite float_lt_int_0. unfold not_negative in Harea. rewrite Harea.
  destruct Hcrowd as [H0%Z.leb_le H1%Z.leb_le]. rewrite H0. simpl.
  by rewrite H1.
Qed.

Lemma allow_extra_id fields d :
  Forall (λ kv, known_field fields kv.1 = false) d →
  allow_extra fields d = d.
Proof.
  unfold allow_extra. induction 1 as [|kv d Hkv _ IH]; simpl; [done|].
  by rewrite Hkv, IH.
Qed.

Lemma COCOInfo_round_trip x :
  COCOInfo_valid x →
  COCOInfo.model_validate (COCOInfo.model_dump x) = inr x.
Proof.
  destruct x as [year version description contributor url date_created extra].
  unfold COCOInfo_valid. cbn [COCOInfo.extra]. intros Hextra.
  unfold COCOInfo.model_validate, COCOInfo.model_dump.
  cbn [COCOInfo.year COCOInfo.version COCOInfo.description
       COCOInfo.contributor COCOInfo.url COCOInfo.date_created
       COCOInfo.extra].
  match goal with
  | |- context [allow_extra ?f (?l ++ extra)] =>
      replace (allow_extra f (l ++ extra)) with extra
  end.
  - unfold with_default. simpl.
    by rewrite optional_int_dump, !optional_str_dump.
  - unfold allow_extra. rewrite List.filter_app.
    symmetry. by apply (allow_extra_id COCOInfo.fields).
Qed.

Lemma COCOData_round_trip x :
  COCOData_valid x →
  COCOData.model_validate (COCOData.model_dump x) = inr x.
Proof.
  destruct x. intros (Hinfo & Himages & Hanns). simpl in *.
  unfold COCOData.model_validate, COCOData.model_dump.
  cbv beta iota. unfold required. simpl (dict_get _ _). cbv beta iota.
  rewrite (COCOInfo_round_trip _ Hinfo).
  rewrite !list_of_dump; [done|..].
  - apply Forall_forall. intros. apply COCOLicense_round_trip.
  - eapply Forall_impl; [done|]. apply COCOImage_round_trip.
  - eapply Forall_impl; [done|]. apply COCOAnnotation_round_trip.
  - apply Forall_forall. intros. apply COCOCategory_round_trip.
Qed.

Variable read_text : string → ReadError + string.
Variable json_loads : string → LoadsError + value.

(** C8. A validated document, written back as a value tree that follows
    the schema and validated again, is the same document, extra keys of
    the info block included; so a file that holds this tree parses to the
    same document. *)
Theorem validation_round_trip v doc :
  COCOData.model_validate v = inr doc →
  COCOData.model_validate (COCOData.model_dump doc) = inr doc ∧
  (∀ filepath raw,
     read_text filepath = inr raw →
     json_loads raw = inr (COCOData.model_dump doc) →
     parse_coco read_text json_loads filepath = inr doc).
Proof.
  intros (_ & _ & _ & Hvalid)%COCOData_model_validate_inr.
  pose proof (COCOData_round_trip _ Hvalid) as Hrt.
  split; [done|]. intros filepath raw Hread Hjson.
  by rewrite (parse_coco_stage3 _ _ _ _ _ Hread Hjson), Hrt.
Qed.
End round_trip.

(** ** Negative and NaN dimensions *)

Section negative_bbox.
Context `{Scalars}.
Variable read_text : string → ReadError + string.
Variable json_loads : string → LoadsError + value.

(** A document that [parse_coco] returns went through validation. *)
Lemma parse_coco_inr filepath doc :
  parse_coco read_text json_loads filepath = inr doc →
  ∃ raw v, read_text filepath = inr raw ∧ json_loads raw = inr v ∧
    COCOData.model_validate v = inr doc.
Proof.
  unfold parse_coco.
  destruct (read_text filepath) as [[]|raw] eqn:Eread; try done.
  destruct (json_loads raw) as [[]|v] eqn:Ejson; try done.
  destruct (COCOData.model_validate v) eqn:E; try done.
  intros [= <-]. by exists raw, v.
Qed.

Lemma parse_coco_valid filepath doc :
  parse_coco read_text json_loads filepath = inr doc → COCOData_valid doc.
Proof.
  intros (raw & v & _ & _ & Hv)%parse_coco_inr.
  by apply COCOData_model_validate_inr in Hv as (_ & _ & _ & ?).
Qed.

(** C3. An annotation whose bbox has a negative width or height is
    rejected when it is constructed; a file that holds one is rejected by
    [parse_coco] with [InvalidFormatError], and the scan stops before any
    rule runs. Hence no annotation of a validated document has a width or
    a height below zero. But a width that is NaN is not below zero: the
    annotation [nan_annotation] validates, a file that holds it parses to a
    document, and its width is not zero or more. *)
Theorem negative_bbox_rejected :
  (∀ d x y w h,
     dict_get "bbox" d = Some (VList [x; y; w; h]) →
     negative_number w ∨ negative_number h →
     ∃ e, COCOAnnotation.model_validate (VDict d) = inl e) ∧
  (∀ filepath raw top anns d x y w h all_rules,
     read_text filepath = inr raw →
     json_loads raw = inr (VDict top) →
     dict_get "annotations" top = Some (VList anns) →
     VDict d ∈ anns →
     dict_get "bbox" d = Some (VList [x; y; w; h]) →
     negative_number w ∨ negative_number h →
     ∃ msg,
       parse_coco read_text json_loads filepath
         = inl (InvalidFormatError msg) ∧
       run_scan read_text json_loads all_rules filepath
         = ([(INFO, "Core engine starting scan for: " +:+ filepath);
             (ERROR, "Core engine caught a parsing error. Aborting scan.")],
            inl (InvalidFormatError msg))) ∧
  (∀ filepath doc,
     parse_coco read_text json_loads filepath = inr doc →
     Forall (λ a, ∃ x y w h, COCOAnnotation.bbox a = [x; y; w; h]
                             ∧ (w <? 0)%float = false
                             ∧ (h <? 0)%float = false)
       (COCOData.annotations doc)) ∧
  (COCOAnnotation.model_validate (COCOAnnotation.model_dump nan_annotation)
     = inr nan_annotation ∧
   (∀ filepath raw,
      read_text filepath = inr raw →
      json_loads raw = inr (COCOData.model_dump (sample_with [nan_annotation])) →
      parse_coco read_text json_loads filepath
        = inr (sample_with [nan_annotation])) ∧
   COCOAnnotation.bbox nan_annotation = [0; 0; nan; 10]%float ∧
   (0 <=? nan)%float = false).
Proof.
  assert (COCOAnnotation_valid nan_annotation) as Hnan.
  { split_and!; [done| |done..]. by exists 0%float, 0%float, nan, 10%float. }
  split_and!.
  - apply COCOAnnotation_negative_bbox.
  - intros filepath raw top anns d x y w h all_rules
      Hread Hjson Hanns Hin Hbbox Hneg.
    destruct (COCOData_negative_bbox top anns d x y w h Hanns Hin Hbbox Hneg)
      as [e He].
    pose proof (parse_coco_stage3 _ _ _ _ _ Hread Hjson) as Hparse.
    rewrite He in Hparse. eexists. split; [done|].
    by apply run_scan_parse_error.
  - intros filepath doc (_ & _ & Hanns)%parse_coco_valid.
    eapply Forall_impl; [done|]. by intros a (_ & ? & _).
  - by apply COCOAnnotation_round_trip.
  - intros filepath raw Hread Hjson.
    rewrite (parse_coco_stage3 _ _ _ _ _ Hread Hjson).
    rewrite COCOData_round_trip; [done|]. split_and!.
    + by apply Forall_nil.
    + by repeat constructor.
    + constructor; [exact Hnan|constructor].
  - done.
  - done.
Qed.
End negative_bbox.

(** ** Records, constraints and the classes of errors *)

Section records.
Context `{Scalars}.

Ltac inv_model Hx :=
  inv_validation Hx; injection Hx as <-; cbn;
  repeat match goal with u : unit |- _ => destruct u end;
  split_and!; done.

(** What a record that validates was made from: each field validates to
    the value that the record holds, and no key is outside the fields. *)
Lemma COCOLicense_model_validate_inv d x :
  COCOLicense.model_validate (VDict d) = inr x →
  required "id" as_int d = inr (COCOLicense.id x) ∧
  required "name" as_str d = inr (COCOLicense.name x) ∧
  with_default "url" (optional as_str) None d = inr (COCOLicense.url x) ∧
  forbid_extra COCOLicense.fields d = inr ().
Proof. unfold COCOLicense.model_validate. intros Hx. inv_model Hx. Qed.

Lemma COCOCategory_model_validate_inv d x :
  COCOCategory.model_validate (VDict d) = inr x →
  required "id" as_int d = inr (COCOCategory.id x) ∧
  required "name" as_str d = inr (COCOCategory.name x) ∧
  with_default "supercategory" (optional as_str) None d
    = inr (COCOCategory.supercategory x) ∧
  forbid_extra COCOCategory.fields d = inr ().
Proof. unfold COCOCategory.model_validate. intros Hx. inv_model Hx. Qed.

Lemma COCOImage_model_validate_inv d x :
  COCOImage.model_validate (VDict d) = inr x →
  required "id" as_int d = inr (COCOImage.id x) ∧
  required "width" (λ v, as_int v ≫= int_gt 0) d = inr (COCOImage.width x) ∧
  required "height" (λ v, as_int v ≫= int_gt 0) d
    = inr (COCOImage.height x) ∧
  required "file_name" as_str d = inr (COCOImage.file_name x) ∧
  with_default "license" (optional as_int) None d
    = inr (COCOImage.license x) ∧
  with_default "flickr_url" (optional as_str) None d
    = inr (COCOImage.flickr_url x) ∧
  with_default "coco_url" (optional as_str) None d
    = inr (COCOImage.coco_url x) ∧
  with_default "date_captured" (optional as_str) None d
    = inr (COCOImage.date_captured x) ∧
  forbid_extra COCOImage.fields d = inr ().
Proof. unfold COCOImage.model_validate. intros Hx. inv_model Hx. Qed.

Lemma COCOAnnotation_model_validate_inv d x :
  COCOAnnotation.model_validate (VDict d) = inr x →
  required "id" as_int d = inr (COCOAnnotation.id x) ∧
  required "image_id" as_int d = inr (COCOAnnotation.image_id x) ∧
  required "category_id" as_int d = inr (COCOAnnotation.category_id x) ∧
  with_default "segmentation" COCOAnnotation.validate_segmentation
    (SegList []) d = inr (COCOAnnotation.segmentation x) ∧
  required "area" (λ v, as_float v ≫= float_ge 0) d
    = inr (COCOAnnotation.area x) ∧
  required "bbox" COCOAnnotation.validate_bbox d
    = inr (COCOAnnotation.bbox x) ∧
  required "iscrowd" (λ v, z ← as_int v; z ← int_ge 0 z; int_le 1 z) d
    = inr (COCOAnnotation.iscrowd x) ∧
  forbid_extra COCOAnnotation.fields d = inr ().
Proof. unfold COCOAnnotation.model_validate. intros Hx. inv_model Hx. Qed.

Lemma COCOData_model_validate_inv top x :
  COCOData.model_validate (VDict top) = inr x →
  required "info" COCOInfo.model_validate top = inr (COCOData.info x) ∧
  required "licenses" (list_of COCOLicense.model_validate) top
    = inr (COCOData.licenses x) ∧
  required "images" (list_of COCOImage.model_validate) top
    = inr (COCOData.images x) ∧
  required "annotations" (list_of COCOAnnotation.model_validate) top
    = inr (COCOData.annotations x) ∧
  required "categories" (list_of COCOCategory.model_validate) top
    = inr (COCOData.categories x) ∧
  forbid_extra COCOData.fields top = inr ().
Proof. unfold COCOData.model_validate. intros Hx. inv_model Hx. Qed.

Lemma required_Some {A} name (val : value → validation A) d x :
  required name val d = inr x → dict_get name d ≠ None.
Proof. intros (v & Hv & _)%required_inr. congruence. Qed.

Ltac missing_field Hk Hnone :=
  repeat (apply elem_of_cons in Hk as [->|Hk]);
  [..|by apply elem_of_nil in Hk];
  match goal with
  | H : required ?name _ _ = inr _, Hn : dict_get ?name _ = None |- _ =>
      by apply required_Some in H
  end.

(** X1. An object that lacks a field without default of its model is
    rejected: id and name of a license or a category; id, width, height and
    file_name of an image; id, image_id, category_id, area, bbox and
    iscrowd of an annotation; each of the five lists and blocks of the
    document. *)
Theorem required_fields_enforced :
  (∀ d k, k ∈ COCOLicense_required → dict_get k d = None →
     ∃ e, COCOLicense.model_validate (VDict d) = inl e) ∧
  (∀ d k, k ∈ COCOImage_required → dict_get k d = None →
     ∃ e, COCOImage.model_validate (VDict d) = inl e) ∧
  (∀ d k, k ∈ COCOAnnotation_required → dict_get k d = None →
     ∃ e, COCOAnnotation.model_validate (VDict d) = inl e) ∧
  (∀ d k, k ∈ COCOCategory_required → dict_get k d = None →
     ∃ e, COCOCategory.model_validate (VDict d) = inl e) ∧
  (∀ d k, k ∈ COCOData.fields → dict_get k d = None →
     ∃ e, COCOData.model_validate (VDict d) = inl e).
Proof.
  split_and!; intros d k Hk Hnone.
  - destruct (COCOLicense.model_validate (VDict d)) as [e|x] eqn:E;
      [eauto|exfalso].
    apply COCOLicense_model_validate_inv in E as (? & ? & ? & ?).
    missing_field Hk Hnone.
  - destruct (COCOImage.model_validate (VDict d)) as [e|x] eqn:E;
      [eauto|exfalso].
    apply COCOImage_model_validate_inv in E
      as (? & ? & ? & ? & ? & ? & ? & ? & ?).
    missing_field Hk Hnone.
  - destruct (COCOAnnotation.model_validate (VDict d)) as [e|x] eqn:E;
      [eauto|exfalso].
    apply COCOAnnotation_model_validate_inv in E
      as (? & ? & ? & ? & ? & ? & ? & ?).
    missing_field Hk Hnone.
  - destruct (COCOCategory.model_validate (VDict d)) as [e|x] eqn:E;
      [eauto|exfalso].
    apply COCOCategory_model_validate_inv in E as (? & ? & ? & ?).
    missing_field Hk Hnone.
  - destruct (COCOData.model_validate (VDict d)) as [e|x] eqn:E;
      [eauto|exfalso].
    apply COCOData_model_validate_inv in E as (? & ? & ? & ? & ? & ?).
    missing_field Hk Hnone.
Qed.

(** X2. The four record models forbid extra keys as the document does: a
    license, image, annotation or category object that has a key outside
    the fields of its model is rejected. *)
Theorem extra_fields_forbidden_in_records :
  (∀ d k, k ∈ dict_keys d → k ∉ COCOLicense.fields →
     ∃ e, COCOLicense.model_validate (VDict d) = inl e) ∧
  (∀ d k, k ∈ dict_keys d → k ∉ COCOImage.fields →
     ∃ e, COCOImage.model_validate (VDict d) = inl e) ∧
  (∀ d k, k ∈ dict_keys d → k ∉ COCOAnnotation.fields →
     ∃ e, COCOAnnotation.model_validate (VDict d) = inl e) ∧
  (∀ d k, k ∈ dict_keys d → k ∉ COCOCategory.fields →
     ∃ e, COCOCategory.model_validate (VDict d) = inl e).
Proof.
  split_and!; intros d k Hk Hfield%known_field_false.
  - destruct (COCOLicense.model_validate (VDict d)) as [e|x] eqn:E;
      [eauto|exfalso].
    apply COCOLicense_model_validate_inv in E as (_ & _ & _ & Hx).
    destruct (forbid_extra_unknown _ _ _ Hk Hfield). congruence.
  - destruct (COCOImage.model_validate (VDict d)) as [e|x] eqn:E;
      [eauto|exfalso].
    apply COCOImage_model_validate_inv in E
      as (_ & _ & _ & _ & _ & _ & _ & _ & Hx).
    destruct (forbid_extra_unknown _ _ _ Hk Hfield). congruence.
  - destruct (COCOAnnotation.model_validate (VDict d)) as [e|x] eqn:E;
      [eauto|exfalso].
    apply COCOAnnotation_model_validate_inv in E
      as (_ & _ & _ & _ & _ & _ & _ & Hx).
    destruct (forbid_extra_unknown _ _ _ Hk Hfield). congruence.
  - destruct (COCOCategory.model_validate (VDict d)) as [e|x] eqn:E;
      [eauto|exfalso].
    apply COCOCategory_model_validate_inv in E as (_ & _ & _ & Hx).
    destruct (forbid_extra_unknown _ _ _ Hk Hfield). congruence.
Qed.

Lemma required_int_gt name d z x :
  dict_get name d = Some (VInt z) →
  required name (λ v, as_int v ≫= int_gt 0) d = inr x → 0 < z.
Proof.
  intros Hget (v & Hv & Hx)%required_inr. rewrite Hget in Hv.
  injection Hv as <-. rewrite as_int_int in Hx. simpl in Hx.
  unfold int_gt in Hx. destruct (0 <? z) eqn:E; [lia|done].
Qed.

(** X3. The constraints of the fields: an image whose width or height is
    an integer of at most zero, an annotation whose area is a negative
    number, whose iscrowd is an integer other than 0 and 1, or whose bbox
    is a list that has not four elements, is rejected. *)
Theorem constraint_violations_rejected :
  (∀ d z,
     dict_get "width" d = Some (VInt z) ∨ dict_get "height" d = Some (VInt z) →
     z ≤ 0 →
     ∃ e, COCOImage.model_validate (VDict d) = inl e) ∧
  (∀ d v,
     dict_get "area" d = Some v → negative_number v →
     ∃ e, COCOAnnotation.model_validate (VDict d) = inl e) ∧
  (∀ d z,
     dict_get "iscrowd" d = Some (VInt z) → z ≠ 0 → z ≠ 1 →
     ∃ e, COCOAnnotation.model_validate (VDict d) = inl e) ∧
  (∀ d l,
     dict_get "bbox" d = Some (VList l) → length l ≠ 4%nat →
     ∃ e, COCOAnnotation.model_validate (VDict d) = inl e).
Proof.
  split_and!.
  - intros d z Hget Hz.
    destruct (COCOImage.model_validate (VDict d)) as [e|x] eqn:E;
      [eauto|exfalso].
    apply COCOImage_model_validate_inv in E as (_ & Hw & Hh & _).
    destruct Hget as [Hget|Hget].
    + pose proof (required_int_gt _ _ _ _ Hget Hw). lia.
    + pose proof (required_int_gt _ _ _ _ Hget Hh). lia.
  - intros d v Hget Hneg.
    destruct (COCOAnnotation.model_validate (VDict d)) as [e|x] eqn:E;
      [eauto|exfalso].
    apply COCOAnnotation_model_validate_inv in E
      as (_ & _ & _ & _ & Harea & _).
    apply required_inr in Harea as (v' & Hv' & Harea).
    rewrite Hget in Hv'. injection Hv' as <-.
    inv_validation Harea.
    pose proof (as_float_negative _ _ Hneg Hx) as Hlt.
    unfold float_ge in Harea. by rewrite float_lt_int_0, Hlt in Harea.
  - intros d z Hget Hz0 Hz1.
    destruct (COCOAnnotation.model_validate (VDict d)) as [e|x] eqn:E;
      [eauto|exfalso].
    apply COCOAnnotation_model_validate_inv in E
      as (_ & _ & _ & _ & _ & _ & Hcrowd & _).
    apply required_inr in Hcrowd as (v' & Hv' & Hcrowd).
    rewrite Hget in Hv'. injection Hv' as <-.
    rewrite as_int_int in Hcrowd. simpl in Hcrowd.
    unfold int_ge in Hcrowd. destruct (0 <=? z) eqn:E0; [|done].
    simpl in Hcrowd. unfold int_le in Hcrowd.
    destruct (z <=? 1) eqn:E1; [|done]. lia.
  - intros d l Hget Hlen.
    destruct (COCOAnnotation.model_validate (VDict d)) as [e|x] eqn:E;
      [eauto|exfalso].
    apply COCOAnnotation_model_validate_inv in E
      as (_ & _ & _ & _ & _ & Hbbox & _).
    apply required_inr in Hbbox as (v' & Hv' & Hbbox).
    rewrite Hget in Hv'. injection Hv' as <-.
    apply validate_bbox_inr in Hbbox
      as [(l' & [= <-] & Hl) (? & ? & ? & ? & Hb & _)].
    apply Forall2_length in Hl. rewrite Hb in Hl. done.
Qed.

(** X4. The segmentation of an annotation that validates is the list or
    the object of the key "segmentation", any other value being rejected,
    and the empty list when the key is absent; an annotation without the
    key is then never exempt from the check of its area: on a document of
    which it is the only annotation, [check_attribute_area_bbox_mismatch]
    reports it exactly when the product of its width by its height is not
    close to its area. *)
Theorem segmentation_validation (d : pydict value) (ann : COCOAnnotation.t) :
  COCOAnnotation.model_validate (VDict d) = inr ann →
  match dict_get "segmentation" d with
  | None => COCOAnnotation.segmentation ann = SegList []
  | Some (VList l) => COCOAnnotation.segmentation ann = SegList l
  | Some (VDict o) => COCOAnnotation.segmentation ann = SegDict o
  | Some _ => False
  end ∧
  (dict_get "segmentation" d = None →
   ∀ doc, COCOData.annotations doc = [ann] →
     check_attribute_area_bbox_mismatch doc
       = inr (if decide (area_mismatch ann) then [mismatch_finding ann]
              else [])).
Proof.
  intros Hann.
  pose proof Hann as (_ & _ & _ & Hseg & _ & Hbbox & _)
    %COCOAnnotation_model_validate_inv.
  apply with_default_inr in Hseg. split.
  - destruct (dict_get "segmentation" d) as [[]|]; by simplify_eq/=.
  - intros Hnone doc Hdoc. rewrite Hnone in Hseg.
    apply required_inr in Hbbox as (v & _ & Hbbox).
    apply validate_bbox_inr in Hbbox as (_ & x & y & w & h & Hb & _).
    unfold check_attribute_area_bbox_mismatch. rewrite Hdoc.
    cbn [for_each mbind outcome_bind]. rewrite Hseg, Hb. simpl.
    unfold mismatch_finding. rewrite Hb.
    destruct (isclose _ _ _ _) eqn:Eclose; simpl.
    + rewrite decide_False; [done|].
      intros (? & ? & ? & ? & Hb' & Hm). rewrite Hb in Hb'.
      injection Hb' as <- <- <- <-. congruence.
    + rewrite decide_True; [done|]. by exists x, y, w, h.
Qed.
End records.

Section files.
Context `{Scalars}.
Variable read_text : string → ReadError + string.
Variable json_loads : string → LoadsError + value.

(** X5. The three stages of [parse_coco] and the classes of its errors:
    [FileAccessError] exactly when the file cannot be read, with a fixed
    message when it does not exist; [InvalidFormatError] exactly when the
    file is read and either [json.loads] raises [JSONDecodeError] or the
    value fails the schema; a document exactly when the three stages
    succeed; and an exception of another class exactly when the file is
    read and [json.loads] raises it. *)
Theorem parse_coco_error_classes (filepath : string) :
  ((∃ msg, parse_coco read_text json_loads filepath
           = inl (FileAccessError msg))
   ↔ ∃ e, read_text filepath = inl e) ∧
  (read_text filepath = inl FileNotFoundError →
   parse_coco read_text json_loads filepath
     = inl (FileAccessError "The specified file does not exist.")) ∧
  ((∃ msg, parse_coco read_text json_loads filepath
           = inl (InvalidFormatError msg))
   ↔ ∃ raw, read_text filepath = inr raw ∧
       ((∃ e, json_loads raw = inl (DecodeError e)) ∨
        (∃ v e, json_loads raw = inr v
                ∧ COCOData.model_validate v = inl e))) ∧
  (∀ doc, parse_coco read_text json_loads filepath = inr doc
          ↔ ∃ raw v, read_text filepath = inr raw ∧ json_loads raw = inr v
                     ∧ COCOData.model_validate v = inr doc) ∧
  (∀ e, parse_coco read_text json_loads filepath = inl (Uncaught e)
        ↔ ∃ raw, read_text filepath = inr raw
                 ∧ json_loads raw = inl (OtherError e)).
Proof.
  unfold parse_coco.
  destruct (read_text filepath) as [[]|raw] eqn:Eread;
    [| | |destruct (json_loads raw) as [[e|e]|v] eqn:Ejson;
            [| |destruct (COCOData.model_validate v) as [e|doc'] eqn:Ev]];
    split_and!; try intros doc; try (intros _);
    repeat match goal with
      | |- _ ↔ _ => split; intros
      | H : ∃ _, _ |- _ => destruct H
      | H : _ ∧ _ |- _ => destruct H
      | H : _ ∨ _ |- _ => destruct H
      end;
    simplify_eq; try congruence; eauto 8.
Qed.

(** X6. Every document that [parse_coco] returns has images of positive
    width and height, annotations with an area that is not below zero,
    iscrowd 0 or 1 and a bbox of four numbers, and an info block whose
    extra keys are not names of its fields. *)
Theorem parse_coco_document_invariants (filepath : string)
    (doc : COCOData.t) :
  parse_coco read_text json_loads filepath = inr doc →
  Forall (λ image, 0 < COCOImage.width image ∧ 0 < COCOImage.height image)
    (COCOData.images doc) ∧
  Forall (λ ann,
            (COCOAnnotation.area ann <? 0)%float = false ∧
            (COCOAnnotation.iscrowd ann = 0
             ∨ COCOAnnotation.iscrowd ann = 1) ∧
            length (COCOAnnotation.bbox ann) = 4%nat)
    (COCOData.annotations doc) ∧
  Forall (λ kv, kv.1 ∉ COCOInfo.fields)
    (COCOInfo.extra (COCOData.info doc)).
Proof.
  intros (Hinfo & Himages & Hanns)%parse_coco_valid. split_and!.
  - done.
  - eapply Forall_impl; [done|].
    intros ann (Harea & (? & ? & ? & ? & -> & _) & Hcrowd).
    split_and!; [done|lia|done].
  - eapply Forall_impl; [exact Hinfo|].
    intros kv. apply known_field_false.
Qed.

(** X7. One record that its model rejects, anywhere in one of the four
    lists of the top-level object, makes [parse_coco] reject the file with
    [InvalidFormatError], and the scan stop before any rule runs. *)
Theorem invalid_record_rejects_file (filepath raw : string)
    (top : pydict value) (name : string) (l : list value) (v : value)
    (all_rules : list Rule) :
  read_text filepath = inr raw →
  json_loads raw = inr (VDict top) →
  dict_get name top = Some (VList l) →
  v ∈ l →
  (name = "licenses" ∧ ∃ e, COCOLicense.model_validate v = inl e) ∨
  (name = "images" ∧ ∃ e, COCOImage.model_validate v = inl e) ∨
  (name = "annotations" ∧ ∃ e, COCOAnnotation.model_validate v = inl e) ∨
  (name = "categories" ∧ ∃ e, COCOCategory.model_validate v = inl e) →
  ∃ msg,
    parse_coco read_text json_loads filepath = inl (InvalidFormatError msg) ∧
    run_scan read_text json_loads all_rules filepath
      = ([(INFO, "Core engine starting scan for: " +:+ filepath);
          (ERROR, "Core engine caught a parsing error. Aborting scan.")],
         inl (InvalidFormatError msg)).
Proof.
  intros Hread Hjson Hget Hin Hbad.
  assert (∃ e, COCOData.model_validate (VDict top) = inl e) as [e He].
  { destruct (COCOData.model_validate (VDict top)) as [e|doc] eqn:E;
      [eauto|exfalso].
    apply COCOData_model_validate_inv in E as (_ & Hl & Hi & Ha & Hc & _).
    apply list_elem_of_lookup in Hin as [i Hi'].
    destruct Hbad as [[-> [e He]]|[[-> [e He]]|[[-> [e He]]|[-> [e He]]]]].
    - apply required_inr in Hl as (? & Hv & (? & -> & Hall)%list_of_inr).
      rewrite Hget in Hv. injection Hv as <-.
      destruct (Forall2_lookup_l _ _ _ _ _ Hall Hi') as (? & _ & ?).
      congruence.
    - apply required_inr in Hi as (? & Hv & (? & -> & Hall)%list_of_inr).
      rewrite Hget in Hv. injection Hv as <-.
      destruct (Forall2_lookup_l _ _ _ _ _ Hall Hi') as (? & _ & ?).
      congruence.
    - apply required_inr in Ha as (? & Hv & (? & -> & Hall)%list_of_inr).
      rewrite Hget in Hv. injection Hv as <-.
      destruct (Forall2_lookup_l _ _ _ _ _ Hall Hi') as (? & _ & ?).
      congruence.
    - apply required_inr in Hc as (? & Hv & (? & -> & Hall)%list_of_inr).
      rewrite Hget in Hv. injection Hv as <-.
      destruct (Forall2_lookup_l _ _ _ _ _ Hall Hi') as (? & _ & ?).
      congruence. }
  pose proof (parse_coco_stage3 _ _ _ _ _ Hread Hjson) as Hparse.
  rewrite He in Hparse. eexists. split; [done|].
  by apply run_scan_parse_error.
Qed.
End files.

(** ** The rules *)

(** Loops that append to a list of findings. *)
Section loops.
Context {A : Type}.

Lemma foldl_append_omap (g : A → option string) l : ∀ findings,
  foldl (λ findings x,
           match g x with
           | Some s => findings ++ [s]
           | None => findings
           end) findings l
    = findings ++ omap g l.
Proof.
  induction l as [|x l IH]; intros findings; simpl.
  - by rewrite app_nil_r.
  - rewrite IH. destruct (g x); [|done]. by rewrite <- app_assoc.
Qed.

Lemma foldl_append_filter (P : A → Prop) `{∀ x, Decision (P x)}
    (f : A → string) l : ∀ findings,
  foldl (λ findings x,
           if bool_decide (P x) then findings ++ [f x] else findings)
    findings l
    = findings ++ (f <$> filter P l).
Proof.
  induction l as [|x l IH]; intros findings; simpl.
  - by rewrite app_nil_r.
  - rewrite IH. case_bool_decide.
    + rewrite filter_cons_True by done. by rewrite <- app_assoc.
    + by rewrite filter_cons_False by done.
Qed.

(** A loop whose body, on the items of the list, appends the finding of
    an item exactly when the item is flagged. *)
Lemma for_each_append_filter (P : A → Prop) `{∀ x, Decision (P x)}
    (f : A → string) (body : list string → A → Exception + list string) l :
  (∀ findings x, x ∈ l →
     body findings x = inr (if bool_decide (P x) then findings ++ [f x]
                            else findings)) →
  ∀ findings,
    for_each l body findings = inr (findings ++ (f <$> filter P l)).
Proof.
  induction l as [|x l IH]; intros Hbody findings; simpl.
  - by rewrite app_nil_r.
  - rewrite Hbody by left. simpl.
    rewrite IH by (intros; apply Hbody; by right).
    case_bool_decide.
    + rewrite filter_cons_True by done. by rewrite <- app_assoc.
    + by rewrite filter_cons_False by done.
Qed.
End loops.

(** [{x.id: x for x in l}[k]] is the last item of [l] whose id is [k]. *)
Lemma dict_by_lookup {A} (key : A → Z) (l : list A) (k : Z) :
  dict_by key l !! k = last (filter (λ x, key x = k) l).
Proof.
  unfold dict_by. induction l as [|x l IH] using rev_ind; [done|].
  rewrite foldl_snoc, filter_app.
  destruct (decide (key x = k)) as [Hk|Hk].
  - rewrite Hk, lookup_insert_eq, filter_cons_True, filter_nil by done.
    by rewrite last_snoc.
  - rewrite lookup_insert_ne, filter_cons_False, filter_nil, app_nil_r by done.
    done.
Qed.

Lemma elem_of_nub l x : x ∈ nub l ↔ x ∈ l.
Proof.
  induction l as [|y l IH]; simpl; [done|].
  rewrite !elem_of_cons, list_elem_of_filter, IH.
  destruct (decide (x = y)); tauto.
Qed.

Lemma NoDup_nub l : NoDup (nub l).
Proof.
  induction l as [|y l IH]; simpl; [constructor|].
  apply NoDup_cons. split.
  - rewrite list_elem_of_filter. tauto.
  - by apply NoDup_filter.
Qed.

Lemma nub_snoc l k :
  nub (l ++ [k]) = if decide (k ∈ l) then nub l else nub l ++ [k].
Proof.
  induction l as [|y l IH]; simpl; [done|]. rewrite IH.
  destruct (decide (k ∈ l)) as [Hin|Hin].
  - rewrite decide_True by (by right). done.
  - rewrite filter_app. destruct (decide (k = y)) as [->|Hne].
    + rewrite decide_True by left.
      rewrite filter_cons_False, filter_nil, app_nil_r by (by intros []).
      done.
    + rewrite decide_False by (rewrite elem_of_cons; tauto).
      by rewrite filter_cons_True, filter_nil by done.
Qed.

Lemma count_snoc k' l k :
  count k' (l ++ [k]) = if decide (k' = k) then S (count k' l) else count k' l.
Proof.
  unfold count. rewrite filter_app, length_app.
  destruct (decide (k' = k)) as [->|Hne].
  - rewrite filter_cons_True by done. simpl. lia.
  - rewrite filter_cons_False by congruence. simpl. lia.
Qed.

Lemma count_not_elem k l : k ∉ l → count k l = 0%nat.
Proof.
  unfold count. intros Hk. destruct (filter _ l) as [|x ?] eqn:E; [done|].
  assert (x ∈ filter (λ x, x = k) l) as [-> ?]%list_elem_of_filter
    by (rewrite E; left). done.
Qed.

Lemma counter_add_fmap (g : Z → nat) ks k :
  NoDup ks →
  counter_add k ((λ k', (k', g k')) <$> ks) =
    if decide (k ∈ ks)
    then (λ k', (k', if decide (k' = k) then S (g k') else g k')) <$> ks
    else ((λ k', (k', g k')) <$> ks) ++ [(k, 1%nat)].
Proof.
  induction ks as [|k0 ks IH]; intros Hnd; [done|].
  apply NoDup_cons in Hnd as [Hk0 Hnd]. rewrite !fmap_cons. simpl.
  destruct (Z.eqb_spec k k0) as [->|Hne].
  - rewrite decide_True by left. rewrite decide_True by done. f_equal.
    apply list_fmap_ext. intros i k' Hk'.
    rewrite decide_False; [done|]. intros ->.
    apply Hk0. by eapply list_elem_of_lookup_2.
  - rewrite IH by done. rewrite (decide_False (P:=k0 = k)) by done.
    destruct (decide (k ∈ ks)) as [Hin|Hin].
    + by rewrite decide_True by (by right).
    + by rewrite decide_False by (rewrite elem_of_cons; tauto).
Qed.

Lemma Counter_spec l : Counter l = (λ k, (k, count k l)) <$> nub l.
Proof.
  unfold Counter. induction l as [|k l IH] using rev_ind; [done|].
  rewrite foldl_snoc, IH, counter_add_fmap by apply NoDup_nub.
  rewrite nub_snoc. destruct (decide (k ∈ l)) as [Hin|Hin].
  - rewrite decide_True by (by apply elem_of_nub).
    apply list_fmap_ext. intros i k' _. by rewrite count_snoc.
  - rewrite decide_False by (by rewrite elem_of_nub).
    rewrite fmap_app. f_equal.
    + apply list_fmap_ext. intros i k' Hk'. rewrite count_snoc.
      rewrite decide_False; [done|]. intros ->.
      apply Hin, elem_of_nub. by eapply list_elem_of_lookup_2.
    + simpl. rewrite count_snoc, decide_True by done.
      by rewrite count_not_elem.
Qed.

Lemma count_fmap {A} (f : A → Z) (l : list A) k :
  count k (f <$> l) = length (filter (λ x, f x = k) l).
Proof.
  unfold count. induction l as [|x l IH]; [done|]. rewrite fmap_cons.
  destruct (decide (f x = k)).
  - rewrite !filter_cons_True by done. simpl. by rewrite IH.
  - by rewrite !filter_cons_False by done.
Qed.

(** [n < max(a, b)] holds when [n < a] or [n < b]. *)
Lemma Qltb_py_max n a b :
  Qltb n (py_max a b) = true ↔ (n < a ∨ n < b)%Q.
Proof.
  unfold py_max. destruct (Qltb a b) eqn:E; rewrite Qltb_lt.
  - apply Qltb_lt in E. split; [tauto|].
    intros [Hn|Hn]; [|done]. by apply Qlt_trans with a.
  - apply Qltb_ge in E. split; [tauto|].
    intros [Hn|Hn]; [done|]. by apply Qlt_le_trans with b.
Qed.

Section rule_properties.
Import COCOData.

(** *** Images without annotations *)

(** C7. Without annotations the rule finds nothing, however many images
    there are; otherwise it has one finding for each image whose id is the
    image_id of no annotation, and no other finding. *)
Theorem images_without_annotations_spec (d : COCOData.t) :
  (annotations d = [] →
   check_relation_images_without_annotations d = inr []) ∧
  (annotations d ≠ [] →
   check_relation_images_without_annotations d
     = inr (no_annotations_finding <$> filter (unannotated d) (images d))).
Proof.
  unfold check_relation_images_without_annotations. split.
  - by intros ->.
  - intros Hanns.
    transitivity
      (inr (A:=Exception)
         (foldl
            (λ findings image,
               if bool_decide
                    (COCOImage.id image
                     ∉ (list_to_set (COCOAnnotation.image_id <$> annotations d)
                          : gset Z))
               then findings ++ [no_annotations_finding image]
               else findings)
            [] (images d))).
    { by destruct (annotations d). }
    f_equal.
    rewrite (foldl_append_filter
               (λ image, COCOImage.id image
                         ∉ (list_to_set (COCOAnnotation.image_id <$> annotations d)
                              : gset Z))
               no_annotations_finding).
    simpl. f_equal. apply list_filter_iff. intros image.
    rewrite elem_of_list_to_set, list_elem_of_fmap.
    unfold unannotated. rewrite Forall_forall. split.
    + intros Hnot ann Hin Heq. apply Hnot. eauto.
    + intros Hall (ann & Heq & Hin). by apply (Hall ann).
Qed.

(** *** Boxes out of bounds *)

(** The test that the rule makes is the one of the specification. *)
Lemma bool_decide_out_of_bounds d ann image x y w h :
  resolve_image d (COCOAnnotation.image_id ann) = Some image →
  COCOAnnotation.bbox ann = [x; y; w; h] →
  bool_decide (out_of_bounds d ann)
    = (x <? 0)%float || (y <? 0)%float
      || float_gt_int (x + w) (COCOImage.width image)
      || float_gt_int (y + h) (COCOImage.height image).
Proof.
  intros Hres Hbbox. apply eq_true_iff_eq.
  rewrite bool_decide_eq_true, !orb_true_iff. unfold out_of_bounds, beyond.
  rewrite Hres, Hbbox. split.
  - intros (? & ? & ? & ? & ? & [= <-] & [= <- <- <- <-] & Hc). tauto.
  - intros Hc. exists image, x, y, w, h. tauto.
Qed.

Lemma out_of_bounds_unresolved d ann :
  resolve_image d (COCOAnnotation.image_id ann) = None → ¬ out_of_bounds d ann.
Proof. intros Hres (? & ? & ? & ? & ? & Hsome & _). congruence. Qed.

Lemma resolve_image_None d k :
  resolve_image d k = None ↔
  ∀ image, image ∈ images d → COCOImage.id image ≠ k.
Proof.
  unfold resolve_image. rewrite last_None. split.
  - intros Hnil image Hin Hk.
    eapply (filter_nil_not_elem_of _ _ image); [exact Hnil|done..].
  - intros Hall. apply elem_of_nil_inv. intros image.
    rewrite list_elem_of_filter. intros [Hk Hin]. by apply (Hall image).
Qed.

Lemma resolve_image_Some d k image :
  resolve_image d k = Some image →
  image ∈ images d ∧ COCOImage.id image = k.
Proof.
  unfold resolve_image. intros Hlast%last_Some_elem_of.
  apply list_elem_of_filter in Hlast. tauto.
Qed.

(** C6. On a document whose bboxes have four numbers, as validation
    ensures, the rule has one finding for each annotation whose image_id
    resolves to an image of the document and whose bbox [x, y, w, h] has
    x < 0, y < 0, x + w > image.width or y + h > image.height, and no other
    finding; an annotation whose image_id resolves to no image is never
    flagged. The sums are the ones of floats, as the rule computes them,
    and they are compared with the width and the height, which are
    integers, as Python compares a float with an [int]. *)
Theorem bbox_out_of_bounds_spec (d : COCOData.t) :
  Forall (λ ann, length (COCOAnnotation.bbox ann) = 4%nat) (annotations d) →
  check_geometry_bbox_out_of_bounds d
    = inr (out_of_bounds_finding d <$> filter (out_of_bounds d) (annotations d)) ∧
  (∀ ann, ann ∈ annotations d →
     (∀ image, image ∈ images d →
        COCOImage.id image ≠ COCOAnnotation.image_id ann) →
     ¬ out_of_bounds d ann) ∧
  (∀ k image, resolve_image d k = Some image →
     image ∈ images d ∧ COCOImage.id image = k).
Proof.
  intros Hlen. split_and!.
  - unfold check_geometry_bbox_out_of_bounds.
    rewrite (for_each_append_filter (out_of_bounds d)
               (out_of_bounds_finding d)); [done|].
    intros findings ann Hann.
    rewrite dict_by_lookup. fold (resolve_image d (COCOAnnotation.image_id ann)).
    destruct (resolve_image d _) as [image|] eqn:Hres.
    2: { by rewrite bool_decide_eq_false_2 by by apply out_of_bounds_unresolved. }
    rewrite Forall_forall in Hlen. specialize (Hlen ann Hann).
    destruct (COCOAnnotation.bbox ann) as [|x [|y [|w [|h [|??]]]]] eqn:Hbbox;
      try done.
    rewrite (bool_decide_out_of_bounds d ann image x y w h Hres Hbbox).
    unfold out_of_bounds_finding. rewrite Hres, Hbbox.
    unfold unpack4. cbn [mbind outcome_bind].
    by destruct (_ || _).
  - intros ann _ Hnone (image & ? & ? & ? & ? & Hres & _).
    apply resolve_image_Some in Hres as [Hin Hid]. by apply (Hnone image).
  - apply resolve_image_Some.
Qed.

(** *** Area against bbox *)

(** The two tests of the rule are the ones of the specification. *)
Lemma polygon_backed_test ann :
  segmentation_truthy (COCOAnnotation.segmentation ann)
  && segmentation_is_list (COCOAnnotation.segmentation ann)
  && (0 <? segmentation_len (COCOAnnotation.segmentation ann))%nat
  = bool_decide (polygon_backed ann).
Proof.
  destruct (COCOAnnotation.segmentation ann) as [[|p l]|[|kv rle]] eqn:E;
    simpl; symmetry.
  - apply bool_decide_eq_false_2. intros (? & ? & ?). congruence.
  - apply bool_decide_eq_true_2. unfold polygon_backed. eauto.
  - apply bool_decide_eq_false_2. intros (? & ? & ?). congruence.
  - apply bool_decide_eq_false_2. intros (? & ? & ?). congruence.
Qed.

Lemma area_mismatch_test ann x y w h :
  COCOAnnotation.bbox ann = [x; y; w; h] →
  negb (isclose (w * h) (COCOAnnotation.area ann) 1e-3 default_atol)
  = bool_decide (area_mismatch ann).
Proof.
  intros Hbbox. apply eq_true_iff_eq.
  rewrite bool_decide_eq_true, negb_true_iff.
  unfold area_mismatch. rewrite Hbbox. split.
  - intros. by exists x, y, w, h.
  - by intros (? & ? & ? & ? & [= <- <- <- <-] & ?).
Qed.

(** What [check_attribute_area_bbox_mismatch] does on a document whose
    bboxes have four numbers, as validation ensures: it skips exactly the
    annotations whose segmentation is a list with at least one polygon, and
    reports every other annotation (an empty segmentation, or a
    run-length-encoding object) whose area is not close to the product of
    its width by its height. *)
Lemma area_bbox_mismatch_findings (d : COCOData.t) :
  Forall (λ ann, length (COCOAnnotation.bbox ann) = 4%nat) (annotations d) →
  check_attribute_area_bbox_mismatch d
    = inr (mismatch_finding <$> filter mismatch_flagged (annotations d)) ∧
  (∀ ann p l,
     COCOAnnotation.segmentation ann = SegList (p :: l) →
     ¬ mismatch_flagged ann) ∧
  (∀ ann,
     COCOAnnotation.segmentation ann = SegList [] ∨
     (∃ rle, COCOAnnotation.segmentation ann = SegDict rle) →
     (mismatch_flagged ann ↔ area_mismatch ann)).
Proof.
  intros Hlen. split_and!.
  - unfold check_attribute_area_bbox_mismatch.
    rewrite (for_each_append_filter mismatch_flagged mismatch_finding);
      [done|].
    intros findings ann Hann. rewrite polygon_backed_test.
    rewrite Forall_forall in Hlen. specialize (Hlen ann Hann).
    destruct (COCOAnnotation.bbox ann) as [|x [|y [|w [|h [|??]]]]] eqn:Hbbox;
      try done.
    unfold mismatch_flagged. case_bool_decide as Hpoly.
    { by rewrite bool_decide_eq_false_2 by tauto. }
    unfold unpack4. cbn [mbind outcome_bind].
    rewrite (area_mismatch_test ann x y w h Hbbox).
    unfold mismatch_finding. rewrite Hbbox.
    case_bool_decide as Harea.
    + by rewrite bool_decide_eq_true_2 by done.
    + by rewrite bool_decide_eq_false_2 by tauto.
  - intros ann p l Hseg [Hnot _]. apply Hnot. unfold polygon_backed. eauto.
  - intros ann Hseg. unfold mismatch_flagged. split; [tauto|].
    intros Hm. split; [|done]. intros (p & l & Hp).
    destruct Hseg as [Hseg|[rle Hseg]]; congruence.
Qed.

(** *** Class imbalance *)

Lemma foldl_append_omap_in {A} (g : A → option string)
    (body : list string → A → list string) l :
  (∀ findings x, x ∈ l →
     body findings x = match g x with
                       | Some s => findings ++ [s]
                       | None => findings
                       end) →
  ∀ findings, foldl body findings l = findings ++ omap g l.
Proof.
  induction l as [|x l IH]; intros Hbody findings; simpl.
  - by rewrite app_nil_r.
  - rewrite Hbody by left. rewrite IH by (intros; apply Hbody; by right).
    destruct (g x); [|done]. by rewrite <- app_assoc.
Qed.

(** C5, as amended. With fewer than 50 annotations the rule finds nothing.
    With 50 or more it has one finding for each category id that at least
    one annotation uses, that has a category record, and whose number of
    annotations is below max(10, 0.001 * total), and no other finding: a
    category that no annotation uses is never flagged. *)
Theorem class_imbalance_spec (d : COCOData.t) :
  ((length (annotations d) < 50)%nat →
   check_statistical_class_distribution_imbalance d = inr []) ∧
  ((50 ≤ length (annotations d))%nat →
   check_statistical_class_distribution_imbalance d
     = inr (omap (imbalance_flag d) (used_category_ids d))) ∧
  NoDup (used_category_ids d) ∧
  (∀ k, k ∈ used_category_ids d ↔
        ∃ ann, ann ∈ annotations d ∧ COCOAnnotation.category_id ann = k) ∧
  (∀ k, k ∉ used_category_ids d → annotation_count d k = 0%nat) ∧
  (∀ k c, resolve_category d k = Some c →
          c ∈ categories d ∧ COCOCategory.id c = k).
Proof.
  unfold check_statistical_class_distribution_imbalance, used_category_ids.
  split_and!.
  - intros Hlt. apply Nat.ltb_lt in Hlt. rewrite Hlt.
    by rewrite orb_true_r.
  - intros Hge.
    rewrite bool_decide_eq_false_2 by lia.
    destruct (Nat.ltb_spec (length (annotations d)) 50); [lia|].
    cbn [orb]. f_equal.
    rewrite Counter_spec, foldl_fmap.
    rewrite (foldl_append_omap_in (imbalance_flag d)); [done|].
    intros findings k Hk. unfold imbalance_flag.
    rewrite count_fmap. fold (annotation_count d k).
    rewrite dict_by_lookup. fold (resolve_category d k).
    destruct (Qltb _ _) eqn:E.
    + apply Qltb_py_max in E. rewrite decide_True by done.
      by destruct (resolve_category d k).
    + rewrite decide_False; [done|].
      intros Hb. apply Qltb_py_max in Hb. congruence.
  - apply NoDup_nub.
  - intros k. rewrite elem_of_nub, list_elem_of_fmap.
    split; [intros (ann & -> & Hin)|intros (ann & Hin & <-)]; by exists ann.
  - intros k Hk. unfold annotation_count. rewrite <- count_fmap.
    apply count_not_elem. by rewrite <- elem_of_nub.
  - intros k c Hc%last_Some_elem_of.
    apply list_elem_of_filter in Hc. tauto.
Qed.
End rule_properties.

(** ** The other rules *)

Section occurrences_lemmas.
Context {K : Type} `{EqDecision K}.
Implicit Types (l : list K) (k : K).

Lemma elem_of_first_occurrences l x : x ∈ first_occurrences l ↔ x ∈ l.
Proof.
  induction l as [|y l IH]; simpl; [done|].
  rewrite !elem_of_cons, list_elem_of_filter, IH.
  destruct (decide (x = y)); tauto.
Qed.

Lemma NoDup_first_occurrences l : NoDup (first_occurrences l).
Proof.
  induction l as [|y l IH]; simpl; [constructor|].
  apply NoDup_cons. split.
  - rewrite list_elem_of_filter. tauto.
  - by apply NoDup_filter.
Qed.

Lemma first_occurrences_snoc l k :
  first_occurrences (l ++ [k])
    = if decide (k ∈ l) then first_occurrences l
      else first_occurrences l ++ [k].
Proof.
  induction l as [|y l IH]; simpl; [done|]. rewrite IH.
  destruct (decide (k ∈ l)) as [Hin|Hin].
  - rewrite decide_True by (by right). done.
  - rewrite filter_app. destruct (decide (k = y)) as [->|Hne].
    + rewrite decide_True by left.
      rewrite filter_cons_False, filter_nil, app_nil_r by (by intros []).
      done.
    + rewrite decide_False by (rewrite elem_of_cons; tauto).
      by rewrite filter_cons_True, filter_nil by done.
Qed.

Lemma occurrences_snoc k' l k :
  occurrences k' (l ++ [k])
    = if decide (k' = k) then S (occurrences k' l) else occurrences k' l.
Proof.
  unfold occurrences. rewrite filter_app, length_app.
  destruct (decide (k' = k)) as [->|Hne].
  - rewrite filter_cons_True by done. simpl. lia.
  - rewrite filter_cons_False by congruence. simpl. lia.
Qed.

Lemma occurrences_cons k' l k :
  occurrences k' (k :: l)
    = if decide (k' = k) then S (occurrences k' l) else occurrences k' l.
Proof.
  unfold occurrences. destruct (decide (k' = k)) as [->|Hne].
  - by rewrite filter_cons_True by done.
  - by rewrite filter_cons_False by congruence.
Qed.

Lemma occurrences_not_elem k l : k ∉ l ↔ occurrences k l = 0%nat.
Proof.
  induction l as [|x l IH].
  - split; [done|]. intros _. apply not_elem_of_nil.
  - rewrite occurrences_cons, not_elem_of_cons, IH.
    destruct (decide (k = x)); [|tauto]. split; [tauto|lia].
Qed.

Lemma NoDup_occurrences l : NoDup l ↔ ∀ k, (occurrences k l ≤ 1)%nat.
Proof.
  induction l as [|x l IH].
  - split; [intros _ k; unfold occurrences; simpl; lia | constructor].
  - rewrite NoDup_cons, IH. split.
    + intros [Hx Hl] k. rewrite occurrences_cons.
      destruct (decide (k = x)) as [->|]; [|done].
      apply occurrences_not_elem in Hx. lia.
    + intros Hall. split.
      * apply occurrences_not_elem. specialize (Hall x).
        rewrite occurrences_cons, decide_True in Hall by done. lia.
      * intros k. specialize (Hall k). rewrite occurrences_cons in Hall.
        destruct (decide (k = x)); lia.
Qed.

Lemma update_fmap (g : K → nat) ks k :
  NoDup ks →
  collections.update k ((λ k', (k', g k')) <$> ks) =
    if decide (k ∈ ks)
    then (λ k', (k', if decide (k' = k) then S (g k') else g k')) <$> ks
    else ((λ k', (k', g k')) <$> ks) ++ [(k, 1%nat)].
Proof.
  induction ks as [|k0 ks IH]; intros Hnd; [done|].
  apply NoDup_cons in Hnd as [Hk0 Hnd]. rewrite !fmap_cons. simpl.
  destruct (decide (k = k0)) as [->|Hne].
  - rewrite decide_True by left. rewrite decide_True by done. f_equal.
    apply list_fmap_ext. intros i k' Hk'.
    rewrite decide_False; [done|]. intros ->.
    apply Hk0. by eapply list_elem_of_lookup_2.
  - rewrite IH by done. rewrite (decide_False (P:=k0 = k)) by done.
    destruct (decide (k ∈ ks)) as [Hin|Hin].
    + by rewrite decide_True by (by right).
    + by rewrite decide_False by (rewrite elem_of_cons; tauto).
Qed.

Lemma collections_Counter_spec l :
  collections.Counter l = (λ k, (k, occurrences k l)) <$> first_occurrences l.
Proof.
  unfold collections.Counter. induction l as [|k l IH] using rev_ind; [done|].
  rewrite foldl_snoc, IH, update_fmap by apply NoDup_first_occurrences.
  rewrite first_occurrences_snoc. destruct (decide (k ∈ l)) as [Hin|Hin].
  - rewrite decide_True by (by apply elem_of_first_occurrences).
    apply list_fmap_ext. intros i k' _. by rewrite occurrences_snoc.
  - rewrite decide_False by (by rewrite elem_of_first_occurrences).
    rewrite fmap_app. f_equal.
    + apply list_fmap_ext. intros i k' Hk'. rewrite occurrences_snoc.
      rewrite decide_False; [done|]. intros ->.
      apply Hin, elem_of_first_occurrences. by eapply list_elem_of_lookup_2.
    + simpl. rewrite occurrences_snoc, decide_True by done.
      apply occurrences_not_elem in Hin. by rewrite Hin.
Qed.

(** Nothing is flagged exactly when no key occurs twice. *)
Lemma duplicate_flag_nil (finding : K → nat → string) l :
  omap (duplicate_flag finding l) (first_occurrences l) = [] ↔ NoDup l.
Proof.
  rewrite NoDup_occurrences. split.
  - intros Hnil k. destruct (decide (k ∈ l)) as [Hin|Hin].
    + destruct (decide (1 < occurrences k l)%nat) as [Hlt|]; [|lia].
      exfalso. apply elem_of_first_occurrences in Hin.
      assert (finding k (occurrences k l)
              ∈ omap (duplicate_flag finding l) (first_occurrences l)) as Hf.
      { apply list_elem_of_omap. exists k. split; [done|].
        unfold duplicate_flag. by rewrite decide_True. }
      rewrite Hnil in Hf. by apply elem_of_nil in Hf.
    + apply occurrences_not_elem in Hin. lia.
  - intros Hall. apply elem_of_nil_inv. intros s.
    rewrite list_elem_of_omap. intros (k & _ & Hk).
    unfold duplicate_flag in Hk. specialize (Hall k).
    rewrite decide_False in Hk by lia. done.
Qed.
End occurrences_lemmas.

Lemma Counter_collections l : Counter l = collections.Counter l.
Proof.
  unfold Counter, collections.Counter. generalize (@nil (Z * nat)).
  induction l as [|k l IH]; intros c; [done|]. simpl. rewrite IH. f_equal.
  induction c as [|[k' n] c IHc]; simpl; [done|].
  destruct (Z.eqb_spec k k') as [->|Hne].
  - by rewrite decide_True.
  - rewrite decide_False by done. by rewrite IHc.
Qed.

(** A loop over the items of a counter. *)
Lemma foldl_counter_items {K} `{EqDecision K} (finding : K → nat → string)
    (l : list K) :
  foldl (λ findings '(k, n),
           if (1 <? n)%nat then findings ++ [finding k n] else findings)
    [] ((λ k, (k, occurrences k l)) <$> first_occurrences l)
  = omap (duplicate_flag finding l) (first_occurrences l).
Proof.
  rewrite foldl_fmap.
  rewrite (foldl_append_omap_in (duplicate_flag finding l)); [done|].
  intros findings k _. unfold duplicate_flag.
  destruct (Nat.ltb_spec 1 (occurrences k l)).
  - by rewrite decide_True.
  - by rewrite decide_False by lia.
Qed.

Section duplicates.
Import COCOData.

(** X8. [check_category_duplicate_names] has one finding, with the number
    of occurrences, for each category name that occurs more than once, in
    the order of the first occurrences; it finds nothing exactly when the
    names are pairwise distinct. *)
Theorem duplicate_names_spec (d : COCOData.t) :
  check_category_duplicate_names d
    = inr (omap (duplicate_flag duplicate_name_finding
                   (COCOCategory.name <$> categories d))
             (first_occurrences (COCOCategory.name <$> categories d))) ∧
  (check_category_duplicate_names d = inr []
   ↔ NoDup (COCOCategory.name <$> categories d)).
Proof.
  set (names := COCOCategory.name <$> categories d).
  assert (check_category_duplicate_names d
    = inr (omap (duplicate_flag duplicate_name_finding names)
             (first_occurrences names))) as Heq.
  { unfold check_category_duplicate_names. fold names.
    rewrite collections_Counter_spec.
    by rewrite <- (foldl_counter_items duplicate_name_finding). }
  split; [done|]. rewrite Heq, <- (duplicate_flag_nil duplicate_name_finding).
  split; [by intros [= ->]|by intros ->].
Qed.

(** X9. [check_category_duplicate_ids] has one finding, with the number of
    occurrences, for each category id that occurs more than once, in the
    order of the first occurrences; it finds nothing exactly when the ids
    are pairwise distinct. *)
Theorem duplicate_ids_spec (d : COCOData.t) :
  check_category_duplicate_ids d
    = inr (omap (duplicate_flag duplicate_id_finding
                   (COCOCategory.id <$> categories d))
             (first_occurrences (COCOCategory.id <$> categories d))) ∧
  (check_category_duplicate_ids d = inr []
   ↔ NoDup (COCOCategory.id <$> categories d)).
Proof.
  set (ids := COCOCategory.id <$> categories d).
  assert (check_category_duplicate_ids d
    = inr (omap (duplicate_flag duplicate_id_finding ids)
             (first_occurrences ids))) as Heq.
  { unfold check_category_duplicate_ids. fold ids.
    rewrite Counter_collections, collections_Counter_spec.
    by rewrite <- (foldl_counter_items duplicate_id_finding). }
  split; [done|]. rewrite Heq, <- (duplicate_flag_nil duplicate_id_finding).
  split; [by intros [= ->]|by intros ->].
Qed.
End duplicates.

Section dict_fmap.
Context {A : Type}.

Lemma dict_get_fmap (g : string → A) ks k :
  dict_get k ((λ k', (k', g k')) <$> ks)
    = if decide (k ∈ ks) then Some (g k) else None.
Proof.
  induction ks as [|k0 ks IH]; [done|]. rewrite fmap_cons. simpl.
  destruct (String.eqb_spec k k0) as [->|Hne].
  - by rewrite decide_True by left.
  - rewrite IH. destruct (decide (k ∈ ks)) as [Hin|Hin].
    + by rewrite decide_True by (by right).
    + by rewrite decide_False by (rewrite elem_of_cons; tauto).
Qed.

Lemma dict_set_fmap (g : string → A) ks k v :
  NoDup ks →
  dict_set k v ((λ k', (k', g k')) <$> ks) =
    if decide (k ∈ ks)
    then (λ k', (k', if decide (k' = k) then v else g k')) <$> ks
    else ((λ k', (k', g k')) <$> ks) ++ [(k, v)].
Proof.
  induction ks as [|k0 ks IH]; intros Hnd; [done|].
  apply NoDup_cons in Hnd as [Hk0 Hnd]. rewrite !fmap_cons. simpl.
  destruct (String.eqb_spec k k0) as [->|Hne].
  - rewrite decide_True by left. rewrite decide_True by done. f_equal.
    apply list_fmap_ext. intros i k' Hk'.
    rewrite decide_False; [done|]. intros ->.
    apply Hk0. by eapply list_elem_of_lookup_2.
  - rewrite IH by done. rewrite (decide_False (P:=k0 = k)) by done.
    destruct (decide (k ∈ ks)) as [Hin|Hin].
    + by rewrite decide_True by (by right).
    + by rewrite decide_False by (rewrite elem_of_cons; tauto).
Qed.
End dict_fmap.

#[global] Instance str_le_total : Total str_le.
Proof. intros a b. apply String.leb_total. Qed.

Section case_consistency.
Import COCOData.
Variable lower : string → string.

(** The mapping that the first loop of the rule builds. *)
Lemma names_by_lower_spec (names : list string) :
  foldl
    (λ (names_by_lower : pydict (gset string)) name,
       dict_set (lower name)
         (default ∅ (dict_get (lower name) names_by_lower) ∪ {[name]})
         names_by_lower)
    [] names
  = (λ k, (k, list_to_set (filter (λ name, lower name = k) names)))
      <$> first_occurrences (lower <$> names).
Proof.
  induction names as [|name names IH] using rev_ind; [done|].
  rewrite foldl_snoc, IH. clear IH.
  rewrite dict_get_fmap, dict_set_fmap by apply NoDup_first_occurrences.
  rewrite fmap_app. change (lower <$> [name]) with [lower name].
  rewrite first_occurrences_snoc.
  destruct (decide (lower name ∈ lower <$> names)) as [Hin|Hin].
  - rewrite !decide_True by (by apply elem_of_first_occurrences).
    apply list_fmap_ext. intros i k _. f_equal. rewrite filter_app.
    destruct (decide (k = lower name)) as [->|Hne].
    + rewrite filter_cons_True by done. simpl.
      rewrite list_to_set_app_L. simpl. by rewrite union_empty_r_L.
    + rewrite filter_cons_False by congruence.
      by rewrite filter_nil, app_nil_r.
  - rewrite !decide_False by (by rewrite elem_of_first_occurrences).
    rewrite fmap_app. f_equal.
    + apply list_fmap_ext. intros i k Hk. f_equal. rewrite filter_app.
      rewrite filter_cons_False, filter_nil, app_nil_r; [done|].
      intros Heq. apply Hin. rewrite Heq.
      apply elem_of_first_occurrences. by eapply list_elem_of_lookup_2.
    + simpl. do 2 f_equal. rewrite filter_app.
      rewrite filter_cons_True by done.
      replace (filter _ names) with (@nil string); [simpl; set_solver|].
      symmetry. apply elem_of_nil_inv. intros n [Hn Hnin]%list_elem_of_filter.
      apply Hin. rewrite <- Hn. by apply list_elem_of_fmap_2.
Qed.

Lemma size_spellings d k :
  (1 < size (spellings lower d k))%nat ↔
  ∃ name1 name2,
    name1 ∈ COCOCategory.name <$> categories d ∧
    name2 ∈ COCOCategory.name <$> categories d ∧
    lower name1 = k ∧ lower name2 = k ∧ name1 ≠ name2.
Proof.
  unfold spellings. set (names := COCOCategory.name <$> categories d).
  set (S := list_to_set (filter (λ name, lower name = k) names) : gset string).
  assert (Hin : ∀ n, n ∈ S ↔ lower n = k ∧ n ∈ names).
  { intros n. unfold S. by rewrite elem_of_list_to_set, list_elem_of_filter. }
  split.
  - intros Hsize.
    destruct (size_pos_elem_of S) as [n1 Hn1]; [lia|].
    destruct (size_pos_elem_of (S ∖ {[n1]})) as [n2 Hn2].
    { rewrite size_difference by (by apply singleton_subseteq_l).
      rewrite size_singleton. lia. }
    apply elem_of_difference in Hn2 as [Hn2 Hne].
    apply Hin in Hn1 as [??], Hn2 as [??].
    exists n1, n2. split_and!; try done.
    intros ->. by apply Hne, elem_of_singleton.
  - intros (n1 & n2 & H1 & H2 & Hk1 & Hk2 & Hne).
    assert ({[n1; n2]} ⊆ S) as Hsub.
    { intros n [->%elem_of_singleton| ->%elem_of_singleton]%elem_of_union;
        by apply Hin. }
    apply subseteq_size in Hsub.
    rewrite size_union, !size_singleton in Hsub by set_solver. lia.
Qed.

(** X10. [check_category_case_consistency] has one finding for each
    lower-case form that two different category names share, in the order
    in which the forms first occur; it finds nothing exactly when no two
    different names have the same lower-case form, so a name that is merely
    repeated is not reported. The names listed in a finding are the
    different spellings of the form, in increasing order, each once. *)
Theorem case_consistency_spec (d : COCOData.t) :
  check_category_case_consistency lower d
    = inr (omap (case_flag lower d)
             (first_occurrences
                (lower <$> (COCOCategory.name <$> categories d)))) ∧
  (check_category_case_consistency lower d = inr [] ↔
   ∀ c1 c2, c1 ∈ categories d → c2 ∈ categories d →
     lower (COCOCategory.name c1) = lower (COCOCategory.name c2) →
     COCOCategory.name c1 = COCOCategory.name c2) ∧
  (∀ lower_name,
     Sorted str_le (sorted (elements (spellings lower d lower_name))) ∧
     NoDup (sorted (elements (spellings lower d lower_name))) ∧
     ∀ name, name ∈ sorted (elements (spellings lower d lower_name)) ↔
       lower name = lower_name ∧
       ∃ c, c ∈ categories d ∧ COCOCategory.name c = name).
Proof.
  assert (check_category_case_consistency lower d
    = inr (omap (case_flag lower d)
             (first_occurrences
                (lower <$> (COCOCategory.name <$> categories d))))) as Heq.
  { unfold check_category_case_consistency. f_equal.
    pose proof (names_by_lower_spec (COCOCategory.name <$> categories d))
      as Hloop.
    rewrite foldl_fmap in Hloop. cbv zeta. rewrite Hloop, foldl_fmap.
    rewrite (foldl_append_omap_in (case_flag lower d)); [done|].
    intros findings k _. unfold case_flag. fold (spellings lower d k).
    destruct (Nat.ltb_spec 1 (size (spellings lower d k))).
    - by rewrite decide_True.
    - by rewrite decide_False by lia. }
  split_and!; [done| |].
  - rewrite Heq. split.
    + intros [= Hnil] c1 c2 Hc1 Hc2 Hlow.
      destruct (decide (COCOCategory.name c1 = COCOCategory.name c2))
        as [|Hne]; [done|exfalso].
      assert (Hflag : is_Some (case_flag lower d (lower (COCOCategory.name c1)))).
      { unfold case_flag. rewrite decide_True; [done|].
        apply size_spellings.
        exists (COCOCategory.name c1), (COCOCategory.name c2).
        split_and!; try done; by apply list_elem_of_fmap_2. }
      destruct Hflag as [s Hs].
      assert (s ∈ omap (case_flag lower d)
                    (first_occurrences
                       (lower <$> (COCOCategory.name <$> categories d)))) as Hin.
      { apply list_elem_of_omap. eexists. split; [|done].
        apply elem_of_first_occurrences.
        by apply list_elem_of_fmap_2, list_elem_of_fmap_2. }
      rewrite Hnil in Hin. by apply elem_of_nil in Hin.
    + intros Hinj. f_equal. apply elem_of_nil_inv. intros s.
      rewrite list_elem_of_omap. intros (k & _ & Hk).
      unfold case_flag in Hk.
      destruct (decide (1 < size (spellings lower d k))%nat) as [Hsize|];
        [|done].
      apply size_spellings in Hsize
        as (n1 & n2 & (c1 & -> & Hc1)%list_elem_of_fmap
               & (c2 & -> & Hc2)%list_elem_of_fmap & Hk1 & Hk2 & Hne).
      apply Hne, Hinj; [done..|congruence].
  - intros k. unfold sorted. split_and!.
    + apply Sorted_merge_sort, _.
    + rewrite merge_sort_Permutation. apply NoDup_elements.
    + intros name. rewrite merge_sort_Permutation, elem_of_elements.
      unfold spellings.
      rewrite elem_of_list_to_set, list_elem_of_filter, list_elem_of_fmap.
      split; intros [? (c & ? & ?)]; (split; [done|]); by exists c.
Qed.
End case_consistency.

Section unmatched.
Import COCOData.

Lemma orphaned_unresolved d ann :
  orphaned d ann ↔ resolve_image d (COCOAnnotation.image_id ann) = None.
Proof.
  unfold orphaned. by rewrite resolve_image_None, Forall_forall.
Qed.

Lemma resolve_category_None d k :
  resolve_category d k = None ↔
  ∀ c, c ∈ categories d → COCOCategory.id c ≠ k.
Proof.
  unfold resolve_category. rewrite last_None. split.
  - intros Hnil c Hin Hk.
    eapply (filter_nil_not_elem_of _ _ c); [exact Hnil|done..].
  - intros Hall. apply elem_of_nil_inv. intros c.
    rewrite list_elem_of_filter. intros [Hk Hin]. by apply (Hall c).
Qed.

Lemma uncategorized_unresolved d ann :
  uncategorized d ann
  ↔ resolve_category d (COCOAnnotation.category_id ann) = None.
Proof.
  unfold uncategorized. by rewrite resolve_category_None, Forall_forall.
Qed.

Lemma fmap_filter_nil {A B} (f : A → B) (P : A → Prop)
    `{∀ x, Decision (P x)} (l : list A) :
  f <$> filter P l = [] ↔ Forall (λ x, ¬ P x) l.
Proof.
  rewrite Forall_forall. split.
  - intros Hnil%fmap_nil_inv x Hin HP.
    eapply (filter_nil_not_elem_of _ _ x); [exact Hnil|done..].
  - intros Hall. replace (filter P l) with (@nil A); [done|].
    symmetry. apply elem_of_nil_inv. intros x.
    rewrite list_elem_of_filter. intros [HP Hin]. by apply (Hall x).
Qed.

(** X11. [check_relation_unmatched_annotations] has one finding for each
    annotation whose image_id is the id of no image, and no other; it finds
    nothing exactly when every image_id is the id of an image. The
    annotations it reports are those that the bounds rule skips, and none
    of them is reported out of bounds. *)
Theorem unmatched_annotations_spec (d : COCOData.t) :
  check_relation_unmatched_annotations d
    = inr (orphan_finding <$> filter (orphaned d) (annotations d)) ∧
  (check_relation_unmatched_annotations d = inr [] ↔
   ∀ ann, ann ∈ annotations d →
     ∃ image, image ∈ images d
              ∧ COCOImage.id image = COCOAnnotation.image_id ann) ∧
  (∀ ann, orphaned d ann
          ↔ resolve_image d (COCOAnnotation.image_id ann) = None) ∧
  (∀ ann, orphaned d ann → ¬ out_of_bounds d ann).
Proof.
  assert (check_relation_unmatched_annotations d
    = inr (orphan_finding <$> filter (orphaned d) (annotations d))) as Heq.
  { unfold check_relation_unmatched_annotations. f_equal.
    rewrite (foldl_append_filter
               (λ ann, COCOAnnotation.image_id ann
                       ∉ (list_to_set (COCOImage.id <$> images d) : gset Z))
               orphan_finding).
    simpl. f_equal. apply list_filter_iff. intros ann.
    rewrite elem_of_list_to_set, list_elem_of_fmap.
    unfold orphaned. rewrite Forall_forall. split.
    - intros Hnot image Hin Heq. apply Hnot. eauto.
    - intros Hall (image & Heq & Hin). by apply (Hall image). }
  split_and!; [done| | |].
  - rewrite Heq. split.
    + intros [= Hnil%fmap_filter_nil] ann Hann.
      rewrite Forall_forall in Hnil. specialize (Hnil ann Hann).
      unfold orphaned in Hnil.
      apply not_Forall_Exists in Hnil; [|apply _].
      apply Exists_exists in Hnil as (image & Hin & Hid).
      exists image. split; [done|].
      by destruct (decide (COCOImage.id image = COCOAnnotation.image_id ann)).
    + intros Hall. f_equal. apply fmap_filter_nil, Forall_forall.
      intros ann Hann Horph. destruct (Hall ann Hann) as (image & Hin & Hid).
      unfold orphaned in Horph. rewrite Forall_forall in Horph.
      by apply (Horph image).
  - apply orphaned_unresolved.
  - intros ann Horph%orphaned_unresolved. by apply out_of_bounds_unresolved.
Qed.

(** X12. [check_relation_unmatched_category] has one finding for each
    annotation whose category_id is the id of no category, and no other; it
    finds nothing exactly when every category_id is the id of a category.
    The category ids it reports are those that the imbalance rule passes
    over for lack of a category record. *)
Theorem unmatched_category_spec (d : COCOData.t) :
  check_relation_unmatched_category d
    = inr (missing_category_finding
             <$> filter (uncategorized d) (annotations d)) ∧
  (check_relation_unmatched_category d = inr [] ↔
   ∀ ann, ann ∈ annotations d →
     ∃ c, c ∈ categories d
          ∧ COCOCategory.id c = COCOAnnotation.category_id ann) ∧
  (∀ ann, uncategorized d ann
          ↔ resolve_category d (COCOAnnotation.category_id ann) = None) ∧
  (∀ ann, uncategorized d ann
          → imbalance_flag d (COCOAnnotation.category_id ann) = None).
Proof.
  assert (check_relation_unmatched_category d
    = inr (missing_category_finding
             <$> filter (uncategorized d) (annotations d))) as Heq.
  { unfold check_relation_unmatched_category. f_equal.
    rewrite (foldl_append_filter
               (λ ann, COCOAnnotation.category_id ann
                       ∉ (list_to_set (COCOCategory.id <$> categories d)
                            : gset Z))
               missing_category_finding).
    simpl. f_equal. apply list_filter_iff. intros ann.
    rewrite elem_of_list_to_set, list_elem_of_fmap.
    unfold uncategorized. rewrite Forall_forall. split.
    - intros Hnot c Hin Heq. apply Hnot. eauto.
    - intros Hall (c & Heq & Hin). by apply (Hall c). }
  split_and!; [done| | |].
  - rewrite Heq. split.
    + intros [= Hnil%fmap_filter_nil] ann Hann.
      rewrite Forall_forall in Hnil. specialize (Hnil ann Hann).
      unfold uncategorized in Hnil.
      apply not_Forall_Exists in Hnil; [|apply _].
      apply Exists_exists in Hnil as (c & Hin & Hid).
      exists c. split; [done|].
      by destruct (decide (COCOCategory.id c = COCOAnnotation.category_id ann)).
    + intros Hall. f_equal. apply fmap_filter_nil, Forall_forall.
      intros ann Hann Hunc. destruct (Hall ann Hann) as (c & Hin & Hid).
      unfold uncategorized in Hunc. rewrite Forall_forall in Hunc.
      by apply (Hunc c).
  - apply uncategorized_unresolved.
  - intros ann Hunc%uncategorized_unresolved. unfold imbalance_flag.
    rewrite Hunc. by destruct (decide _).
Qed.
End unmatched.

Section more_loops.
Context {A B : Type}.

Lemma for_each_append_omap (g : A → option B)
    (body : list B → A → Exception + list B) l :
  (∀ acc x, x ∈ l →
     body acc x = inr (match g x with
                       | Some y => acc ++ [y]
                       | None => acc
                       end)) →
  ∀ acc, for_each l body acc = inr (acc ++ omap g l).
Proof.
  induction l as [|x l IH]; intros Hbody acc; simpl.
  - by rewrite app_nil_r.
  - rewrite Hbody by left. simpl.
    rewrite IH by (intros; apply Hbody; by right).
    destruct (g x); [|done]. by rewrite <- app_assoc.
Qed.

(** A loop whose body raises on some items and returns on the others
    raises exactly when the list has such an item. *)
Lemma for_each_raises (P : A → Prop) `{∀ x, Decision (P x)}
    (body : B → A → Exception + B) (e : Exception) l :
  (∀ s x, x ∈ l →
     if decide (P x) then body s x = inl e else ∃ s', body s x = inr s') →
  ∀ s r, for_each l body s = inl r ↔ r = e ∧ Exists P l.
Proof.
  induction l as [|x l IH]; intros Hbody s r; simpl.
  - split; [done|]. intros [_ Hex]. by apply Exists_nil in Hex.
  - pose proof (Hbody s x ltac:(left)) as Hx.
    destruct (decide (P x)) as [HP|HP].
    + rewrite Hx. simpl. split.
      * intros [= <-]. split; [done|]. by left.
      * by intros [-> _].
    + destruct Hx as [s' ->]. simpl.
      rewrite IH by (intros; apply Hbody; by right).
      rewrite Exists_cons. tauto.
Qed.
End more_loops.

Section geometry.
Import COCOData.

Lemma unpack4_length {A} (v : list A) :
  (length v = 4%nat → ∃ a b c d, v = [a; b; c; d]
                                  ∧ unpack4 v = inr (a, b, c, d)) ∧
  (length v ≠ 4%nat → unpack4 v = inl (Raise "ValueError")).
Proof.
  destruct v as [|a [|b [|c [|d [|??]]]]]; split; try done.
  intros _. by exists a, b, c, d.
Qed.

Lemma zero_area_test ann x y w h :
  COCOAnnotation.bbox ann = [x; y; w; h] →
  (w =? 0)%float || (h =? 0)%float = bool_decide (zero_area ann).
Proof.
  intros Hbbox. apply eq_true_iff_eq.
  rewrite bool_decide_eq_true, orb_true_iff.
  unfold zero_area. rewrite Hbbox. split.
  - intros. by exists x, y, w, h.
  - by intros (? & ? & ? & ? & [= <- <- <- <-] & ?).
Qed.

(** X13. On a document whose bboxes have four numbers,
    [check_geometry_zero_area_bboxes] has one finding for each annotation
    whose width or height is zero, and no other. For a box of width and
    height of at least zero, these are exactly the boxes that have no
    aspect ratio and, when the width and the height are finite, the boxes
    of area zero. *)
Theorem zero_area_bboxes_spec (d : COCOData.t) :
  (Forall (λ ann, length (COCOAnnotation.bbox ann) = 4%nat) (annotations d) →
   check_geometry_zero_area_bboxes d
     = inr (zero_area_finding <$> filter zero_area (annotations d))) ∧
  (∀ ann x y w h,
     COCOAnnotation.bbox ann = [x; y; w; h] →
     (0 <=? w)%float = true → (0 <=? h)%float = true →
     (PrimFloat.is_finite w = true → PrimFloat.is_finite h = true →
      zero_area ann ↔ (float_value w * float_value h == 0)%Q) ∧
     (zero_area ann ↔ aspect_ratio ann = None)).
Proof.
  split.
  - intros Hlen. unfold check_geometry_zero_area_bboxes.
    rewrite (for_each_append_filter zero_area zero_area_finding); [done|].
    intros findings ann Hann.
    rewrite Forall_forall in Hlen. specialize (Hlen ann Hann).
    destruct (COCOAnnotation.bbox ann) as [|x [|y [|w [|h [|??]]]]] eqn:Hbbox;
      try done.
    unfold unpack4. cbn [mbind outcome_bind].
    rewrite (zero_area_test ann x y w h Hbbox).
    unfold zero_area_finding. rewrite Hbbox. by case_bool_decide.
  - intros ann x y w h Hbbox Hw Hh.
    assert (zero_area ann
            ↔ (w =? 0)%float = true ∨ (h =? 0)%float = true) as ->.
    { unfold zero_area. rewrite Hbbox. split.
      - by intros (? & ? & ? & ? & [= <- <- <- <-] & ?).
      - intros. by exists x, y, w, h. }
    split.
    + intros Hfw Hfh.
      rewrite (float_value_0 w Hfw), (float_value_0 h Hfh). split.
      * intros [Hz|Hz]; rewrite Hz; ring.
      * intros Hz. destruct (Qeq_dec (float_value w) 0) as [|Hw0]; [by left|].
        right. apply Qmult_integral in Hz. tauto.
    + unfold aspect_ratio. rewrite Hbbox.
      rewrite (float_eqb_0_cases w Hw), (float_eqb_0_cases h Hh).
      destruct (0 <? w)%float, (0 <? h)%float; simpl; split;
        first [done | by intros [|] | by left | by right].
Qed.
End geometry.

(** ** Aspect ratios *)

Section aspect_ratio.
Import COCOData.
Variable percentile : list float → Z → float.

Lemma aspect_ratio_test ann x y w h :
  COCOAnnotation.bbox ann = [x; y; w; h] →
  aspect_ratio ann
    = if (0 <? w)%float && (0 <? h)%float then Some (w / h)%float else None.
Proof. intros Hbbox. unfold aspect_ratio. by rewrite Hbbox. Qed.

Lemma outlier_test d ann ar :
  aspect_ratio ann = Some ar →
  negb ((lower_bound percentile d <=? ar)%float
        && (ar <=? upper_bound percentile d)%float)
    = bool_decide (outlier percentile d ann).
Proof.
  intros Har. apply eq_true_iff_eq.
  rewrite bool_decide_eq_true, negb_true_iff, <- not_true_iff_false.
  rewrite andb_true_iff. unfold outlier. rewrite Har. split.
  - intros. by exists ar.
  - by intros (? & [= <-] & ?).
Qed.

Lemma aspect_ratios_elem d ann ar :
  ann ∈ annotations d → aspect_ratio ann = Some ar → ar ∈ aspect_ratios d.
Proof. intros. apply list_elem_of_omap. eauto. Qed.

Lemma aspect_ratios_nonempty d ann ar :
  ann ∈ annotations d → aspect_ratio ann = Some ar → aspect_ratios d ≠ [].
Proof.
  intros Hann Har Hnil.
  pose proof (aspect_ratios_elem d ann ar Hann Har) as Hin.
  rewrite Hnil in Hin. by apply elem_of_nil in Hin.
Qed.

(** The two loops of the rule. *)
Lemma aspect_ratio_outliers_findings (d : COCOData.t) :
  Forall (λ ann, length (COCOAnnotation.bbox ann) = 4%nat) (annotations d) →
  check_statistical_bbox_aspect_ratio_outliers percentile d
    = inr (outlier_finding percentile d
             <$> filter (outlier percentile d) (annotations d)).
Proof.
  intros Hlen. rewrite Forall_forall in Hlen.
  unfold check_statistical_bbox_aspect_ratio_outliers.
  destruct (annotations d) as [|ann0 anns] eqn:Hanns; [done|].
  rewrite <- Hanns in *.
  rewrite (for_each_append_omap aspect_ratio).
  2: { intros acc ann Hann. specialize (Hlen ann Hann).
       destruct (COCOAnnotation.bbox ann) as [|x [|y [|w [|h [|??]]]]]
         eqn:Hbbox; try done.
       rewrite (aspect_ratio_test ann x y w h Hbbox).
       unfold unpack4. cbn [mbind outcome_bind].
       by destruct (_ && _). }
  rewrite app_nil_l. cbn [mbind outcome_bind].
  fold (aspect_ratios d).
  fold (first_quartile percentile d) (third_quartile percentile d).
  fold (lower_bound percentile d) (upper_bound percentile d).
  destruct (aspect_ratios d) as [|ar0 ars] eqn:Hars.
  { f_equal.
    replace (filter (outlier percentile d) (annotations d))
      with (@nil COCOAnnotation.t); [done|].
    symmetry. apply elem_of_nil_inv. intros ann.
    rewrite list_elem_of_filter. intros [(ar & Har & _) Hann].
    by apply (aspect_ratios_nonempty d ann ar). }
  rewrite (for_each_append_filter (outlier percentile d)
             (outlier_finding percentile d)); [done|].
  intros findings ann Hann. specialize (Hlen ann Hann).
  destruct (COCOAnnotation.bbox ann) as [|x [|y [|w [|h [|??]]]]]
    eqn:Hbbox; try done.
  pose proof (aspect_ratio_test ann x y w h Hbbox) as Har.
  unfold unpack4. cbn [mbind outcome_bind].
  unfold outlier_finding.
  destruct ((0 <? w)%float && (0 <? h)%float).
  - cbv zeta. rewrite (outlier_test d ann _ Har), Har.
    by case_bool_decide.
  - rewrite bool_decide_eq_false_2; [done|].
    intros (? & ? & _). congruence.
Qed.

(** X14. On a document whose bboxes have four numbers,
    [check_statistical_bbox_aspect_ratio_outliers] has one finding for each
    annotation of positive width and height for whose aspect ratio
    [lower_bound <= ar <= upper_bound] does not hold, and no other; the
    bounds are the quartiles that [numpy.percentile] gives for the aspect
    ratios of the boxes of positive width and height, widened by one and a
    half times their distance, all in the arithmetic of floats. A box of
    zero width or height is never an outlier, and without any box of
    positive size nothing is found. *)
Theorem aspect_ratio_outliers_spec (d : COCOData.t) :
  (Forall (λ ann, length (COCOAnnotation.bbox ann) = 4%nat) (annotations d) →
   check_statistical_bbox_aspect_ratio_outliers percentile d
     = inr (outlier_finding percentile d
              <$> filter (outlier percentile d) (annotations d))) ∧
  (∀ ann, outlier percentile d ann →
     ∃ x y w h, COCOAnnotation.bbox ann = [x; y; w; h]
                ∧ (0 <? w)%float = true ∧ (0 <? h)%float = true) ∧
  (∀ ann, outlier percentile d ann → ¬ zero_area ann) ∧
  (aspect_ratios d = [] →
   Forall (λ ann, length (COCOAnnotation.bbox ann) = 4%nat) (annotations d) →
   check_statistical_bbox_aspect_ratio_outliers percentile d = inr []).
Proof.
  assert (Hpos : ∀ ann, outlier percentile d ann →
            ∃ x y w h, COCOAnnotation.bbox ann = [x; y; w; h]
                       ∧ (0 <? w)%float = true ∧ (0 <? h)%float = true).
  { intros ann (ar & Har & _). unfold aspect_ratio in Har.
    destruct (COCOAnnotation.bbox ann) as [|x [|y [|w [|h [|??]]]]];
      try done.
    destruct (0 <? w)%float eqn:Ew; [|done].
    destruct (0 <? h)%float eqn:Eh; [|done].
    by exists x, y, w, h. }
  split_and!.
  - apply aspect_ratio_outliers_findings.
  - exact Hpos.
  - intros ann (x & y & w & h & Hbbox & Hw & Hh)%Hpos
      (x' & y' & w' & h' & Hbbox' & Hz).
    rewrite Hbbox in Hbbox'. injection Hbbox' as <- <- <- <-.
    apply float_positive_not_0 in Hw, Hh. destruct Hz; congruence.
  - intros Hnil Hlen. rewrite aspect_ratio_outliers_findings by done.
    f_equal.
    replace (filter (outlier percentile d) (annotations d))
      with (@nil COCOAnnotation.t); [done|].
    symmetry. apply elem_of_nil_inv. intros ann.
    rewrite list_elem_of_filter. intros [(ar & Har & _) Hann].
    by apply (aspect_ratios_nonempty d ann ar).
Qed.
End aspect_ratio.


(** ** Malformed bboxes, and the registry on validated documents *)

Section malformed.
Import COCOData.
Variable percentile : list float → Z → float.

Lemma unpack4_malformed ann :
  malformed ann → unpack4 (COCOAnnotation.bbox ann) = inl (Raise "ValueError").
Proof. apply unpack4_length. Qed.

Lemma unpack4_wellformed ann :
  ¬ malformed ann →
  ∃ t, unpack4 (COCOAnnotation.bbox ann) = inr t.
Proof.
  intros Hlen. unfold malformed in Hlen.
  destruct (decide (length (COCOAnnotation.bbox ann) = 4%nat)) as [Heq|];
    [|done].
  apply unpack4_length in Heq as (a & b & c & e & _ & ->). eauto.
Qed.

Lemma bbox_out_of_bounds_raises d e :
  check_geometry_bbox_out_of_bounds d = inl e ↔
  e = Raise "ValueError" ∧
  Exists (λ ann, is_Some (resolve_image d (COCOAnnotation.image_id ann))
                 ∧ malformed ann) (annotations d).
Proof.
  unfold check_geometry_bbox_out_of_bounds.
  apply (for_each_raises
           (λ ann, is_Some (resolve_image d (COCOAnnotation.image_id ann))
                   ∧ malformed ann)).
  intros findings ann _. rewrite dict_by_lookup.
  fold (resolve_image d (COCOAnnotation.image_id ann)).
  destruct (resolve_image d _) as [image|].
  - destruct (decide (malformed ann)) as [Hm|Hm].
    + rewrite decide_True by done. by rewrite unpack4_malformed.
    + rewrite decide_False by tauto.
      destruct (unpack4_wellformed ann Hm) as [[[[x y] w] h] ->].
      cbn [mbind outcome_bind]. destruct (_ || _); eauto.
  - rewrite decide_False by (by intros [[? [=]] _]). eauto.
Qed.

Lemma area_bbox_mismatch_raises d e :
  check_attribute_area_bbox_mismatch d = inl e ↔
  e = Raise "ValueError" ∧
  Exists (λ ann, ¬ polygon_backed ann ∧ malformed ann) (annotations d).
Proof.
  unfold check_attribute_area_bbox_mismatch.
  apply (for_each_raises (λ ann, ¬ polygon_backed ann ∧ malformed ann)).
  intros findings ann _. rewrite polygon_backed_test.
  case_bool_decide as Hp.
  - rewrite decide_False by tauto. eauto.
  - destruct (decide (malformed ann)) as [Hm|Hm].
    + rewrite decide_True by done. by rewrite unpack4_malformed.
    + rewrite decide_False by tauto.
      destruct (unpack4_wellformed ann Hm) as [[[[x y] w] h] ->].
      cbn [mbind outcome_bind]. destruct (negb _); eauto.
Qed.

Lemma zero_area_bboxes_raises d e :
  check_geometry_zero_area_bboxes d = inl e ↔
  e = Raise "ValueError" ∧ Exists malformed (annotations d).
Proof.
  unfold check_geometry_zero_area_bboxes. apply (for_each_raises malformed).
  intros findings ann _.
  destruct (decide (malformed ann)) as [Hm|Hm].
  - by rewrite unpack4_malformed.
  - destruct (unpack4_wellformed ann Hm) as [[[[x y] w] h] ->].
    cbn [mbind outcome_bind]. destruct (_ || _); eauto.
Qed.

Lemma aspect_ratio_outliers_raises d e :
  check_statistical_bbox_aspect_ratio_outliers percentile d = inl e ↔
  e = Raise "ValueError" ∧ Exists malformed (annotations d).
Proof.
  destruct (decide (Exists malformed (annotations d))) as [Hex|Hex].
  - unfold check_statistical_bbox_aspect_ratio_outliers.
    destruct (annotations d) as [|ann0 anns] eqn:Hanns.
    { by apply Exists_nil in Hex. }
    rewrite <- Hanns in *.
    assert (Hloop : ∀ r,
              for_each (annotations d)
                (λ aspect_ratios ann,
                   '(_x, _y, w, h) ← unpack4 (COCOAnnotation.bbox ann);
                   if (0 <? w)%float && (0 <? h)%float
                   then inr (aspect_ratios ++ [(w / h)%float])
                   else inr aspect_ratios) []
              = inl r ↔ r = Raise "ValueError" ∧ Exists malformed (annotations d)).
    { apply (for_each_raises malformed).
      intros acc ann _. destruct (decide (malformed ann)) as [Hm|Hm].
      - by rewrite unpack4_malformed.
      - destruct (unpack4_wellformed ann Hm) as [[[[x y] w] h] ->].
        cbn [mbind outcome_bind]. destruct (_ && _); eauto. }
    destruct (for_each (annotations d) _ []) as [e'|ars] eqn:Hfirst.
    + destruct (proj1 (Hloop e') eq_refl) as [-> _]. simpl.
      split; [by intros [= <-]|by intros [-> _]].
    + by pose proof (proj2 (Hloop _) (conj eq_refl Hex)).
  - rewrite aspect_ratio_outliers_findings.
    + split; [done|]. by intros [_ ?].
    + apply Forall_forall. intros ann Hann.
      destruct (decide (length (COCOAnnotation.bbox ann) = 4%nat)); [done|].
      exfalso. apply Hex, Exists_exists. by exists ann.
Qed.

(** X17. The four rules that unpack a bbox raise exactly on a bbox that
    has not four numbers, and then a [ValueError]: the bounds rule when
    such a bbox belongs to an annotation whose image exists, the area rule
    when it belongs to an annotation that is not polygon backed, the
    zero-area and aspect-ratio rules for any annotation. *)
Theorem bbox_rules_raise_on_malformed (d : COCOData.t) (e : Exception) :
  (check_geometry_bbox_out_of_bounds d = inl e ↔
   e = Raise "ValueError" ∧
   ∃ ann, ann ∈ annotations d
          ∧ is_Some (resolve_image d (COCOAnnotation.image_id ann))
          ∧ length (COCOAnnotation.bbox ann) ≠ 4%nat) ∧
  (check_attribute_area_bbox_mismatch d = inl e ↔
   e = Raise "ValueError" ∧
   ∃ ann, ann ∈ annotations d ∧ ¬ polygon_backed ann
          ∧ length (COCOAnnotation.bbox ann) ≠ 4%nat) ∧
  (check_geometry_zero_area_bboxes d = inl e ↔
   e = Raise "ValueError" ∧
   ∃ ann, ann ∈ annotations d
          ∧ length (COCOAnnotation.bbox ann) ≠ 4%nat) ∧
  (check_statistical_bbox_aspect_ratio_outliers percentile d = inl e ↔
   e = Raise "ValueError" ∧
   ∃ ann, ann ∈ annotations d
          ∧ length (COCOAnnotation.bbox ann) ≠ 4%nat).
Proof.
  rewrite bbox_out_of_bounds_raises, area_bbox_mismatch_raises,
    zero_area_bboxes_raises, aspect_ratio_outliers_raises.
  rewrite !Exists_exists. unfold malformed. done.
Qed.
End malformed.

Section registry.
Import COCOData.
Variable lower : string → string.
Variable percentile : list float → Z → float.

(** On a document whose bboxes have four numbers, every rule of the
    registry returns. *)
Lemma labellint_rules_return d :
  Forall (λ ann, length (COCOAnnotation.bbox ann) = 4%nat) (annotations d) →
  Forall (λ rule, ∃ l, call rule d = inr l)
    (labellint_rules lower percentile).
Proof.
  intros Hlen.
  assert (Hwf : ¬ Exists malformed (annotations d)).
  { intros (ann & Hann & Hm)%Exists_exists.
    rewrite Forall_forall in Hlen. by apply Hm, Hlen. }
  unfold labellint_rules, get_all_rules.
  repeat apply Forall_cons_2; try apply Forall_nil_2; cbn [call].
  - destruct (check_attribute_area_bbox_mismatch d) as [e|l] eqn:E; [|eauto].
    apply area_bbox_mismatch_raises in E as [_ Hex]. exfalso. apply Hwf.
    eapply Exists_impl; [done|]. by intros ? [_ ?].
  - by eexists.
  - by eexists.
  - by eexists.
  - destruct (check_geometry_bbox_out_of_bounds d) as [e|l] eqn:E; [|eauto].
    apply bbox_out_of_bounds_raises in E as [_ Hex]. exfalso. apply Hwf.
    eapply Exists_impl; [done|]. by intros ? [_ ?].
  - change (rules_getattr lower percentile "check_geometry_zero_area_bboxes")
      with check_geometry_zero_area_bboxes.
    destruct (check_geometry_zero_area_bboxes d) as [e|l] eqn:E; [|eauto].
    by apply zero_area_bboxes_raises in E as [_ Hex].
  - unfold check_relation_images_without_annotations.
    destruct (annotations d); by eexists.
  - by eexists.
  - by eexists.
  - change (rules_getattr lower percentile
              "check_statistical_bbox_aspect_ratio_outliers")
      with (check_statistical_bbox_aspect_ratio_outliers percentile).
    destruct (check_statistical_bbox_aspect_ratio_outliers percentile d)
      as [e|l] eqn:E; [|eauto].
    by apply aspect_ratio_outliers_raises in E as [_ Hex].
  - unfold check_statistical_class_distribution_imbalance.
    destruct (_ || _); by eexists.
Qed.

Lemma labellint_rules_names :
  __name__ <$> labellint_rules lower percentile = rule_names.
Proof. reflexivity. Qed.
End registry.

Section clean_scans.
Context `{Scalars}.
Variable read_text : string → ReadError + string.
Variable json_loads : string → LoadsError + value.

Lemma rule_log_no_error d rule l :
  call rule d = inr l → Forall (λ r, r.1 ≠ ERROR) (rule_log d rule).
Proof.
  intros Hl. unfold rule_log. rewrite Hl.
  destruct l; repeat constructor; done.
Qed.

(** X18. On a file that [parse_coco] accepts, no rule of the registry of
    [labellint.rules] fails: every rule returns, its findings are stored
    under its own name when there are any, no key of the form
    <rule_name>_execution_error is written, every key of the mapping is the
    name of a rule, and nothing is logged as an error. *)
Theorem run_scan_without_rule_failures (lower : string → string)
    (percentile : list float → Z → float)
    (filepath : string) (d : COCOData.t) :
  parse_coco read_text json_loads filepath = inr d →
  ∃ logged res,
    run_scan read_text json_loads (labellint_rules lower percentile) filepath
      = (logged, inr res) ∧
    Forall (λ rule,
              ∃ l, call rule d = inr l ∧
                   dict_get (__name__ rule) (findings res)
                     = match l with [] => None | _ => Some l end ∧
                   dict_get (__name__ rule +:+ "_execution_error")
                     (findings res) = None)
      (labellint_rules lower percentile) ∧
    Forall (λ k, k ∈ rule_names) (dict_keys (findings res)) ∧
    Forall (λ r, r.1 ≠ ERROR) logged.
Proof.
  intros Hparse.
  pose proof (parse_coco_valid _ _ _ _ Hparse) as Hvalid.
  apply COCOData_valid_bbox_length in Hvalid.
  pose proof (labellint_rules_return lower percentile d Hvalid) as Hret.
  assert (Hnd : NoDup ((__name__ <$> labellint_rules lower percentile)
                         ≫= result_keys)).
  { rewrite labellint_rules_names. apply rule_names_keys_distinct. }
  eexists _, _. split; [by apply run_scan_parsed|].
  cbn [findings]. rewrite foldl_stored by done. split_and!.
  - apply Forall_forall. intros rule Hrule.
    rewrite Forall_forall in Hret. destruct (Hret rule Hrule) as [l Hl].
    exists l. split; [done|].
    rewrite !(dict_get_stored d _ rule) by
      (try done; unfold result_keys; rewrite !elem_of_cons; auto).
    unfold stored. rewrite Hl.
    pose proof (execution_error_key_ne (__name__ rule)) as Hne.
    destruct l; simpl; rewrite ?String.eqb_refl; split; try done.
    by destruct (String.eqb_spec (__name__ rule +:+ "_execution_error")
                   (__name__ rule)).
  - apply Forall_forall. intros k. unfold dict_keys.
    intros ([k' l] & -> & (rule & Hrule & Hst)%list_elem_of_omap)
      %list_elem_of_fmap.
    rewrite Forall_forall in Hret. destruct (Hret rule Hrule) as [l' Hl'].
    unfold stored in Hst. rewrite Hl' in Hst.
    destruct l'; [done|]. injection Hst as <- <-. simpl.
    rewrite <- (labellint_rules_names lower percentile).
    by apply list_elem_of_fmap_2.
  - rewrite !Forall_app. split_and!.
    + unfold scan_prelude. by repeat constructor.
    + apply Forall_forall. intros r (rule & Hr & Hrule)%list_elem_of_bind.
      rewrite Forall_forall in Hret. destruct (Hret rule Hrule) as [l Hl].
      pose proof (rule_log_no_error d rule l Hl) as Hlog.
      rewrite Forall_forall in Hlog. by apply Hlog.
    + by repeat constructor.
Qed.

Lemma dict_set_ne_nil {A} k (v : A) d : dict_set k v d ≠ [].
Proof. destruct d as [|[k' v'] d]; simpl; [done|]. by destruct (String.eqb k k'). Qed.

Lemma foldl_dict_set_nil {A} (es : pydict A) : ∀ d,
  foldl (λ res e, dict_set e.1 e.2 res) d es = [] ↔ d = [] ∧ es = [].
Proof.
  induction es as [|e es IH]; intros d; simpl.
  - split; [by intros ->|by intros [-> _]].
  - rewrite IH. split; [|by intros [_ ?]].
    intros [Hd _]. by apply dict_set_ne_nil in Hd.
Qed.

Lemma counted_zero d rule : counted d rule = 0%nat ↔ call rule d = inr [].
Proof.
  unfold counted. destruct (call rule d) as [e|[|??]]; simpl; split; done.
Qed.

Lemma stored_None d rule : stored d rule = None ↔ call rule d = inr [].
Proof.
  unfold stored. destruct (call rule d) as [e|[|??]]; simpl; split; done.
Qed.

Lemma sum_counted_zero d (all_rules : list Rule) :
  sum_list (counted d <$> all_rules) = 0%nat ↔
  Forall (λ rule, call rule d = inr []) all_rules.
Proof.
  induction all_rules as [|rule rules IH]; [done|].
  rewrite fmap_cons, Forall_cons. cbn [sum_list].
  rewrite <- IH, <- counted_zero. unfold id. lia.
Qed.

Lemma omap_stored_nil d (all_rules : list Rule) :
  omap (stored d) all_rules = [] ↔
  Forall (λ rule, call rule d = inr []) all_rules.
Proof.
  induction all_rules as [|rule rules IH]; [done|].
  cbn [omap list_omap]. rewrite Forall_cons, <- IH, <- stored_None.
  destruct (stored d rule) as [e|].
  - split; [done|by intros [[=] _]].
  - split; [by intros ->|by intros [_ ->]].
Qed.

(** X19. In every result of a scan the total is at least zero, and it is
    zero exactly when the findings mapping is empty, which is exactly when
    every rule returned the empty list: a rule that raises makes the scan
    unclean. *)
Theorem total_zero_iff_no_findings (all_rules : list Rule)
    (filepath : string) (logged : log) (res : ScanResult) :
  run_scan read_text json_loads all_rules filepath = (logged, inr res) →
  0 ≤ total_findings res ∧
  (total_findings res = 0 ↔ findings res = []) ∧
  (total_findings res = 0 ↔
   Forall (λ rule, call rule (data res) = inr []) all_rules).
Proof.
  intros Hrun.
  destruct (parse_coco read_text json_loads filepath) as [e|d] eqn:Hparse.
  { destruct (run_scan_raises _ _ all_rules _ _ Hparse) as [? He].
    congruence. }
  rewrite (run_scan_parsed _ _ _ _ _ Hparse) in Hrun.
  injection Hrun as _ <-. cbn [findings total_findings data].
  pose proof (sum_counted_zero d all_rules) as Hall.
  split_and!; [lia| |].
  - rewrite foldl_dict_set_nil, omap_stored_nil, <- Hall.
    split; [intros ?; split; [done|lia]|intros [_ ?]; lia].
  - rewrite <- Hall. lia.
Qed.
End clean_scans.


(** ** The report *)

Section report.
Context `{Scalars}.
Variable read_text : string → ReadError + string.
Variable json_loads : string → LoadsError + value.
Variable json_dumps : value → nat → string.

Lemma dict_get_fmap_values {A B} (f : A → B) (d : pydict A) k :
  dict_get k ((λ kv, (kv.1, f kv.2)) <$> d) = f <$> dict_get k d.
Proof.
  induction d as [|[k' v] d IH]; [done|]. rewrite fmap_cons. simpl.
  by destruct (String.eqb k k').
Qed.

Lemma listed_findings (d : pydict (list string)) :
  listed (VDict ((λ kv, (kv.1, VList (VStr <$> kv.2))) <$> d))
    = sum_list (length <$> dict_values d).
Proof.
  unfold listed, dict_values. induction d as [|[k l] d IH]; [done|].
  rewrite !fmap_cons. cbn [sum_list fst snd]. rewrite IH.
  by rewrite length_fmap.
Qed.

(** X20. The report of a scan of a file that [parse_coco] accepts, with the
    registry of [labellint.rules]: its summary counts the images,
    annotations and categories of the document, its total is the number of
    findings that it lists, and it lists every finding of every rule under
    the name of the rule, none being left out. *)
Theorem format_json_report (lower : string → string)
    (percentile : list float → Z → float) (filepath : string)
    (d : COCOData.t) :
  parse_coco read_text json_loads filepath = inr d →
  ∃ logged res summary listing,
    run_scan read_text json_loads (labellint_rules lower percentile) filepath
      = (logged, inr res) ∧
    format_json json_dumps res = json_dumps (output_dict res) 2 ∧
    output_dict res = VDict [("summary", summary); ("findings", listing)] ∧
    value_get "total_findings" summary = Some (VInt (Z.of_nat (listed listing))) ∧
    value_get "images_scanned" summary
      = Some (VInt (Z.of_nat (length (COCOData.images d)))) ∧
    value_get "annotations_scanned" summary
      = Some (VInt (Z.of_nat (length (COCOData.annotations d)))) ∧
    value_get "categories_found" summary
      = Some (VInt (Z.of_nat (length (COCOData.categories d)))) ∧
    Forall (λ rule,
              ∃ l, call rule d = inr l ∧
                   value_get (__name__ rule) listing
                     = match l with
                       | [] => None
                       | _ => Some (VList (VStr <$> l))
                       end)
      (labellint_rules lower percentile).
Proof.
  intros Hparse.
  pose proof (parse_coco_valid _ _ _ _ Hparse) as Hvalid.
  apply COCOData_valid_bbox_length in Hvalid.
  pose proof (labellint_rules_return lower percentile d Hvalid) as Hret.
  assert (Hnd : NoDup ((__name__ <$> labellint_rules lower percentile)
                         ≫= result_keys)).
  { rewrite labellint_rules_names. apply rule_names_keys_distinct. }
  eexists _, _, _, _. split; [by apply run_scan_parsed|].
  split; [done|]. split; [done|].
  cbn [findings total_findings data]. rewrite foldl_stored by done.
  split_and!; try done.
  - cbn [value_get dict_get String.eqb Ascii.eqb Bool.eqb].
    by rewrite listed_findings, sum_stored_lengths.
  - apply Forall_forall. intros rule Hrule.
    rewrite Forall_forall in Hret. destruct (Hret rule Hrule) as [l Hl].
    exists l. split; [done|]. cbn [value_get].
    rewrite (dict_get_fmap_values (λ l, VList (VStr <$> l))).
    rewrite (dict_get_stored d _ rule) by
      (try done; unfold result_keys; rewrite !elem_of_cons; auto).
    unfold stored. rewrite Hl.
    destruct l; simpl; by rewrite ?String.eqb_refl.
Qed.
End report.

(** ** Tolerance of the area check, and the order of the rules *)

Section within_tolerance.
Import COCOData.

Lemma for_each_skip {A S} (body : S → A → Exception + S) l :
  (∀ s x, x ∈ l → body s x = inr s) → ∀ s, for_each l body s = inr s.
Proof.
  induction l as [|x l IH]; intros Hbody s; simpl; [done|].
  rewrite Hbody by left. simpl. apply IH. intros. apply Hbody. by right.
Qed.

(** X21. What the tolerance guarantees: when, for every annotation that
    is not polygon backed, the product of the width by the height is close
    to the declared area, as [numpy.isclose] has it with a relative
    tolerance of 1e-3, [check_attribute_area_bbox_mismatch] finds nothing;
    this is so in particular when the declared area is that product. *)
Theorem area_within_tolerance_never_flagged (d : COCOData.t) :
  Forall (λ ann, polygon_backed ann ∨ within_tolerance ann) (annotations d) →
  check_attribute_area_bbox_mismatch d = inr [] ∧
  Forall (λ ann, ¬ mismatch_flagged ann) (annotations d) ∧
  (∀ ann x y w h,
     COCOAnnotation.bbox ann = [x; y; w; h] →
     (w * h =? COCOAnnotation.area ann)%float = true →
     within_tolerance ann).
Proof.
  intros Hall. rewrite Forall_forall in Hall.
  assert (Hclose : ∀ ann, within_tolerance ann → ¬ area_mismatch ann).
  { intros ann (? & ? & ? & ? & Hb & Hle) (? & ? & ? & ? & Hb' & Hlt).
    rewrite Hb in Hb'. injection Hb' as <- <- <- <-. congruence. }
  split_and!.
  - unfold check_attribute_area_bbox_mismatch. apply for_each_skip.
    intros findings ann Hann. rewrite polygon_backed_test.
    case_bool_decide as Hp; [done|].
    destruct (Hall ann Hann) as [|Hw]; [done|].
    pose proof Hw as (x & y & w & h & Hbbox & Hle).
    rewrite Hbbox. cbn [unpack4 mbind outcome_bind].
    rewrite (area_mismatch_test ann x y w h Hbbox).
    rewrite bool_decide_eq_false_2; [done|]. by apply Hclose.
  - apply Forall_forall. intros ann Hann [Hnp Hm].
    destruct (Hall ann Hann) as [|Hw]; [done|]. by apply (Hclose ann).
  - intros ann x y w h Hbbox Heq. exists x, y, w, h. split; [done|].
    unfold isclose. rewrite Heq. apply orb_true_r.
Qed.
End within_tolerance.

Section rule_order.
Context `{Scalars}.
Variable read_text : string → ReadError + string.
Variable json_loads : string → LoadsError + value.

Lemma dict_get_Permutation {A} (d d' : pydict A) k :
  NoDup (dict_keys d) → d ≡ₚ d' → dict_get k d = dict_get k d'.
Proof.
  intros Hnd Hperm.
  assert (Hnd' : NoDup (dict_keys d')).
  { unfold dict_keys in *. by rewrite <- Hperm. }
  destruct (dict_get k d) as [v|] eqn:E.
  - symmetry. apply dict_get_NoDup; [done|].
    rewrite <- Hperm. by apply dict_get_Some_elem.
  - symmetry. apply dict_get_None. apply dict_get_None in E.
    unfold dict_keys in *. by rewrite <- Hperm.
Qed.

(** X22. The result of a scan does not depend on the order of the rules,
    provided no two rules can write the same key: with the rules permuted,
    the document and the total are the same and the mapping holds the same
    list under every key, in a possibly different order of the keys. *)
Theorem run_scan_rule_order (all_rules all_rules' : list Rule)
    (filepath : string) (logged logged' : log) (res res' : ScanResult) :
  all_rules ≡ₚ all_rules' →
  NoDup ((__name__ <$> all_rules) ≫= result_keys) →
  run_scan read_text json_loads all_rules filepath = (logged, inr res) →
  run_scan read_text json_loads all_rules' filepath = (logged', inr res') →
  data res' = data res ∧
  total_findings res' = total_findings res ∧
  findings res' ≡ₚ findings res ∧
  (∀ k, dict_get k (findings res') = dict_get k (findings res)).
Proof.
  intros Hperm Hnd Hrun Hrun'.
  assert (Hnd' : NoDup ((__name__ <$> all_rules') ≫= result_keys)).
  { by rewrite <- Hperm. }
  destruct (parse_coco read_text json_loads filepath) as [e|d] eqn:Hparse.
  { destruct (run_scan_raises _ _ all_rules _ _ Hparse) as [? He].
    congruence. }
  rewrite (run_scan_parsed _ _ _ _ _ Hparse) in Hrun.
  rewrite (run_scan_parsed _ _ _ _ _ Hparse) in Hrun'.
  injection Hrun as _ <-. injection Hrun' as _ <-.
  cbn [data findings total_findings]. rewrite !foldl_stored by done.
  assert (omap (stored d) all_rules' ≡ₚ omap (stored d) all_rules) as Hst.
  { by rewrite Hperm. }
  split_and!; [done| |done|].
  - f_equal. by rewrite Hperm.
  - intros k. apply dict_get_Permutation; [|done].
    by apply stored_keys_NoDup.
Qed.
End rule_order.


(** * Examples *)

(** ** The engine on the scenario of the specification *)

Lemma sample_file_parses :
  parse_coco any_file (parses_to (COCOData.model_dump sample_data)) "sample.json"
    = inr sample_data.
Proof. vm_compute. reflexivity. Qed.

(** R returns two findings, S raises and T returns none: the total is 2 + 1,
    the mapping holds the two findings of R and the single text of
    S_execution_error, and T is no key. *)
Lemma run_scan_isolates_rule_failures_witness :
  parse_coco any_file (parses_to (COCOData.model_dump sample_data)) "sample.json"
    = inr sample_data ∧
  ∃ logged res,
    run_scan any_file (parses_to (COCOData.model_dump sample_data))
      [rule_R; rule_S; rule_T] "sample.json" = (logged, inr res) ∧
    total_findings res = 3 ∧
    dict_get "R" (findings res) = Some ["a"; "b"] ∧
    dict_get "S_execution_error" (findings res)
      = Some ["Rule execution failed with an internal error."] ∧
    dict_get "S" (findings res) = None ∧
    dict_get "T" (findings res) = None ∧
    dict_get "T_execution_error" (findings res) = None.
Proof.
  assert (Hparse := sample_file_parses). split; [exact Hparse|].
  destruct (run_scan_isolates_rule_failures any_file
              (parses_to (COCOData.model_dump sample_data))
              [rule_R; rule_S; rule_T] "sample.json" sample_data Hparse)
    as (logged & res & Hrun & _ & _ & Htotal & _ & Hkeys).
  exists logged, res. split; [exact Hrun|]. split; [exact Htotal|].
  assert (Hnd : NoDup ((__name__ <$> [rule_R; rule_S; rule_T]) ≫= result_keys)).
  { apply (bool_decide_unpack _). vm_compute. exact I. }
  pose proof (Hkeys Hnd rule_R ltac:(left)) as [HR _].
  pose proof (Hkeys Hnd rule_S ltac:(right; left)) as [HS HS'].
  pose proof (Hkeys Hnd rule_T ltac:(right; right; left)) as [HT HT'].
  repeat split; assumption.
Defined.

(** ** The invariant of the result, on the registry of the repository *)

Lemma scan_result_invariant_witness :
  ∃ logged res,
    run_scan any_file
      (parses_to
         (COCOData.model_dump
            (sample_with_image (sample_image 103 100 100 "empty.jpg"))))
      (get_all_rules sample_others) "sample.json" = (logged, inr res) ∧
    findings res
      = [("check_category_duplicate_ids_execution_error",
          ["Rule execution failed with an internal error."]);
         ("check_relation_images_without_annotations",
          ["Image 'empty.jpg' (ID 103) has no annotations."])] ∧
    total_findings res
      = Z.of_nat (sum_list (length <$> dict_values (findings res))) ∧
    Forall (λ l, l ≠ []) (dict_values (findings res)).
Proof.
  eexists _, _. split; [vm_compute; reflexivity|]. split; [reflexivity|].
  eapply (scan_result_invariant any_file
            (parses_to
               (COCOData.model_dump
                  (sample_with_image (sample_image 103 100 100 "empty.jpg"))))
            sample_others "sample.json").
  vm_compute. reflexivity.
Defined.

(** ** Validation *)

(** The top-level object of the sample file with one more key is rejected;
    the same key inside the info block is accepted and kept. *)
Lemma parse_coco_unknown_fields_witness :
  parse_coco any_file
    (parses_to
       (VDict (sample_fields
               ++ [("unexpected_top_level_key", VStr "some_value")])))
    "extra.json"
    = inl (InvalidFormatError
             "Data validation failed at 'unexpected_top_level_key': Extra inputs are not permitted") ∧
  ∃ doc',
    parse_coco any_file
      (parses_to
         (VDict (dict_set "info"
                   (VDict ([("year", VInt 2024)]
                           ++ [("unexpected_key", VStr "some_value")]))
                   sample_fields)))
      "extra.json" = inr doc' ∧
    COCOInfo.extra (COCOData.info doc')
      = [("unexpected_key", VStr "some_value")].
Proof.
  split.
  - refine (eq_trans
              (proj1 (parse_coco_unknown_fields any_file
                        (parses_to
                           (VDict (sample_fields
                                   ++ [("unexpected_top_level_key",
                                        VStr "some_value")])))
                        "extra.json" "{}" eq_refl)
                 sample_fields [] "unexpected_top_level_key"
                 (VStr "some_value") sample_data _ _ _)
              eq_refl).
    + reflexivity.
    + apply (bool_decide_unpack _). vm_compute. exact I.
    + vm_compute. reflexivity.
  - destruct (proj2 (parse_coco_unknown_fields any_file
                       (parses_to
                          (VDict (dict_set "info"
                                    (VDict ([("year", VInt 2024)]
                                            ++ [("unexpected_key",
                                                 VStr "some_value")]))
                                    sample_fields)))
                       "extra.json" "{}" eq_refl)
                sample_fields [("year", VInt 2024)] [] "unexpected_key"
                (VStr "some_value")
                (match COCOData.model_validate
                         (VDict (dict_set "info" (VDict [("year", VInt 2024)])
                                   sample_fields)) with
                 | inr doc => doc
                 | inl _ => sample_data
                 end))
      as (doc' & Hparse & Hextra & _).
    + reflexivity.
    + apply (bool_decide_unpack _). vm_compute. exact I.
    + vm_compute. reflexivity.
    + exists doc'. split; [exact Hparse|exact Hextra].
Defined.

(** A file whose top-level value is a list, and a file of a hundred
    thousand nested arrays, on which [json.loads] raises. *)
Lemma parse_coco_rejects_non_object_witness :
  parse_coco any_file (parses_to (VList [])) "list.json"
    = inl (InvalidFormatError
             "Data validation failed at '': Input should be a valid dictionary or instance of COCOData") ∧
  parse_coco (λ _, inr (nested_arrays (Z.to_nat 100000)))
    (raises (Raise "RecursionError")) "deep.json"
    = inl (Uncaught (Raise "RecursionError")) ∧
  run_scan (λ _, inr (nested_arrays (Z.to_nat 100000)))
    (raises (Raise "RecursionError")) (get_all_rules sample_others)
    "deep.json"
    = ([(INFO, "Core engine starting scan for: " +:+ "deep.json")],
       inl (Uncaught (Raise "RecursionError"))).
Proof.
  split.
  - refine (eq_trans
              (proj1 (parse_coco_rejects_non_object any_file
                        (parses_to (VList [])) "list.json" "{}" eq_refl)
                 (VList []) eq_refl _)
              eq_refl).
    intros [].
  - destruct (proj2 (parse_coco_rejects_non_object
                       (λ _, inr (nested_arrays (Z.to_nat 100000)))
                       (raises (Raise "RecursionError")) "deep.json"
                       (nested_arrays (Z.to_nat 100000)) eq_refl)
                (Raise "RecursionError") (get_all_rules sample_others)
                eq_refl) as (Hparse & _ & Hrun).
    split; [exact Hparse|exact Hrun].
Defined.

Lemma validation_round_trip_witness :
  COCOData.model_validate sample_raw = inr sample_data ∧
  COCOData.model_validate (COCOData.model_dump sample_data) = inr sample_data ∧
  parse_coco any_file (parses_to (COCOData.model_dump sample_data))
    "written_back.json" = inr sample_data.
Proof.
  assert (Hraw : COCOData.model_validate sample_raw = inr sample_data)
    by (vm_compute; reflexivity).
  split; [exact Hraw|].
  destruct (validation_round_trip any_file
              (parses_to (COCOData.model_dump sample_data))
              sample_raw sample_data Hraw) as [Hdump Hfile].
  split; [exact Hdump|].
  apply (Hfile "written_back.json" "{}"); reflexivity.
Defined.

(** ** The rules *)

(** The bbox [x=780, y=10, w=50, h=50] on an image of width 800: x2 = 830. *)
Lemma bbox_out_of_bounds_spec_witness :
  Forall (λ ann, length (COCOAnnotation.bbox ann) = 4%nat)
    (COCOData.annotations
       (sample_with
          (sample_annotations
           ++ [sample_box 99 101 1 [780; 10; 50; 50]%float
                 2500%float]))) ∧
  check_geometry_bbox_out_of_bounds
    (sample_with
       (sample_annotations
        ++ [sample_box 99 101 1 [780; 10; 50; 50]%float 2500%float]))
    = inr ["Annotation (ID 99) on image 'test_img_01.jpg' (ID 101) is out of bounds. Bbox [x2=830.0, y2=60.0] vs. Image [w=800, h=600]."].
Proof.
  assert (Hlen :
    Forall (λ ann, length (COCOAnnotation.bbox ann) = 4%nat)
      (COCOData.annotations
         (sample_with
            (sample_annotations
             ++ [sample_box 99 101 1 [780; 10; 50; 50]%float
                   2500%float])))).
  { repeat constructor. }
  split; [exact Hlen|].
  refine (eq_trans (proj1 (bbox_out_of_bounds_spec _ Hlen)) _).
  vm_compute. reflexivity.
Defined.


(** C2. The rule does not exempt every annotation that has segmentation
    data, as the comment in its body and the message of its test have it:
    it exempts the lists of polygons, and [polygon_annotation] is not
    reported. An annotation whose segmentation is a run-length-encoding
    object that is not empty is checked like one without segmentation:
    [rle_annotation], which validates, has a bbox of area 100 and a
    declared area of 50, and the rule reports it. *)
Theorem rle_annotation_is_flagged :
  COCOAnnotation.model_validate (COCOAnnotation.model_dump rle_annotation)
    = inr rle_annotation ∧
  (∃ rle, COCOAnnotation.segmentation rle_annotation = SegDict rle
          ∧ rle ≠ []) ∧
  check_attribute_area_bbox_mismatch (sample_with [rle_annotation])
    = inr ["Annotation (ID 7) has a mismatched area. Bbox area is 100.00, but 'area' attribute is 50.00."] ∧
  (∃ p l, COCOAnnotation.segmentation polygon_annotation = SegList (p :: l)) ∧
  check_attribute_area_bbox_mismatch (sample_with [polygon_annotation])
    = inr [].
Proof.
  split_and!.
  - vm_compute. reflexivity.
  - eexists. split; [reflexivity|discriminate].
  - vm_compute. reflexivity.
  - by eexists _, _.
  - vm_compute. reflexivity.
Qed.

(** C5 as stated fails: with fifty annotations, all of the category "car",
    the category "person" has a category record and no annotation, which is
    below the threshold of 10, and the rule reports nothing. *)
Lemma unused_category_is_not_flagged :
  (50 ≤ length (COCOData.annotations fifty_cars))%nat ∧
  sample_category 2 "person" "human" ∈ COCOData.categories fifty_cars ∧
  annotation_count fifty_cars 2 = 0%nat ∧
  below_threshold fifty_cars (annotation_count fifty_cars 2) ∧
  check_statistical_class_distribution_imbalance fifty_cars = inr [].
Proof.
  split_and!.
  - vm_compute. lia.
  - right. left.
  - vm_compute. reflexivity.
  - left. vm_compute. reflexivity.
  - vm_compute. reflexivity.
Qed.

(** ** The other properties *)

Lemma segmentation_validation_witness :
  COCOAnnotation.model_validate (VDict sample_annotation_fields)
    = inr (sample_box 1 101 1 [10; 10; 50; 50]%float 2500%float) ∧
  COCOAnnotation.segmentation
    (sample_box 1 101 1 [10; 10; 50; 50]%float 2500%float)
    = SegList [] ∧
  check_attribute_area_bbox_mismatch
    (sample_with [sample_box 1 101 1 [10; 10; 50; 50]%float 2500%float])
    = inr [].
Proof.
  assert (Hann : COCOAnnotation.model_validate (VDict sample_annotation_fields)
                 = inr (sample_box 1 101 1 [10; 10; 50; 50]%float
                          2500%float))
    by (vm_compute; reflexivity).
  destruct (segmentation_validation sample_annotation_fields _ Hann)
    as [Hseg Hnone].
  split; [exact Hann|]. split; [exact Hseg|].
  refine (eq_trans (Hnone eq_refl (sample_with [_]) eq_refl) _).
  rewrite decide_False; [reflexivity|].
  intros (? & ? & ? & ? & [= <- <- <- <-] & Hm). vm_compute in Hm.
  discriminate.
Defined.

Lemma parse_coco_document_invariants_witness :
  parse_coco any_file (parses_to sample_raw) "sample.json" = inr sample_data ∧
  Forall (λ image, 0 < COCOImage.width image ∧ 0 < COCOImage.height image)
    (COCOData.images sample_data) ∧
  Forall (λ ann,
            (COCOAnnotation.area ann <? 0)%float = false ∧
            (COCOAnnotation.iscrowd ann = 0
             ∨ COCOAnnotation.iscrowd ann = 1) ∧
            length (COCOAnnotation.bbox ann) = 4%nat)
    (COCOData.annotations sample_data) ∧
  Forall (λ kv, kv.1 ∉ COCOInfo.fields)
    (COCOInfo.extra (COCOData.info sample_data)).
Proof.
  assert (Hparse : parse_coco any_file (parses_to sample_raw) "sample.json"
                   = inr sample_data) by (vm_compute; reflexivity).
  split; [exact Hparse|].
  exact (parse_coco_document_invariants any_file (parses_to sample_raw)
           "sample.json" sample_data Hparse).
Defined.

Lemma invalid_record_rejects_file_witness :
  ∃ msg,
    parse_coco any_file
      (parses_to
         (VDict (dict_set "images" (VList [image_without_file_name])
                   sample_fields)))
      "invalid.json" = inl (InvalidFormatError msg) ∧
    run_scan any_file
      (parses_to
         (VDict (dict_set "images" (VList [image_without_file_name])
                   sample_fields)))
      (get_all_rules sample_others) "invalid.json"
      = ([(INFO, "Core engine starting scan for: " +:+ "invalid.json");
          (ERROR, "Core engine caught a parsing error. Aborting scan.")],
         inl (InvalidFormatError msg)).
Proof.
  apply (invalid_record_rejects_file any_file
           (parses_to
              (VDict (dict_set "images" (VList [image_without_file_name])
                        sample_fields)))
           "invalid.json" "{}"
           (dict_set "images" (VList [image_without_file_name]) sample_fields)
           "images" [image_without_file_name] image_without_file_name
           (get_all_rules sample_others)).
  - reflexivity.
  - reflexivity.
  - vm_compute. reflexivity.
  - left.
  - right. left. split; [reflexivity|]. eexists. vm_compute. reflexivity.
Defined.

Lemma run_scan_without_rule_failures_witness :
  ∃ logged res,
    run_scan any_file (parses_to sample_raw) (labellint_rules ascii_lower linear_percentile)
      "sample.json" = (logged, inr res) ∧
    Forall (λ k, k ∈ rule_names) (dict_keys (findings res)) ∧
    Forall (λ r, r.1 ≠ ERROR) logged.
Proof.
  destruct (run_scan_without_rule_failures any_file (parses_to sample_raw)
              ascii_lower linear_percentile "sample.json" sample_data)
    as (logged & res & Hrun & _ & Hkeys & Hlog).
  - vm_compute. reflexivity.
  - exists logged, res. split_and!; [exact Hrun|exact Hkeys|exact Hlog].
Defined.

Lemma total_zero_iff_no_findings_witness :
  ∃ logged res,
    run_scan any_file (parses_to sample_raw) [check_rule_b] "sample.json"
      = (logged, inr res) ∧
    0 ≤ total_findings res ∧
    (total_findings res = 0 ↔ findings res = []) ∧
    (total_findings res = 0 ↔
     Forall (λ rule, call rule (data res) = inr []) [check_rule_b]).
Proof.
  eexists _, _. split; [vm_compute; reflexivity|].
  eapply (total_zero_iff_no_findings any_file (parses_to sample_raw)
            [check_rule_b] "sample.json").
  vm_compute. reflexivity.
Defined.

Lemma area_within_tolerance_never_flagged_witness :
  Forall (λ ann, polygon_backed ann ∨ within_tolerance ann)
    (COCOData.annotations sample_data) ∧
  check_attribute_area_bbox_mismatch sample_data = inr [] ∧
  Forall (λ ann, ¬ mismatch_flagged ann) (COCOData.annotations sample_data).
Proof.
  assert (Hall : Forall (λ ann, polygon_backed ann ∨ within_tolerance ann)
                   (COCOData.annotations sample_data)).
  { repeat apply Forall_cons_2; try apply Forall_nil_2; right;
      eexists _, _, _, _; (split; [reflexivity|]); vm_compute; reflexivity. }
  split; [exact Hall|].
  destruct (area_within_tolerance_never_flagged sample_data Hall)
    as (Hnone & Hflag & _).
  split; [exact Hnone|exact Hflag].
Defined.

Lemma run_scan_rule_order_witness :
  ∃ logged res logged' res',
    run_scan any_file (parses_to sample_raw) [check_rule_a; check_rule_c]
      "sample.json" = (logged, inr res) ∧
    run_scan any_file (parses_to sample_raw) [check_rule_c; check_rule_a]
      "sample.json" = (logged', inr res') ∧
    data res' = data res ∧
    total_findings res' = total_findings res ∧
    findings res' ≡ₚ findings res ∧
    (∀ k, dict_get k (findings res') = dict_get k (findings res)).
Proof.
  eexists _, _, _, _. split; [vm_compute; reflexivity|].
  split; [vm_compute; reflexivity|].
  eapply (run_scan_rule_order any_file (parses_to sample_raw)
            [check_rule_a; check_rule_c] [check_rule_c; check_rule_a]
            "sample.json").
  - apply perm_swap.
  - apply (bool_decide_unpack _). vm_compute. exact I.
  - vm_compute. reflexivity.
  - vm_compute. reflexivity.
Defined.

Lemma format_json_report_witness :
  ∃ logged res summary listing,
    run_scan any_file
      (parses_to
         (COCOData.model_dump
            (sample_with_image (sample_image 103 100 100 "empty.jpg"))))
      (labellint_rules ascii_lower linear_percentile) "sample.json" = (logged, inr res) ∧
    output_dict res = VDict [("summary", summary); ("findings", listing)] ∧
    summary = VDict [("total_findings", VInt 1); ("images_scanned", VInt 3);
                     ("annotations_scanned", VInt 4);
                     ("categories_found", VInt 3)] ∧
    listing = VDict [("check_relation_images_without_annotations",
                      VList [VStr "Image 'empty.jpg' (ID 103) has no annotations."])] ∧
    value_get "total_findings" summary
      = Some (VInt (Z.of_nat (listed listing))).
Proof.
  destruct (format_json_report any_file
              (parses_to
                 (COCOData.model_dump
                    (sample_with_image (sample_image 103 100 100 "empty.jpg"))))
              (λ v _, "") ascii_lower linear_percentile "sample.json"
              (sample_with_image (sample_image 103 100 100 "empty.jpg")))
    as (logged & res & summary & listing & Hrun & _ & Hout & Htotal & _).
  - vm_compute. reflexivity.
  - exists logged, res, summary, listing.
    assert (Hres : (logged, inr res)
                   = run_scan any_file
                       (parses_to
                          (COCOData.model_dump
                             (sample_with_image
                                (sample_image 103 100 100 "empty.jpg"))))
                       (labellint_rules ascii_lower linear_percentile) "sample.json")
      by (symmetry; exact Hrun).
    vm_compute in Hres. injection Hres as -> ->.
    vm_compute in Hout. injection Hout as <- <-.
    split_and!; [vm_compute; reflexivity|vm_compute; reflexivity
                |reflexivity|reflexivity|exact Htotal].
Defined.

(** ** The tests of the repository, on the embedding *)

Example test_with_unannotated_image :
  check_relation_images_without_annotations
    (sample_with_image (sample_image 103 100 100 "empty.jpg"))
    = inr ["Image 'empty.jpg' (ID 103) has no annotations."].
Proof. vm_compute. reflexivity. Qed.

Example test_on_dataset_with_no_annotations :
  check_relation_images_without_annotations (sample_with []) = inr [].
Proof. reflexivity. Qed.

Example test_skips_annotations_with_unmatched_image_id :
  check_geometry_bbox_out_of_bounds
    (sample_with
       (sample_annotations
        ++ [sample_box 99 9999 1 [-10; -10; 50; 50]%float
              2500%float]))
    = inr [].
Proof. vm_compute. reflexivity. Qed.

Example test_with_mismatched_area :
  check_attribute_area_bbox_mismatch
    (sample_with
       (sample_annotations
        ++ [sample_box 99 101 1 [10; 10; 50; 50]%float 9999%float]))
    = inr ["Annotation (ID 99) has a mismatched area. Bbox area is 2500.00, but 'area' attribute is 9999.00."].
Proof. vm_compute. reflexivity. Qed.

Example test_skips_annotations_with_segmentation_data :
  check_attribute_area_bbox_mismatch
    (sample_with (sample_annotations ++ [polygon_annotation])) = inr [].
Proof. vm_compute. reflexivity. Qed.

Example test_class_imbalance_on_small_dataset :
  check_statistical_class_distribution_imbalance sample_data = inr [].
Proof. reflexivity. Qed.

Example test_robustness_against_unmatched_category_id :
  check_statistical_class_distribution_imbalance many_cars
    = inr ["Severe class imbalance: Category 'person' has only 1 annotations.";
           "Severe class imbalance: Category 'traffic light' has only 1 annotations."].
Proof. vm_compute. reflexivity. Qed.

Example test_aggregation_logic :
  (run_scan any_file (parses_to sample_raw)
     [check_rule_a; check_rule_b; check_rule_c] "dummy/path.json").2
    = inr {| data := sample_data;
             findings := [("check_rule_a", ["Finding A1"; "Finding A2"]);
                          ("check_rule_c", ["Finding C1"])];
             total_findings := 3 |}.
Proof. vm_compute. reflexivity. Qed.

Example test_with_no_rules_found :
  run_scan any_file (parses_to sample_raw) [] "dummy/path.json"
    = ([(INFO, "Core engine starting scan for: dummy/path.json");
        (INFO, "Data parsing and validation successful.");
        (INFO, "Discovered 0 rules to execute.");
        (WARNING, "No rules were found. The scan will have no effect.");
        (INFO, "Scan complete. Total findings: 0")],
       inr {| data := sample_data; findings := []; total_findings := 0 |}).
Proof. vm_compute. reflexivity. Qed.

Example test_handles_file_not_found :
  parse_coco (λ _, inl FileNotFoundError) (parses_to sample_raw)
    "non/existent/path.json"
    = inl (FileAccessError "The specified file does not exist.").
Proof. reflexivity. Qed.

Example test_handles_malformed_json :
  parse_coco any_file
    (λ _, inl (DecodeError
                 {| lineno := 1; colno := 2;
                    msg := "Expecting property name enclosed in double quotes" |}))
    "bad.json"
    = inl (InvalidFormatError
             "File is not a valid JSON document. Error at line 1, column 2: Expecting property name enclosed in double quotes").
Proof. vm_compute. reflexivity. Qed.

Example test_handles_schema_type_mismatch :
  parse_coco any_file
    (parses_to
       (VDict (dict_set "images" (VStr "this is the wrong type") sample_fields)))
    "invalid.json"
    = inl (InvalidFormatError
             "Data validation failed at 'images': Input should be a valid list").
Proof. vm_compute. reflexivity. Qed.

Example test_handles_missing_required_field :
  parse_coco any_file
    (parses_to
       (VDict
          (dict_set "images"
             (VList [VDict [("id", VInt 101); ("width", VInt 800);
                            ("height", VInt 600)]])
             sample_fields)))
    "invalid.json"
    = inl (InvalidFormatError
             "Data validation failed at 'images -> 0 -> file_name': Field required").
Proof. vm_compute. reflexivity. Qed.

Example test_coco_annotation_rejects_negative_bbox_dims :
  COCOAnnotation.model_validate
    (VDict [("id", VInt 1); ("image_id", VInt 1); ("category_id", VInt 1);
            ("bbox", VList [VInt 10; VInt 10; VInt (-50); VInt 50]);
            ("area", VInt 0); ("iscrowd", VInt 0)])
    = inl {| loc := [LKey "bbox"];
             type := value_error
                       "Bounding box dimensions [width, height] must be non-negative. Got [w=-50.0, h=50.0]" |}.
Proof. vm_compute. reflexivity. Qed.

Example test_with_inconsistent_case :
  check_category_case_consistency ascii_lower
    (sample_with_categories [category 4 "Car"; category 5 "PERSON"])
    = inr ["Inconsistent capitalization for 'car'. Found: Car, car";
           "Inconsistent capitalization for 'person'. Found: PERSON, person"].
Proof. vm_compute. reflexivity. Qed.

Example test_with_duplicate_names :
  check_category_duplicate_names (sample_with_categories [category 4 "car"])
    = inr ["Duplicate category name 'car' appears 2 times."].
Proof. vm_compute. reflexivity. Qed.

Example test_with_duplicate_ids :
  check_category_duplicate_ids (sample_with_categories [category 1 "truck"])
    = inr ["Duplicate category ID #1 appears 2 times."].
Proof. vm_compute. reflexivity. Qed.

Example test_with_orphaned_annotation :
  check_relation_unmatched_annotations
    (sample_with
       (sample_annotations
        ++ [sample_box 99 9999 1 [0; 0; 1; 1]%float 1%float]))
    = inr ["Orphaned annotation (ID 99) points to a missing image (ID 9999)."].
Proof. vm_compute. reflexivity. Qed.

Example test_with_unmatched_category :
  check_relation_unmatched_category
    (sample_with
       (sample_annotations
        ++ [sample_box 99 101 9999 [0; 0; 1; 1]%float 1%float]))
    = inr ["Annotation (ID 99) points to a missing category (ID 9999)."].
Proof. vm_compute. reflexivity. Qed.

Example test_with_zero_area_box :
  check_geometry_zero_area_bboxes
    (sample_with
       (sample_annotations
        ++ [sample_box 99 101 1 [10; 10; 0; 50]%float 0%float]))
    = inr ["Annotation (ID 99) on image (ID 101) has a zero-area bounding box [w=0.0, h=50.0]."].
Proof. vm_compute. reflexivity. Qed.

Example test_with_very_wide_box :
  check_statistical_bbox_aspect_ratio_outliers linear_percentile
    (sample_with
       (sample_annotations
        ++ [sample_box 99 101 1 [10; 10; 500; 10]%float
              5000%float]))
    = inr ["Annotation (ID 99) on image (ID 101) has an outlier aspect ratio of 50.00. Typical range: [-1.00 - 3.00]."].
Proof. vm_compute. reflexivity. Qed.

Example test_with_very_tall_box :
  check_statistical_bbox_aspect_ratio_outliers linear_percentile
    (sample_with
       (twenty_squares
        ++ [sample_box 98 101 1 [10; 10; 10; 500]%float
              5000%float]))
    = inr ["Annotation (ID 98) on image (ID 101) has an outlier aspect ratio of 0.02. Typical range: [1.00 - 1.00]."].
Proof. vm_compute. reflexivity. Qed.

Example test_on_data_with_no_valid_aspect_ratios :
  check_statistical_bbox_aspect_ratio_outliers linear_percentile
    (sample_with []) = inr [] ∧
  check_statistical_bbox_aspect_ratio_outliers linear_percentile
    (sample_with
       [sample_box 1 101 1 [10; 10; 0; 50]%float 0%float;
        sample_box 2 101 1 [10; 10; 50; 0]%float 0%float])
    = inr [].
Proof. split; vm_compute; reflexivity. Qed.

Example test_on_clean_data :
  Forall (λ rule, call rule sample_data = inr [])
    (labellint_rules ascii_lower linear_percentile).
Proof. repeat apply Forall_cons_2; try apply Forall_nil_2; vm_compute; reflexivity. Qed.
